(** * A shallow embedding of the Calculation Engine API client

    The repository holds a thin HTTP client for a remote Calculation
    Engine ([calculation_engine_api.py], class [CalculationEngineApi]) and
    two helpers built on it ([utils.py]: [monitor_job] and
    [download_successful_job]).

    Python values that travel through the client are embedded as [PyData]
    (what [json] produces and consumes) and [Value] (data, or a
    [requests.Response] object).  Effects are embedded by explicit state
    passing: the state is the chronological trace of everything the program
    did to the outside world (HTTP requests with the answers received,
    sleeps, log records, file writes, ...), and the outside world itself is
    a record of oracles ([Env], [Api]) that say how it answers the i-th
    request of each kind.  Python exceptions are the [Raise] results of the
    monad [M]; [while True] loops and the self-recursive downloads take a
    fuel argument and yield [Diverge] when it runs out. *)

From Stdlib Require Import ZArith QArith List String Ascii Bool Arith Lia.
From Stdlib Require Import DecimalString.
Import ListNotations.

Set Warnings "-register-all".

Open Scope string_scope.
Open Scope list_scope.
Open Scope Z_scope.

Infix "+++" := String.append (at level 60, right associativity).

(** ** Python data *)

(** Values of the JSON-shaped fragment of Python: [None], [bool], [int],
    [str], [list] and [dict] with string keys.  A dict is kept as an
    association list in insertion order. *)
Inductive PyData : Type :=
| PNone
| PBool (b : bool)
| PInt (n : Z)
| PStr (s : string)
| PList (items : list PyData)
| PDict (entries : list (string * PyData)).

(** A [requests.Response]: the status code, the body text, what
    [response.json()] yields ([None] when the body is not JSON, in which
    case [json()] raises) and the chunks that [iter_content] yields. *)
Record Response : Type := mkResponse {
  status_code : Z;
  text : string;
  json_body : option PyData;
  content : list string
}.

(** What a client method can hand back: plain data or a response object. *)
Inductive Value : Type :=
| VData (d : PyData)
| VResp (r : Response).

Definition VNone : Value := VData PNone.

Inductive Exn : Type :=
| AssertionError
| JSONDecodeError
| KeyError (key : string)
| TypeError
| AttributeError
| ZeroDivisionError
| ValueError
| MissingSchema
| HTTPError (status : Z)
| FileNotFoundError (path : string)
| ParserError.

Inductive Res (A : Type) : Type :=
| Ok (a : A)
| Raise (e : Exn)
| Diverge.

Arguments Ok {A} a.
Arguments Raise {A} e.
Arguments Diverge {A}.

(** ** Requests, events and the environment *)

Inductive Method : Type := GET | POST | PUT | PATCH | DELETE.

(** The keyword arguments given to [requests.get/post/put/patch/delete]. *)
Record Request : Type := mkRequest {
  req_method : Method;
  req_url : string;
  req_headers : list (string * string);
  req_json : option PyData;
  req_data : option (list (string * PyData));
  req_files : option (list (string * string));
  req_auth : option (string * string);
  req_stream : bool
}.

Inductive LogLevel : Type := DEBUG | INFO | ERROR.

Inductive Event : Type :=
| EvHttp (req : Request) (resp : Response)
| EvSleep (secs : Q)
| EvLog (level : LogLevel) (msg : string) (args : list Value)
| EvRandrange (start stop n : Z)
| EvMakedirs (path : string)
| EvWrite (path : string) (chunks : list string)
| EvTime (t : Q)
| EvJobList (uuid : string) (result : Res Value)
| EvDownloadJobFile (job_id : string) (path : PyData) (root_dir : string)
    (result : Res Value)
| EvPrint (msg : string) (args : list Value).

Definition Trace : Type := list Event.

(** The outside world.  [server i req] is the answer to the [i]-th HTTP
    request sent (counting from 0) when that request is [req];
    [entropy i] is the [i]-th raw draw of the random generator;
    [local_file] gives the content of the local files that can be opened
    for reading; [read_csv] is [pandas.read_csv] on a text ([None] when it
    raises); [clock i] is the [i]-th reading of [time.time()].
    Transport failures (no answer at all) are outside the model. *)
Record Env : Type := mkEnv {
  server : nat -> Request -> Response;
  entropy : nat -> Z;
  local_file : string -> option string;
  read_csv : string -> option string;
  clock : nat -> Q;
  path_exists : string -> bool
}.

(** The [api] object handed to the helpers of [utils.py]: anything with a
    [job_list] and a [download_job_file] method.  The [i]-th call of a
    method returns or raises as the oracle says. *)
Record Api : Type := mkApi {
  api_job_list : nat -> string -> Res Value;
  api_download_job_file : nat -> string -> PyData -> string -> Res Value
}.

Definition is_http (e : Event) : bool :=
  match e with EvHttp _ _ => true | _ => false end.
Definition is_randrange (e : Event) : bool :=
  match e with EvRandrange _ _ _ => true | _ => false end.
Definition is_time (e : Event) : bool :=
  match e with EvTime _ => true | _ => false end.
Definition is_job_list (e : Event) : bool :=
  match e with EvJobList _ _ => true | _ => false end.
Definition is_download (e : Event) : bool :=
  match e with EvDownloadJobFile _ _ _ _ => true | _ => false end.
Definition is_fs (e : Event) : bool :=
  match e with EvMakedirs _ | EvWrite _ _ => true | _ => false end.

Definition count (p : Event -> bool) (tr : Trace) : nat :=
  List.length (filter p tr).

(** The requests sent so far, oldest first. *)
Fixpoint http_requests (tr : Trace) : list Request :=
  match tr with
  | [] => []
  | EvHttp req _ :: tr' => req :: http_requests tr'
  | _ :: tr' => http_requests tr'
  end.

(** The sleeps taken so far, oldest first. *)
Fixpoint sleeps (tr : Trace) : list Q :=
  match tr with
  | [] => []
  | EvSleep s :: tr' => s :: sleeps tr'
  | _ :: tr' => sleeps tr'
  end.

(** The [download_job_file] calls made so far on the [api] object. *)
Fixpoint downloads (tr : Trace) : list (string * PyData * string) :=
  match tr with
  | [] => []
  | EvDownloadJobFile j p d _ :: tr' => (j, p, d) :: downloads tr'
  | _ :: tr' => downloads tr'
  end.

(** ** The monad: trace passing with exceptions *)

Definition M (A : Type) : Type := Trace -> Res A * Trace.

Definition ret {A} (a : A) : M A := fun tr => (Ok a, tr).

Definition bind {A B} (m : M A) (k : A -> M B) : M B :=
  fun tr =>
    match m tr with
    | (Ok a, tr') => k a tr'
    | (Raise e, tr') => (Raise e, tr')
    | (Diverge, tr') => (Diverge, tr')
    end.

Definition raise {A} (e : Exn) : M A := fun tr => (Raise e, tr).

Definition diverge {A} : M A := fun tr => (Diverge, tr).

(** [try: m  except Exception as err: handler err]. *)
Definition try_except {A} (m : M A) (handler : Exn -> M A) : M A :=
  fun tr =>
    match m tr with
    | (Raise e, tr') => handler e tr'
    | other => other
    end.

Definition emit (e : Event) : M unit := fun tr => (Ok tt, tr ++ [e]).

Notation "x <- m ;; k" := (bind m (fun x => k))
  (at level 61, m at next level, right associativity).
Notation "m ;; k" := (bind m (fun _ => k))
  (at level 61, right associativity).

(** [assert c]. *)
Definition assert_ (c : bool) : M unit :=
  if c then ret tt else raise AssertionError.

Definition logger_debug (msg : string) (args : list Value) : M unit :=
  emit (EvLog DEBUG msg args).
Definition logger_info (msg : string) (args : list Value) : M unit :=
  emit (EvLog INFO msg args).
Definition logger_error (msg : string) (args : list Value) : M unit :=
  emit (EvLog ERROR msg args).
Definition print (msg : string) (args : list Value) : M unit :=
  emit (EvPrint msg args).

(** [time.sleep(secs)]: a negative length is a [ValueError]. *)
Definition sleep (secs : Q) : M unit :=
  if Qle_bool 0 secs then emit (EvSleep secs) else raise ValueError.

(** [time.time()]. *)
Definition time_time (E : Env) : M Q :=
  fun tr => let t := clock E (count is_time tr) in (Ok t, tr ++ [EvTime t]).

(** [random.randrange(start, stop)]: an integer of [start <= n < stop],
    chosen by the next draw of the generator; an empty range is a
    [ValueError]. *)
Definition randrange (E : Env) (start stop : Z) : M Z :=
  fun tr =>
    if start <? stop then
      let n := start + entropy E (count is_randrange tr) mod (stop - start) in
      (Ok n, tr ++ [EvRandrange start stop n])
    else (Raise ValueError, tr).

(** [1.0 / n] for an integer [n]. *)
Definition truediv_one (n : Z) : M Q :=
  if n =? 0 then raise ZeroDivisionError else ret (1 / inject_Z n)%Q.

(** Sending one request: the server's answer to it is recorded. *)
Definition requests_send (E : Env) (req : Request) : M Response :=
  fun tr =>
    let resp := server E (count is_http tr) req in
    (Ok resp, tr ++ [EvHttp req resp]).

(** ** Operations on Python data *)

(** [str(n)] for an integer. *)
Definition str_int (n : Z) : string := NilZero.string_of_int (Z.to_int n).

(** Truth value of a datum, as [if x:] and [while x:] take it. *)
Definition truthy (d : PyData) : bool :=
  match d with
  | PNone => false
  | PBool b => b
  | PInt n => negb (n =? 0)
  | PStr s => negb (s =? "")%string
  | PList l => match l with [] => false | _ => true end
  | PDict l => match l with [] => false | _ => true end
  end.

Definition str_truthy (s : string) : bool := negb (s =? "")%string.

(** Lookup in a dict (a dict holds a key once). *)
Fixpoint lookup (k : string) (d : list (string * PyData)) : option PyData :=
  match d with
  | [] => None
  | (k', v) :: d' => if (k' =? k)%string then Some v else lookup k d'
  end.

(** [d[k] = v] on a dict [d]. *)
Fixpoint setitem (k : string) (v : PyData) (d : list (string * PyData))
  : list (string * PyData) :=
  match d with
  | [] => [(k, v)]
  | (k', v') :: d' =>
      if (k' =? k)%string then (k', v) :: d' else (k', v') :: setitem k v d'
  end.

(** [x[k]] for a string key [k]: only a dict can be indexed by a string. *)
Definition getitem (x : Value) (k : string) : M PyData :=
  match x with
  | VData (PDict d) =>
      match lookup k d with
      | Some v => ret v
      | None => raise (KeyError k)
      end
  | _ => raise TypeError
  end.

(** [response.json()]. *)
Definition response_json (r : Response) : M PyData :=
  match json_body r with
  | Some d => ret d
  | None => raise JSONDecodeError
  end.

(** Iterating over a datum: a list gives its items, a string its
    characters, a dict its keys; nothing else is iterable. *)
Definition py_iter (d : PyData) : M (list PyData) :=
  match d with
  | PList l => ret l
  | PStr s => ret (map (fun c => PStr (String c "")) (list_ascii_of_string s))
  | PDict l => ret (map (fun kv => PStr (fst kv)) l)
  | _ => raise TypeError
  end.

Definition as_int (d : PyData) : option Z :=
  match d with
  | PInt n => Some n
  | PBool b => Some (if b then 1 else 0)
  | _ => None
  end.

(** [a += b]. *)
Definition iadd (a b : PyData) : M PyData :=
  match a with
  | PList l => more <- py_iter b ;; ret (PList (l ++ more))
  | PStr s =>
      match b with PStr s' => ret (PStr (s +++ s')) | _ => raise TypeError end
  | PInt _ | PBool _ =>
      match as_int a, as_int b with
      | Some x, Some y => ret (PInt (x + y))
      | _, _ => raise TypeError
      end
  | _ => raise TypeError
  end.

(** [x > 0]. *)
Definition gt_zero (d : PyData) : M bool :=
  match as_int d with
  | Some n => ret (0 <? n)
  | None => raise TypeError
  end.

Definition in_range (lo hi n : Z) : bool := (lo <=? n) && (n <? hi).

(** ['k' in x] for a string [k].  A dict is searched by key, a list by
    item, a string by substring.  A response object is iterated chunk by
    chunk of its body, and a chunk (bytes) never equals a string. *)
Definition contains (k : string) (x : Value) : M bool :=
  match x with
  | VData (PDict d) =>
      ret (match lookup k d with Some _ => true | None => false end)
  | VData (PList l) =>
      ret (existsb (fun e => match e with
                             | PStr s => (s =? k)%string
                             | _ => false
                             end) l)
  | VData (PStr s) =>
      ret (match index 0 k s with Some _ => true | None => false end)
  | VData _ => raise TypeError
  | VResp _ => ret false
  end.

(** ** Paths and strings *)

Definition is_slash (c : ascii) : bool := (c =? "/")%char.

Fixpoint lstrip_slashes (l : list ascii) : list ascii :=
  match l with
  | c :: l' => if is_slash c then lstrip_slashes l' else l
  | [] => []
  end.

(** [s.strip('/')]. *)
Definition strip_slashes (s : string) : string :=
  string_of_list_ascii
    (rev (lstrip_slashes (rev (lstrip_slashes (list_ascii_of_string s))))).

Definition starts_with_slash (s : string) : bool :=
  match s with String c _ => is_slash c | EmptyString => false end.

Definition ends_with_slash (s : string) : bool :=
  match rev (list_ascii_of_string s) with
  | c :: _ => is_slash c
  | [] => false
  end.

(** [os.path.join(a, b)] on a POSIX system. *)
Definition path_join (a b : string) : string :=
  if starts_with_slash b then b
  else if negb (str_truthy a) || ends_with_slash a then a +++ b
  else a +++ "/" +++ b.

Fixpoint drop_to_slash (l : list ascii) : list ascii :=
  match l with
  | c :: l' => if is_slash c then l else drop_to_slash l'
  | [] => []
  end.

(** [os.path.dirname(p)]: what precedes the last slash, without its
    trailing slashes unless it consists of slashes only. *)
Definition path_dirname (p : string) : string :=
  let head := drop_to_slash (rev (list_ascii_of_string p)) in
  string_of_list_ascii
    (rev (if forallb is_slash head then head else lstrip_slashes head)).

(** [os.makedirs(path)]; the empty path does not exist. *)
Definition makedirs (path : string) : M unit :=
  if str_truthy path then emit (EvMakedirs path)
  else raise (FileNotFoundError path).

(** ** The client: [calculation_engine_api.py] *)

Record Conf : Type := mkConf {
  username : string;
  password : string;
  token : string;
  api_url_protocol : string;
  api_url_authority : string;
  api_url_basepath : string;
  api_rate_limit : Z
}.

(** A constructed [CalculationEngineApi]: its configuration and the token
    it holds. *)
Record Client : Type := mkClient {
  conf : Conf;
  api_token : string
}.

Definition url_base (self : Client) : string :=
  api_url_protocol (conf self) +++ "://" +++ api_url_authority (conf self).

Definition api_url_base (self : Client) : string :=
  url_base self +++ "/" +++ api_url_basepath (conf self).

Definition auth_only_headers (self : Client) : list (string * string) :=
  [("Authorization", "Token " +++ api_token self)].

(** [self.json_headers] (the same dict object as [self.auth_header]). *)
Definition json_headers (self : Client) : list (string * string) :=
  [("Authorization", "Token " +++ api_token self);
   ("Content-Type", "application/json")].

Definition plain_request (m : Method) (url : string)
    (headers : list (string * string)) : Request :=
  mkRequest m url headers None None None None false.

Definition json_request (m : Method) (url : string)
    (headers : list (string * string)) (body : PyData) : Request :=
  mkRequest m url headers (Some body) None None None false.

Definition display_response (response : Value) (parse_json : bool) : M Value :=
  match response with
  | VResp r =>
      logger_debug "Response code: {response.status_code}"
                   [VData (PInt (status_code r))] ;;
      try_except
        (assert_ (in_range 200 300 (status_code r)) ;;
         if parse_json then
           data <- response_json r ;;
           logger_debug "{json.dumps(data, indent=2)}" [VData data] ;;
           ret (VData data)
         else ret response)
        (fun _ =>
           logger_debug "ERROR: {response.text}" [VData (PStr (text r))] ;;
           ret response)
  | _ =>
      (* the isinstance assertion fails and is caught *)
      logger_error "Invalid response object: {err}" [response] ;;
      ret response
  end.

Definition get_api_token (E : Env) (self : Client) : M PyData :=
  response <- requests_send E
    (json_request POST (api_url_base self +++ "/token/")
       [("Content-Type", "application/json")]
       (PDict [("username", PStr (username (conf self)));
               ("password", PStr (password (conf self)))])) ;;
  data <- display_response (VResp response) true ;;
  getitem data "token".

Definition login_request (self : Client) : Request :=
  mkRequest POST (url_base self +++ "/admin/login/") [] None None None
    (Some (username (conf self), password (conf self))) false.

Definition login (E : Env) (self : Client) : M Value :=
  response <- requests_send E (login_request self) ;;
  data <- display_response (VResp response) true ;;
  ret data.

Definition rate_limit_status_code : Z := 429.

Definition rate_limiter_message : string :=
  "Response code {rate_limit_status_code} received. Rate limiter engaged.".

Definition rate_limiter (self : Client) (response : Response) : M bool :=
  if status_code response =? rate_limit_status_code then
    logger_debug rate_limiter_message [] ;;
    secs <- truediv_one (api_rate_limit (conf self)) ;;
    sleep secs ;;
    ret true
  else ret false.

(** The loop every method below is written around:
    [while True: response = send(); if not self.rate_limiter(response): break]. *)
Fixpoint retry_loop (fuel : nat) (self : Client) (send : M Response)
  : M Response :=
  match fuel with
  | O => diverge
  | S fuel' =>
      response <- send ;;
      limited <- rate_limiter self response ;;
      if limited then retry_loop fuel' self send else ret response
  end.

Definition job_create_request (self : Client) (name description : string)
    (config : PyData) : Request :=
  json_request POST (api_url_base self +++ "/ce/job/") (json_headers self)
    (PDict [("name", PStr name); ("config", config);
            ("description", PStr description)]).

Definition job_create (E : Env) (fuel : nat) (self : Client)
    (name description : string) (config : PyData) : M Value :=
  name <- (if negb (str_truthy name)
           then n <- randrange E 10000 99999 ;; ret ("test-" +++ str_int n)
           else ret name) ;;
  response <- retry_loop fuel self
                (requests_send E (job_create_request self name description config)) ;;
  display_response (VResp response) true.

Definition job_delete (E : Env) (fuel : nat) (self : Client) (uuid : string)
  : M Value :=
  response <- retry_loop fuel self
    (requests_send E
       (plain_request DELETE (api_url_base self +++ "/ce/job/" +++ uuid +++ "/")
          (json_headers self))) ;;
  display_response (VResp response) false.

(** [requests.get(url, headers=self.json_headers)] for a [url] taken from
    a response body: anything but a string has no URL scheme. *)
Definition get_page (E : Env) (self : Client) (url : PyData) : M Response :=
  match url with
  | PStr s => requests_send E (plain_request GET s (json_headers self))
  | _ => raise MissingSchema
  end.

(** The [while url:] loop of [job_list] and of [upload_list]; [acc] is
    [jobs] (resp. [uploads]). *)
Fixpoint follow_next (E : Env) (fuel n : nat) (self : Client)
    (acc url : PyData) : M Value :=
  if truthy url then
    match n with
    | O => diverge
    | S n' =>
        response <- retry_loop fuel self (get_page E self url) ;;
        response_data <- response_json response ;;
        results <- getitem (VData response_data) "results" ;;
        acc <- iadd acc results ;;
        url <- getitem (VData response_data) "next" ;;
        follow_next E fuel n' self acc url
    end
  else ret (VData acc).

(** The common body of [job_list] and [upload_list], which differ by the
    collection URL only. *)
Definition list_resource (E : Env) (fuel : nat) (self : Client)
    (collection uuid : string) : M Value :=
  let url := api_url_base self +++ collection in
  let url := if str_truthy uuid then url +++ uuid +++ "/" else url in
  response <- retry_loop fuel self
                (requests_send E (plain_request GET url (json_headers self))) ;;
  if negb (in_range 200 300 (status_code response)) then ret (VResp response)
  else
    response_data <- response_json response ;;
    if str_truthy uuid then ret (VData response_data)
    else
      items <- getitem (VData response_data) "results" ;;
      url <- getitem (VData response_data) "next" ;;
      logger_debug "Next page of results: {url}" [VData url] ;;
      follow_next E fuel fuel self items url.

Definition job_list (E : Env) (fuel : nat) (self : Client) (uuid : string)
  : M Value :=
  list_resource E fuel self "/ce/job/" uuid.

Definition upload_list (E : Env) (fuel : nat) (self : Client) (uuid : string)
  : M Value :=
  list_resource E fuel self "/ce/upload/" uuid.

Definition upload_request (self : Client) (file_content upload_path
    description : string) (public : bool) : Request :=
  mkRequest PUT (api_url_base self +++ "/ce/upload/") (auth_only_headers self)
    None
    (Some [("path", PStr upload_path); ("description", PStr description);
           ("public", PBool public)])
    (Some [("file", file_content)]) None false.

(** The local file is opened anew for every attempt. *)
Definition upload_file (E : Env) (fuel : nat) (self : Client)
    (file_path upload_path description : string) (public : bool) : M Value :=
  response <- retry_loop fuel self
    (match local_file E file_path with
     | Some fp => requests_send E
                    (upload_request self fp upload_path description public)
     | None => raise (FileNotFoundError file_path)
     end) ;;
  display_response (VResp response) true.

Definition is_not_none (d : PyData) : bool :=
  match d with PNone => false | _ => true end.
Definition isinstance_bool (d : PyData) : bool :=
  match d with PBool _ => true | _ => false end.
Definition isinstance_str (d : PyData) : bool :=
  match d with PStr _ => true | _ => false end.

(** The [data] dict built by [upload_file_update]. *)
Definition upload_update_data (public description : PyData)
  : M (list (string * PyData)) :=
  data <- (if is_not_none public
           then assert_ (isinstance_bool public) ;;
                ret (setitem "public" public [])
           else ret []) ;;
  if is_not_none description
  then assert_ (isinstance_str description) ;;
       ret (setitem "description" description data)
  else ret data.

Definition upload_update_request (self : Client) (uuid : string)
    (data : list (string * PyData)) : Request :=
  mkRequest PATCH (api_url_base self +++ "/ce/upload/" +++ uuid +++ "/")
    (auth_only_headers self) None (Some data) None None false.

Definition upload_file_update (E : Env) (fuel : nat) (self : Client)
    (uuid : string) (public description : PyData) (parse_json : bool)
  : M Value :=
  data <- upload_update_data public description ;;
  response <- retry_loop fuel self
                (requests_send E (upload_update_request self uuid data)) ;;
  display_response (VResp response) parse_json.

(** [response.raise_for_status()]. *)
Definition raise_for_status (r : Response) : M unit :=
  if in_range 400 600 (status_code r) then raise (HTTPError (status_code r))
  else ret tt.

(** Opening [file_path] for writing and copying the non-empty chunks of
    the body into it. *)
Definition write_chunks (file_path : string) (r : Response) : M unit :=
  emit (EvWrite file_path (filter str_truthy (content r))).

Definition download_request (self : Client) (url : string) : Request :=
  mkRequest GET url (json_headers self) None None None None true.

Fixpoint download_job_file (E : Env) (fuel : nat) (self : Client)
    (uuid path root_dir : string) : M Value :=
  match fuel with
  | O => diverge
  | S fuel' =>
      let url := url_base self +++ "/ce/download/" +++ uuid +++ "/"
                 +++ strip_slashes path in
      let file_path :=
        path_join (path_join root_dir uuid) (strip_slashes path) in
      makedirs (path_dirname file_path) ;;
      response <- requests_send E (download_request self url) ;;
      limited <- rate_limiter self response ;;
      if limited then download_job_file E fuel' self uuid path root_dir
      else
        raise_for_status response ;;
        write_chunks file_path response ;;
        ret VNone
  end.

(** [x.strip('/')] on a datum: only a string has the method. *)
Definition strip_method (x : PyData) : M string :=
  match x with
  | PStr s => ret (strip_slashes s)
  | _ => raise AttributeError
  end.

Fixpoint download_uploaded_file (E : Env) (fuel : nat) (self : Client)
    (uuid root_dir : string) : M Value :=
  match fuel with
  | O => diverge
  | S fuel' =>
      let url := url_base self +++ "/ce/download/" +++ uuid in
      upload <- upload_list E fuel self uuid ;;
      found <- contains "path" upload ;;
      if negb found then
        logger_error "Upload not found." [] ;;
        ret VNone
      else
        p <- getitem upload "path" ;;
        path <- strip_method p ;;
        let file_path := path_join (path_join root_dir uuid) path in
        makedirs (path_dirname file_path) ;;
        response <- requests_send E (download_request self url) ;;
        limited <- rate_limiter self response ;;
        if limited then download_uploaded_file E fuel' self uuid root_dir
        else
          raise_for_status response ;;
          write_chunks file_path response ;;
          ret VNone
  end.

Definition delete_uploaded_file (E : Env) (fuel : nat) (self : Client)
    (uuid : string) (parse_json : bool) : M Value :=
  response <- retry_loop fuel self
    (requests_send E
       (plain_request DELETE
          (api_url_base self +++ "/ce/upload/" +++ uuid +++ "/")
          (json_headers self))) ;;
  display_response (VResp response) parse_json.

(** The [data] dict built by [update_job]. *)
Definition update_job_data (saved public : PyData)
  : M (list (string * PyData)) :=
  data <- (if is_not_none saved
           then assert_ (isinstance_bool saved) ;;
                ret (setitem "saved" saved [])
           else ret []) ;;
  if is_not_none public
  then assert_ (isinstance_bool public) ;;
       ret (setitem "public" public data)
  else ret data.

Definition update_job_request (self : Client) (job_id : string)
    (data : list (string * PyData)) : Request :=
  json_request PATCH (api_url_base self +++ "/ce/job/" +++ job_id +++ "/")
    (json_headers self) (PDict data).

Definition update_job (E : Env) (fuel : nat) (self : Client)
    (job_id : string) (saved public : PyData) : M Value :=
  data <- update_job_data saved public ;;
  response <- retry_loop fuel self
                (requests_send E (update_job_request self job_id data)) ;;
  display_response (VResp response) true.

Definition list_modules (E : Env) (fuel : nat) (self : Client) : M Value :=
  response <- retry_loop fuel self
    (requests_send E
       (plain_request GET (api_url_base self +++ "/ce/module/")
          (json_headers self))) ;;
  display_response (VResp response) true.

Definition list_users (E : Env) (fuel : nat) (self : Client) : M Value :=
  response <- retry_loop fuel self
    (requests_send E
       (plain_request GET (api_url_base self +++ "/user/")
          (json_headers self))) ;;
  display_response (VResp response) true.

Definition delete_user (E : Env) (fuel : nat) (self : Client)
    (user : string) : M Value :=
  response <- retry_loop fuel self
    (requests_send E
       (plain_request DELETE (api_url_base self +++ "/user/" +++ user +++ "/")
          (json_headers self))) ;;
  display_response (VResp response) true.

Definition create_user_request (self : Client) (user pass first_name
    last_name : string) (is_staff : bool) : Request :=
  json_request POST (api_url_base self +++ "/user/") (json_headers self)
    (PDict [("username", PStr user);
            ("email", PStr (user +++ "@example.com"));
            ("is_staff", PBool is_staff);
            ("first_name",
             PStr (if str_truthy first_name then first_name else user));
            ("last_name",
             PStr (if str_truthy last_name then last_name else user));
            ("password", PStr pass)]).

Definition create_user (E : Env) (fuel : nat) (self : Client)
    (user pass first_name last_name : string) (is_staff : bool) : M Value :=
  response <- retry_loop fuel self
    (requests_send E
       (create_user_request self user pass first_name last_name is_staff)) ;;
  display_response (VResp response) true.

(** The [while url:] loop of [get_metrics]. *)
Fixpoint metrics_loop (E : Env) (fuel n : nat) (self : Client)
    (metrics : list PyData) (url : PyData) : M Value :=
  if truthy url then
    match n with
    | O => diverge
    | S n' =>
        response <- retry_loop fuel self (get_page E self url) ;;
        metrics_data <- response_json response ;;
        results <- getitem (VData metrics_data) "results" ;;
        more <- py_iter results ;;
        url <- getitem (VData metrics_data) "next" ;;
        metrics_loop E fuel n' self (metrics ++ more) url
    end
  else ret (VData (PList metrics)).

Definition get_metrics (E : Env) (fuel : nat) (self : Client) : M Value :=
  metrics_loop E fuel fuel self []
    (PStr (api_url_base self +++ "/ce/metrics/")).

(** The data frame is kept abstract as what [read_csv] makes of the text;
    the result is the frame or [None]. *)
Definition read_job_file_to_dataframe (E : Env) (self : Client)
    (uuid path : string) : M (option string) :=
  let url := url_base self +++ "/ce/download/" +++ uuid +++ "/"
             +++ strip_slashes path in
  try_except
    (response <- requests_send E (plain_request GET url (json_headers self)) ;;
     raise_for_status response ;;
     match read_csv E (text response) with
     | Some df => ret (Some df)
     | None => raise ParserError
     end)
    (fun _ => logger_error "Error reading file: {e}" [] ;; ret None).

(** [df_csv] is what [df.to_csv(fp, index=False)] writes. *)
Definition upload_dataframe (E : Env) (fuel : nat) (self : Client)
    (df_csv upload_path description : string) (public : bool) : M Value :=
  response <- retry_loop fuel self
    (requests_send E
       (upload_request self df_csv upload_path description public)) ;;
  display_response (VResp response) true.

(** ** The helpers: [utils.py] *)

(** [api.job_list(uuid=job_id)]. *)
Definition call_job_list (api : Api) (uuid : string) : M Value :=
  fun tr =>
    let r := api_job_list api (count is_job_list tr) uuid in
    (r, tr ++ [EvJobList uuid r]).

(** [api.download_job_file(job_id, path, root_dir=output_dir)]. *)
Definition call_download_job_file (api : Api) (job_id : string)
    (path : PyData) (root_dir : string) : M Value :=
  fun tr =>
    let r := api_download_job_file api (count is_download tr)
               job_id path root_dir in
    (r, tr ++ [EvDownloadJobFile job_id path root_dir r]).

(** [x in ['SUCCESS', 'FAILURE']]. *)
Definition is_terminal (st : PyData) : bool :=
  match st with
  | PStr s => (s =? "SUCCESS")%string || (s =? "FAILURE")%string
  | _ => false
  end.

(** [x == s] for a string literal [s]. *)
Definition eq_str (x : PyData) (s : string) : bool :=
  match x with
  | PStr s' => (s' =? s)%string
  | _ => false
  end.

(** [a > b] on time values. *)
Definition Qgt_bool (a b : Q) : bool := negb (Qle_bool a b).

(** The [while True:] loop of [monitor_job]. *)
Fixpoint monitor_loop (E : Env) (api : Api) (fuel : nat) (job_id : string)
    (time_limit sleep_interval start_time : Q) : M Value :=
  match fuel with
  | O => diverge
  | S fuel' =>
      job_status <- call_job_list api job_id ;;
      now <- time_time E ;;
      let elapsed_time := (now - start_time)%Q in
      st <- getitem job_status "status" ;;
      if is_terminal st then
        logger_info "Job completed. Status: {job_status['status']}"
                    [VData st] ;;
        ret job_status
      else if Qgt_bool elapsed_time time_limit then
        logger_error
          "Job {job_id} exceeded the time limit of {time_limit} seconds."
          [VData (PStr job_id)] ;;
        ret job_status
      else
        sleep sleep_interval ;;
        monitor_loop E api fuel' job_id time_limit sleep_interval start_time
  end.

(** The [try] block of [monitor_job]. *)
Definition monitor_body (E : Env) (api : Api) (fuel : nat) (job_id : string)
    (time_limit sleep_interval : Q) : M Value :=
  start_time <- time_time E ;;
  monitor_loop E api fuel job_id time_limit sleep_interval start_time.

Definition monitor_job (E : Env) (api : Api) (fuel : nat) (job_id : string)
    (time_limit sleep_interval : Q) : M Value :=
  try_except
    (monitor_body E api fuel job_id time_limit sleep_interval)
    (fun _ =>
       logger_error
         "An error occurred during job monitoring for job {job_id}: {e}"
         [VData (PStr job_id)] ;;
       ret VNone).

Fixpoint for_each {A} (l : list A) (body : A -> M unit) : M unit :=
  match l with
  | [] => ret tt
  | x :: l' => body x ;; for_each l' body
  end.

(** The body of the [for file_info in job_status['files']] loop. *)
Definition download_one (api : Api) (job_id output_dir : string)
    (file_info : PyData) : M unit :=
  p <- getitem (VData file_info) "path" ;;
  print "  {file_info['path']}..." [VData p] ;;
  size <- getitem (VData file_info) "size" ;;
  positive <- gt_zero size ;;
  if positive then
    call_download_job_file api job_id p output_dir ;; ret tt
  else ret tt.

Definition download_successful_job (E : Env) (api : Api) (job_id : string)
    (job_status : Value) (output_dir : string) : M Value :=
  st <- getitem job_status "status" ;;
  if eq_str st "SUCCESS" then
    (if negb (path_exists E output_dir) then makedirs output_dir
     else ret tt) ;;
    print "Downloading files into {os.path.join(output_dir, job_id)}"
          [VData (PStr (path_join output_dir job_id))] ;;
    files <- getitem job_status "files" ;;
    file_infos <- py_iter files ;;
    for_each file_infos (download_one api job_id output_dir) ;;
    ret VNone
  else if eq_str st "FAILURE" then
    info <- getitem job_status "error_info" ;;
    print "Job failed. Error: {job_status['error_info']}" [VData info] ;;
    ret VNone
  else
    print "Job ended with unexpected status: {job_status['status']}"
          [VData st] ;;
    print "Error info: {job_status.get('error_info', ...)}"
          [VData (match job_status with
                  | VData (PDict d) =>
                      match lookup "error_info" d with
                      | Some info => info
                      | None => PStr "No error info available"
                      end
                  | _ => PStr "No error info available"
                  end)] ;;
    ret VNone.

(** ** The rest of the client *)

(** The request of [get_api_token]. *)
Definition token_request (self : Client) : Request :=
  json_request POST (api_url_base self +++ "/token/")
    [("Content-Type", "application/json")]
    (PDict [("username", PStr (username (conf self)));
            ("password", PStr (password (conf self)))]).

(** The URL that [job_list] and [upload_list] start from. *)
Definition resource_url (self : Client) (collection uuid : string) : string :=
  let url := api_url_base self +++ collection in
  if str_truthy uuid then url +++ uuid +++ "/" else url.

Section Formatting.

(** [str(x)], as an f-string applies it to a value it interpolates. *)
Variable py_str : PyData -> string.

Definition job_delete_request (self : Client) (uuid : PyData) : Request :=
  plain_request DELETE
    (api_url_base self +++ "/ce/job/" +++ py_str uuid +++ "/")
    (json_headers self).

(** The body of the [for job in all_jobs] loop of [job_delete_all]; the
    URL, and with it [job['uuid']], is evaluated at every attempt. *)
Definition delete_listed_job (E : Env) (fuel : nat) (self : Client)
    (job : PyData) : M unit :=
  logger_debug "{job}" [VData job] ;;
  response <- retry_loop fuel self
    (uuid <- getitem (VData job) "uuid" ;;
     requests_send E (job_delete_request self uuid)) ;;
  display_response (VResp response) false ;;
  ret tt.

(** Iterating over a response object yields the chunks of its body, and a
    chunk (bytes) cannot be indexed by ['uuid']; an empty body yields no
    chunk at all. *)
Definition job_delete_all (E : Env) (fuel : nat) (self : Client) : M Value :=
  all_jobs <- job_list E fuel self "" ;;
  match all_jobs with
  | VData d =>
      jobs <- py_iter d ;;
      for_each jobs (delete_listed_job E fuel self) ;;
      ret VNone
  | VResp r =>
      if existsb str_truthy (content r) then
        logger_debug "{job}" [] ;;
        raise TypeError
      else ret VNone
  end.

End Formatting.

(** ** The plotting helpers: [plot_utils.py] *)

Definition label_map : list (string * string) :=
  [("T", "Temperature [MeV]");
   ("muB", "Baryon Chemical Potential [MeV]");
   ("muQ", "Electric Charge Chemical Potential [MeV]");
   ("muS", "Strange Chemical Potential [MeV]");
   ("nB", "Baryon Density [fm^-3]");
   ("nS", "Strange Density [fm^-3]");
   ("nQ", "Electric Charge Density [fm^-3]");
   ("E", "Energy Density [MeV / fm^3]");
   ("P", "Pressure [MeV / fm^3]");
   ("s", "Entropy Density [fm^-3]");
   ("nB_noPol", "Baryon Density (No Pol) [fm^-3]");
   ("Quark_nB", "Quark Baryon Density [fm^-3]");
   ("Octet_nB", "Octet Baryon Density [fm^-3]");
   ("Decuplet_nB", "Decuplet Baryon Density [fm^-3]")].


(** [m.get(k, k)]. *)
Fixpoint get_label (m : list (string * string)) (k : string) : string :=
  match m with
  | [] => k
  | (k', l) :: m' => if (k' =? k)%string then l else get_label m' k
  end.

(** A data frame, as far as the plotting code looks at it: the names of
    its columns, and the column its rows were last sorted by.  The rows
    themselves are never inspected. *)
Record Frame : Type := mkFrame {
  frame_columns : list string;
  frame_sorted_by : option string
}.

(** [col in df.columns]. *)
Definition has_column (df : Frame) (col : string) : bool :=
  existsb (fun c => (c =? col)%string) (frame_columns df).

(** [df[col]]. *)
Record Series : Type := mkSeries {
  series_frame : Frame;
  series_column : string
}.

Inductive PlotError : Type :=
| PlotValueError (msg : string)
| PlotKeyError (key : string).


(** [marker=dict(size=3, color=..., colorscale='Viridis',
    colorbar=dict(title=...), opacity=0.8)]. *)
Record Marker : Type := mkMarker {
  marker_size : Z;
  marker_color : Series;
  marker_colorscale : string;
  marker_colorbar_title : string;
  marker_opacity : Q
}.

(** A [go.Scatter] (no [z]) or [go.Scatter3d] trace. *)
Record PlotTrace : Type := mkPlotTrace {
  trace_x : Series;
  trace_y : Series;
  trace_z : option Series;
  trace_mode : string;
  trace_name : option string;
  trace_marker : option Marker;
  trace_line : option (string * Z)
}.

Record Figure : Type := mkFigure {
  fig_traces : list PlotTrace;
  fig_title : string;
  fig_xaxis_title : string;
  fig_yaxis_title : string;
  fig_zaxis_title : option string;
  fig_template : option string;
  fig_hovermode : option string;
  fig_legend : option (Z * Z);
  fig_margin : option (Z * Z * Z * Z);
  fig_xaxis_log : bool;
  fig_yaxis_log : bool
}.

Inductive PlotEvent : Type :=
| PlotPrint (msg : string)
| PlotShow (fig : Figure).

(** What a plotting call did, and the exception it raised if any. *)
Definition PlotRun : Type := (list PlotEvent * option PlotError)%type.

Definition column_not_found (col frame_kind : string) : PlotError :=
  PlotValueError ("Column '" +++ col +++ "' not found in " +++ frame_kind
                  +++ "DataFrame.").





(** The checks of [plot_2D_CMF_EoS_with_Lepton]: for each column, the CMF
    frame first and the lepton frame next. *)
Fixpoint first_missing_of_both (cmf_df lepton_df : Frame)
    (cols : list string) : option PlotError :=
  match cols with
  | [] => None
  | col :: cols' =>
      if negb (has_column cmf_df col)
      then Some (column_not_found col "CMF ")
      else if negb (has_column lepton_df col)
      then Some (column_not_found col "Lepton ")
      else first_missing_of_both cmf_df lepton_df cols'
  end.

Definition plot_2D_CMF_EoS_with_Lepton (cmf_df lepton_df : Frame)
    (y_col : string) : PlotRun :=
  let printed := [PlotPrint "Plotting 2D CMF EOS with Lepton data"] in
  let x_col := "E" in
  let z_col := "P" in
  match first_missing_of_both cmf_df lepton_df [x_col; y_col; z_col] with
  | Some err => (printed, Some err)
  | None =>
      let x_label := get_label label_map x_col in
      let y_label := get_label label_map y_col in
      let z_label := get_label label_map z_col in
      let scatter_trace :=
        mkPlotTrace (mkSeries cmf_df x_col) (mkSeries cmf_df y_col)
          (Some (mkSeries cmf_df z_col)) "markers" (Some "CMF EOS")
          (Some (mkMarker 3 (mkSeries cmf_df z_col) "Viridis" z_label
                   (8 # 10)))
          None in
      let line_trace :=
        mkPlotTrace (mkSeries lepton_df x_col) (mkSeries lepton_df y_col)
          (Some (mkSeries lepton_df z_col)) "lines" (Some "Lepton EOS")
          None (Some ("red", 6)) in
      let fig :=
        mkFigure [scatter_trace; line_trace]
          "2D CMF EOS with Lepton neutralization"
          x_label y_label (Some z_label) None None
          (Some (0, 1)) (Some (0, 0, 0, 40)) false false in
      (printed ++ [PlotShow fig], None)
  end.

(** The figures a plotting call showed. *)
Fixpoint shown (events : list PlotEvent) : list Figure :=
  match events with
  | [] => []
  | PlotShow fig :: events' => fig :: shown events'
  | PlotPrint _ :: events' => shown events'
  end.

(** ** The script at the end of [utils.py] *)

(** [1.5 * 10**(11)] and [0.1 * 10**(11)]; the figures are small enough
    for the floating-point values to be these very numbers. *)
Definition orbit_limit : Q := (15 # 10) * inject_Z (10 ^ 11).
Definition orbit_step : Q := (1 # 10) * inject_Z (10 ^ 11).

(** [while r < 1.5 * 10**(11): r =+ 0.1 * 10**(11)], where [r =+ x] assigns
    [+x] to [r]; the result is the value of [r] with which the loop ends. *)
Fixpoint orbit_loop (fuel : nat) (r : Q) : Res Q :=
  if Qgt_bool orbit_limit r then
    match fuel with
    | O => Diverge
    | S fuel' => orbit_loop fuel' orbit_step
    end
  else Ok r.

(** ** Describing what the server does *)

(** From request number [n0] on, the server answers [req] with the
    rate-limit status [N] times and with another status after that. *)
Definition limited_for (E : Env) (req : Request) (n0 N : nat) : Prop :=
  (forall i, (i < N)%nat ->
     status_code (server E (n0 + i) req) = rate_limit_status_code) /\
  status_code (server E (n0 + N) req) <> rate_limit_status_code.

Definition limited_forb (E : Env) (req : Request) (n0 N : nat) : bool :=
  forallb (fun i => status_code (server E (n0 + i) req)
                    =? rate_limit_status_code) (seq 0 N)
  && negb (status_code (server E (n0 + N) req) =? rate_limit_status_code).

(** [N] rate-limited attempts take [N] sleeps of [1 / api_rate_limit]
    seconds, which asks for a positive rate as soon as there is one. *)
Definition can_sleep (self : Client) (N : nat) : Prop :=
  N = 0%nat \/ 0 < api_rate_limit (conf self).

(** What [N] rate-limited attempts at [req] leave in the trace: each is
    the request, the log record and the sleep of [1 / api_rate_limit]. *)
Fixpoint limited_attempts (E : Env) (self : Client) (req : Request)
    (n0 N : nat) : Trace :=
  match N with
  | O => []
  | S N' =>
      EvHttp req (server E n0 req)
      :: EvLog DEBUG rate_limiter_message []
      :: EvSleep (1 / inject_Z (api_rate_limit (conf self)))%Q
      :: limited_attempts E self req (S n0) N'
  end.

(** [N] rate-limited attempts followed by the attempt that gets through. *)
Definition attempts (E : Env) (self : Client) (req : Request) (n0 N : nat)
  : Trace :=
  limited_attempts E self req n0 N ++ [EvHttp req (server E (n0 + N) req)].

Definition success (r : Response) : bool := in_range 200 300 (status_code r).

Definition is_log (e : Event) : bool :=
  match e with EvLog _ _ _ => true | _ => false end.

(** ** The methods made of one retry loop and [display_response] *)

Inductive Call : Type :=
| job_create_call (name description : string) (config : PyData)
| job_delete_call (uuid : string)
| upload_file_call (file_path upload_path description : string)
    (public : bool)
| upload_file_update_call (uuid : string) (public description : PyData)
    (parse_json : bool)
| delete_uploaded_file_call (uuid : string) (parse_json : bool)
| update_job_call (job_id : string) (saved public : PyData)
| list_modules_call
| list_users_call
| delete_user_call (user : string)
| create_user_call (user pass first_name last_name : string)
    (is_staff : bool)
| upload_dataframe_call (df_csv upload_path description : string)
    (public : bool).

Definition run (E : Env) (fuel : nat) (self : Client) (c : Call) : M Value :=
  match c with
  | job_create_call name description config =>
      job_create E fuel self name description config
  | job_delete_call uuid => job_delete E fuel self uuid
  | upload_file_call file_path upload_path description public =>
      upload_file E fuel self file_path upload_path description public
  | upload_file_update_call uuid public description parse_json =>
      upload_file_update E fuel self uuid public description parse_json
  | delete_uploaded_file_call uuid parse_json =>
      delete_uploaded_file E fuel self uuid parse_json
  | update_job_call job_id saved public =>
      update_job E fuel self job_id saved public
  | list_modules_call => list_modules E fuel self
  | list_users_call => list_users E fuel self
  | delete_user_call user => delete_user E fuel self user
  | create_user_call user pass first_name last_name is_staff =>
      create_user E fuel self user pass first_name last_name is_staff
  | upload_dataframe_call df_csv upload_path description public =>
      upload_dataframe E fuel self df_csv upload_path description public
  end.

(** What a call does before it sends anything: it settles the request it
    is going to send and whether the answer is to be parsed as JSON. *)
Definition prepare (E : Env) (self : Client) (c : Call)
  : M (Request * bool) :=
  match c with
  | job_create_call name description config =>
      name <- (if negb (str_truthy name)
               then n <- randrange E 10000 99999 ;;
                    ret ("test-" +++ str_int n)
               else ret name) ;;
      ret (job_create_request self name description config, true)
  | job_delete_call uuid =>
      ret (plain_request DELETE
             (api_url_base self +++ "/ce/job/" +++ uuid +++ "/")
             (json_headers self), false)
  | upload_file_call file_path upload_path description public =>
      match local_file E file_path with
      | Some fp =>
          ret (upload_request self fp upload_path description public, true)
      | None => raise (FileNotFoundError file_path)
      end
  | upload_file_update_call uuid public description parse_json =>
      data <- upload_update_data public description ;;
      ret (upload_update_request self uuid data, parse_json)
  | delete_uploaded_file_call uuid parse_json =>
      ret (plain_request DELETE
             (api_url_base self +++ "/ce/upload/" +++ uuid +++ "/")
             (json_headers self), parse_json)
  | update_job_call job_id saved public =>
      data <- update_job_data saved public ;;
      ret (update_job_request self job_id data, true)
  | list_modules_call =>
      ret (plain_request GET (api_url_base self +++ "/ce/module/")
             (json_headers self), true)
  | list_users_call =>
      ret (plain_request GET (api_url_base self +++ "/user/")
             (json_headers self), true)
  | delete_user_call user =>
      ret (plain_request DELETE
             (api_url_base self +++ "/user/" +++ user +++ "/")
             (json_headers self), true)
  | create_user_call user pass first_name last_name is_staff =>
      ret (create_user_request self user pass first_name last_name is_staff,
           true)
  | upload_dataframe_call df_csv upload_path description public =>
      ret (upload_request self df_csv upload_path description public, true)
  end.

(** ** Describing a paginated listing *)

(** One page as the server serves it: its URL, how many times the request
    for it is rate-limited first, its [results] and its [next]. *)
Record Page : Type := mkPage {
  page_url : string;
  page_retries : nat;
  page_results : list PyData;
  page_next : PyData
}.

Definition page_request (self : Client) (p : Page) : Request :=
  plain_request GET (page_url p) (json_headers self).

(** [url] leads to the first of [pages], or is empty when there is none. *)
Definition leads_to (url : PyData) (pages : list Page) : Prop :=
  match pages with
  | [] => truthy url = false
  | p :: _ => url = PStr (page_url p) /\ truthy url = true
  end.

(** From request number [n0] on, the server serves [pages] one after the
    other: the request for each page is rate-limited [page_retries] times
    and then answered with a successful response whose body has the
    page's [results] array and its [next] field; [next] leads to the page
    that follows and is empty on the last page. *)
Fixpoint serves_pages (E : Env) (self : Client) (n0 : nat)
    (pages : list Page) : Prop :=
  match pages with
  | [] => True
  | p :: rest =>
      let r := server E (n0 + page_retries p) (page_request self p) in
      limited_for E (page_request self p) n0 (page_retries p) /\
      success r = true /\
      (exists d, json_body r = Some (PDict d) /\
                 lookup "results" d = Some (PList (page_results p)) /\
                 lookup "next" d = Some (page_next p)) /\
      leads_to (page_next p) rest /\
      serves_pages E self (n0 + page_retries p + 1) rest
  end.

(** The requests that fetching [pages] takes, in order. *)
Definition page_requests (self : Client) (pages : list Page) : list Request :=
  flat_map (fun p => repeat (page_request self p) (S (page_retries p))) pages.

Definition total_attempts (pages : list Page) : nat :=
  fold_right (fun p n => (S (page_retries p) + n)%nat) 0%nat pages.

(** What fetching [pages] leaves in the trace, the first request being
    number [n0]. *)
Fixpoint pages_trace (E : Env) (self : Client) (n0 : nat)
    (pages : list Page) : Trace :=
  match pages with
  | [] => []
  | p :: rest =>
      attempts E self (page_request self p) n0 (page_retries p)
      ++ pages_trace E self (n0 + page_retries p + 1) rest
  end.

(** ** Describing names and payloads *)

Definition is_digit (c : ascii) : bool :=
  let n := nat_of_ascii c in (48 <=? n)%nat && (n <=? 57)%nat.

(** Five characters, all of them decimal digits. *)
Definition five_digits (s : string) : bool :=
  (String.length s =? 5)%nat && forallb is_digit (list_ascii_of_string s).

(** [p] holds of the [k] integers from [n] on. *)
Fixpoint all_from (k : nat) (n : Z) (p : Z -> bool) : bool :=
  match k with
  | O => true
  | S k' => p n && all_from k' (n + 1) p
  end.

(** The keyword arguments that were given, that is, are not [None]. *)
Definition present_fields (args : list (string * PyData))
  : list (string * PyData) :=
  filter (fun kv => is_not_none (snd kv)) args.

(** A flag argument that fails [isinstance(x, bool)] where it is checked. *)
Definition bad_flag (x : PyData) : bool :=
  is_not_none x && negb (isinstance_bool x).

(** A text argument that fails [isinstance(x, str)] where it is checked. *)
Definition bad_text (x : PyData) : bool :=
  is_not_none x && negb (isinstance_str x).

(** ** Describing computations and manifests *)

(** A computation that only adds to the trace. *)
Definition extends {A} (m : M A) : Prop :=
  forall tr, exists evs, snd (m tr) = tr ++ evs.

(** [file_info] is a manifest entry with the given path and size. *)
Definition manifest_entry (file_info : PyData) (entry : PyData * Z) : Prop :=
  exists fields,
    file_info = PDict fields /\
    lookup "path" fields = Some (fst entry) /\
    lookup "size" fields = Some (PInt (snd entry)).

(** ** A concrete world, for running the model *)

Definition demo_conf : Conf :=
  mkConf "admin" "password" "secret" "http" "localhost:4000" "api/v0" 2.

Definition demo_client : Client := mkClient demo_conf "secret".

Definition too_many_requests : Response :=
  mkResponse 429 "Too Many Requests" None [].

Definition ok_response (body : PyData) : Response :=
  mkResponse 200 "" (Some body) [].

Definition server_error : Response :=
  mkResponse 500 "<html>Internal Server Error</html>" None
    ["<html>Internal Server Error</html>"].

(** A server that plays a script: the [i]-th request gets the [i]-th
    response, and a 500 once the script is over. *)
Definition scripted (script : list Response) : nat -> Request -> Response :=
  fun i _ => nth i script server_error.

(** The clock of this world reads 0, 40, 80, ... seconds; it has no local
    file and no directory. *)
Definition demo_env (script : list Response) : Env :=
  mkEnv (scripted script)
        (fun i => Z.of_nat i * 7919 + 4242)
        (fun _ => None)
        (fun s => Some s)
        (fun i => inject_Z (40 * Z.of_nat i))
        (fun _ => false).

Definition not_found : Response :=
  mkResponse 404 "{detail: Not found.}"
    (Some (PDict [("detail", PStr "Not found.")])) [].

(** An [api] object whose [job_list] plays a script of job statuses and
    whose [download_job_file] always returns. *)
Definition demo_api (statuses : list PyData) : Api :=
  mkApi (fun i _ => match nth_error statuses i with
                    | Some d => Ok (VData d)
                    | None => Raise (HTTPError 500)
                    end)
        (fun _ _ _ _ => Ok VNone).

(** An [api] object whose downloads all fail on a 404 answer, as
    [raise_for_status] makes them. *)
Definition failing_api : Api :=
  mkApi (fun _ _ => Raise (HTTPError 404))
        (fun _ _ _ _ => Raise (HTTPError 404)).

Definition job_status_of (status : string) : PyData :=
  PDict [("uuid", PStr "job-1"); ("status", PStr status)].

Definition first_page : Page :=
  mkPage "http://localhost:4000/api/v0/ce/job/" 1 [PInt 1; PInt 2]
         (PStr "http://localhost:4000/api/v0/ce/job/?page=2").

Definition last_page : Page :=
  mkPage "http://localhost:4000/api/v0/ce/job/?page=2" 0 [PInt 3] PNone.

Definition page_body (p : Page) : PyData :=
  PDict [("count", PInt 3); ("next", page_next p);
         ("results", PList (page_results p))].

(** The first request is rate-limited, then the two pages are served. *)
Definition paged_env : Env :=
  demo_env [too_many_requests; ok_response (page_body first_page);
            ok_response (page_body last_page)].

(** An [api] object whose job keeps running. *)
Definition running_api : Api :=
  demo_api [job_status_of "RUNNING"; job_status_of "RUNNING";
            job_status_of "RUNNING"; job_status_of "RUNNING"].

Definition manifest_status : list (string * PyData) :=
  [("status", PStr "SUCCESS");
   ("files", PList [PDict [("path", PStr "out/eos.csv"); ("size", PInt 10)];
                    PDict [("path", PStr "out/empty.log"); ("size", PInt 0)]])].

(** ** Describing what a method hands back *)

(** What [display_response] makes of a response. *)
Definition displayed (r : Response) (parse_json : bool) : Value :=
  if success r then
    if parse_json then
      match json_body r with
      | Some d => VData d
      | None => VResp r
      end
    else VResp r
  else VResp r.

(** A version of [str] that is right on [None], booleans, integers and
    strings (containers are written [...]). *)
Definition scalar_str (x : PyData) : string :=
  match x with
  | PNone => "None"
  | PBool true => "True"
  | PBool false => "False"
  | PInt n => str_int n
  | PStr s => s
  | _ => "..."
  end.

(** ** Describing a streamed download *)

(** What [N] rate-limited attempts at a download leave in the trace: the
    directory is made anew before every attempt. *)
Fixpoint limited_downloads (E : Env) (self : Client) (req : Request)
    (dir : string) (n0 N : nat) : Trace :=
  match N with
  | O => []
  | S N' =>
      EvMakedirs dir
      :: EvHttp req (server E n0 req)
      :: EvLog DEBUG rate_limiter_message []
      :: EvSleep (1 / inject_Z (api_rate_limit (conf self)))%Q
      :: limited_downloads E self req dir (S n0) N'
  end.

(** The characters of [s.strip('/')]. *)
Definition stripped (l : list ascii) : list ascii :=
  rev (lstrip_slashes (rev (lstrip_slashes l))).

(** ** Describing the deletion of all jobs *)

(** [job] is a job record whose ['uuid'] entry is [uuid]. *)
Definition job_with_uuid (job uuid : PyData) : Prop :=
  exists fields, job = PDict fields /\ lookup "uuid" fields = Some uuid.

(** From request number [n0] on, the server answers the deletions of the
    jobs in turn, the deletion of each job being rate-limited a number of
    times first (the list pairs each job's uuid with that number). *)
Fixpoint serves_deletes (py_str : PyData -> string) (E : Env) (self : Client)
    (n0 : nat) (deletions : list (PyData * nat)) : Prop :=
  match deletions with
  | [] => True
  | (uuid, retries) :: rest =>
      can_sleep self retries /\
      limited_for E (job_delete_request py_str self uuid) n0 retries /\
      serves_deletes py_str E self (n0 + retries + 1) rest
  end.

(** The requests that these deletions take, in order. *)
Definition delete_requests (py_str : PyData -> string) (self : Client)
    (deletions : list (PyData * nat)) : list Request :=
  flat_map (fun del => repeat (job_delete_request py_str self (fst del))
                         (S (snd del))) deletions.

(** ** More of the concrete world *)

(** A client configured with a rate of zero. *)
Definition zero_rate_client : Client :=
  mkClient (mkConf "admin" "password" "secret" "http" "localhost:4000"
              "api/v0" 0) "secret".

(** The world of [demo_env] with one local file in it. *)
Definition file_env (script : list Response) : Env :=
  mkEnv (scripted script)
        (fun i => Z.of_nat i * 7919 + 4242)
        (fun path => if (path =? "eos.csv")%string then Some "T,P" else None)
        (fun s => Some s)
        (fun i => inject_Z (40 * Z.of_nat i))
        (fun _ => false).



Definition two_jobs : list PyData :=
  [PDict [("uuid", PStr "a"); ("name", PStr "first")];
   PDict [("uuid", PStr "b"); ("name", PStr "second")]].

(** The listing of two jobs on one page, then the deletions, the first
    of which is rate-limited once. *)
Definition delete_env : Env :=
  demo_env [ok_response (PDict [("next", PNone); ("results", PList two_jobs)]);
            too_many_requests; mkResponse 204 "" None [];
            mkResponse 204 "" None []].

Definition eos_frame : Frame := mkFrame ["T"; "muB"; "nB"; "E"; "P"] None.

Definition lepton_frame : Frame := mkFrame ["nB"; "E"; "P"] None.


(** ** Facts about traces *)

Lemma count_app (p : Event -> bool) (a b : Trace) :
  count p (a ++ b) = (count p a + count p b)%nat.
Proof. unfold count. now rewrite filter_app, length_app. Qed.

Lemma count_cons (p : Event -> bool) (e : Event) (a : Trace) :
  count p (e :: a) = ((if p e then 1 else 0) + count p a)%nat.
Proof. unfold count. simpl. now destruct (p e). Qed.

Lemma count_nil (p : Event -> bool) : count p [] = 0%nat.
Proof. reflexivity. Qed.

Ltac count_events :=
  rewrite ?count_app, ?count_cons, ?count_nil; simpl; try lia.

Lemma http_requests_app (a b : Trace) :
  http_requests (a ++ b) = http_requests a ++ http_requests b.
Proof.
  induction a as [|e a IH]; simpl; [reflexivity|].
  destruct e; simpl; now rewrite ?IH.
Qed.

Lemma sleeps_app (a b : Trace) : sleeps (a ++ b) = sleeps a ++ sleeps b.
Proof.
  induction a as [|e a IH]; simpl; [reflexivity|].
  destruct e; simpl; now rewrite ?IH.
Qed.

Lemma downloads_app (a b : Trace) :
  downloads (a ++ b) = downloads a ++ downloads b.
Proof.
  induction a as [|e a IH]; simpl; [reflexivity|].
  destruct e; simpl; now rewrite ?IH.
Qed.

Lemma count_http_limited_attempts E self req n0 N :
  count is_http (limited_attempts E self req n0 N) = N.
Proof.
  revert n0; induction N as [|N IH]; intros n0; [reflexivity|].
  simpl. count_events. now rewrite IH.
Qed.

Lemma count_http_attempts E self req n0 N :
  count is_http (attempts E self req n0 N) = S N.
Proof.
  unfold attempts. rewrite count_app, count_http_limited_attempts.
  count_events.
Qed.

Lemma http_requests_attempts E self req n0 N :
  http_requests (attempts E self req n0 N) = repeat req (S N).
Proof.
  unfold attempts. rewrite http_requests_app. simpl.
  revert n0; induction N as [|N IH]; intros n0; [reflexivity|].
  simpl. now rewrite IH.
Qed.

Lemma sleeps_attempts E self req n0 N :
  sleeps (attempts E self req n0 N)
  = repeat (1 / inject_Z (api_rate_limit (conf self)))%Q N.
Proof.
  unfold attempts. rewrite sleeps_app. simpl. rewrite app_nil_r.
  revert n0; induction N as [|N IH]; intros n0; [reflexivity|].
  simpl. now rewrite IH.
Qed.

Lemma fs_attempts E self req n0 N :
  filter is_fs (attempts E self req n0 N) = [].
Proof.
  unfold attempts. rewrite filter_app. simpl. rewrite app_nil_r.
  revert n0; induction N as [|N IH]; intros n0; [reflexivity|].
  simpl. now rewrite IH.
Qed.

Lemma limited_forb_sound E req n0 N :
  limited_forb E req n0 N = true -> limited_for E req n0 N.
Proof.
  unfold limited_forb, limited_for. intros H.
  apply andb_true_iff in H. destruct H as [Hall Hlast]. split.
  - intros i Hi. rewrite forallb_forall in Hall.
    apply Z.eqb_eq, Hall, in_seq. lia.
  - apply negb_true_iff, Z.eqb_neq in Hlast. exact Hlast.
Qed.

Lemma limited_for_shift E req n0 N :
  limited_for E req n0 (S N) -> limited_for E req (S n0) N.
Proof.
  intros [Hall Hlast]. split.
  - intros i Hi. replace (S n0 + i)%nat with (n0 + S i)%nat by lia.
    apply Hall. lia.
  - now replace (S n0 + N)%nat with (n0 + S N)%nat by lia.
Qed.

(** ** The rate limiter and the retry loop *)

Lemma requests_send_eq E req (tr : Trace) :
  requests_send E req tr
  = (Ok (server E (count is_http tr) req),
     tr ++ [EvHttp req (server E (count is_http tr) req)]).
Proof. reflexivity. Qed.

Lemma sleep_positive_rate [rate : Z] (tr : Trace) :
  0 < rate ->
  (secs <- truediv_one rate ;; sleep secs) tr
  = (Ok tt, tr ++ [EvSleep (1 / inject_Z rate)%Q]).
Proof.
  intros Hrate. unfold bind, truediv_one.
  destruct (rate =? 0) eqn:H0; [apply Z.eqb_eq in H0; lia|].
  unfold ret, sleep.
  assert (Hle : Qle_bool 0 (1 / inject_Z rate) = true).
  { apply Qle_bool_iff. apply Qle_shift_div_l.
    - unfold Qlt, inject_Z; simpl. lia.
    - unfold Qle, inject_Z; simpl. lia. }
  now rewrite Hle.
Qed.

Lemma rate_limiter_limited self (r : Response) (tr : Trace) :
  0 < api_rate_limit (conf self) ->
  status_code r = rate_limit_status_code ->
  rate_limiter self r tr
  = (Ok true, tr ++ [EvLog DEBUG rate_limiter_message [];
                     EvSleep (1 / inject_Z (api_rate_limit (conf self)))%Q]).
Proof.
  intros Hrate Hs. unfold rate_limiter. rewrite Hs, Z.eqb_refl.
  unfold bind at 1. unfold logger_debug, emit.
  pose proof (sleep_positive_rate (tr ++ [EvLog DEBUG rate_limiter_message []])
                Hrate) as Hsl.
  unfold bind in *.
  destruct (truediv_one (api_rate_limit (conf self))
              (tr ++ [EvLog DEBUG rate_limiter_message []])) as [[q| |] t];
    try discriminate.
  rewrite Hsl. unfold ret. now rewrite <- app_assoc.
Qed.

Lemma rate_limiter_pass self (r : Response) (tr : Trace) :
  status_code r <> rate_limit_status_code ->
  rate_limiter self r tr = (Ok false, tr).
Proof.
  intros Hs. unfold rate_limiter.
  destruct (status_code r =? rate_limit_status_code) eqn:H;
    [apply Z.eqb_eq in H; contradiction | reflexivity].
Qed.

Lemma retry_loop_attempts E self req :
  forall N fuel tr,
    can_sleep self N ->
    limited_for E req (count is_http tr) N ->
    (N < fuel)%nat ->
    retry_loop fuel self (requests_send E req) tr
    = (Ok (server E (count is_http tr + N) req),
       tr ++ attempts E self req (count is_http tr) N).
Proof.
  induction N as [|N IH]; intros fuel tr Hrate Hlim Hfuel;
    [|destruct Hrate as [Hrate|Hrate]; [discriminate|]].
  - destruct fuel as [|fuel]; [lia|]. simpl.
    destruct Hlim as [_ Hlast]. rewrite Nat.add_0_r in *.
    unfold bind at 1. rewrite requests_send_eq.
    unfold bind. rewrite rate_limiter_pass by assumption.
    unfold ret, attempts. simpl. now rewrite Nat.add_0_r.
  - destruct fuel as [|fuel]; [lia|]. simpl.
    pose proof Hlim as [Hall _].
    specialize (Hall 0%nat (Nat.lt_0_succ N)). rewrite Nat.add_0_r in Hall.
    unfold bind at 1. rewrite requests_send_eq.
    unfold bind at 1. rewrite rate_limiter_limited by assumption.
    set (tr1 := (tr ++ [EvHttp req (server E (count is_http tr) req)]) ++ _).
    assert (Hc : count is_http tr1 = S (count is_http tr)).
    { unfold tr1. count_events. }
    cbv beta iota. rewrite (IH fuel tr1).
    + rewrite Hc. unfold tr1, attempts. simpl.
      replace (S (count is_http tr + N)) with (count is_http tr + S N)%nat
        by lia.
      now rewrite <- !app_assoc.
    + now right.
    + rewrite Hc. now apply limited_for_shift.
    + lia.
Qed.

(** With a positive rate the rate limiter either engages, leaving its log
    record and its sleep, or lets the response through untouched. *)
Lemma rate_limiter_cases self (r : Response) (tr : Trace) :
  exists res evs,
    rate_limiter self r tr = (res, tr ++ evs) /\ http_requests evs = [].
Proof.
  unfold rate_limiter.
  destruct (status_code r =? rate_limit_status_code).
  - unfold bind, logger_debug, emit, truediv_one.
    destruct (api_rate_limit (conf self) =? 0).
    + eexists _, [_]. split; reflexivity.
    + unfold ret, sleep.
      destruct (Qle_bool 0 (1 / inject_Z (api_rate_limit (conf self)))).
      * unfold emit. eexists _, [_; _]. rewrite <- app_assoc. now split.
      * unfold raise. eexists _, [_]. now split.
  - exists (Ok false), []. rewrite app_nil_r. now split.
Qed.

(** Whatever the server answers, the loop sends one and the same request,
    and sends it at least once. *)
Lemma retry_loop_requests E self req :
  forall fuel tr,
  exists res evs m,
    retry_loop fuel self (requests_send E req) tr = (res, tr ++ evs) /\
    http_requests evs = repeat req m /\
    ((0 < fuel)%nat -> (1 <= m)%nat).
Proof.
  induction fuel as [|fuel IH]; intros tr.
  - exists Diverge, [], 0%nat. rewrite app_nil_r. repeat split. lia.
  - simpl. unfold bind at 1. rewrite requests_send_eq.
    set (tr1 := tr ++ [_]).
    destruct (rate_limiter_cases self (server E (count is_http tr) req) tr1)
      as (res & evs & Hrl & Hevs).
    unfold bind. rewrite Hrl.
    destruct res as [[|]| |].
    + destruct (IH (tr1 ++ evs)) as (res' & evs' & m & Hloop & Hreq & _).
      rewrite Hloop. exists res', ([EvHttp req (server E (count is_http tr) req)] ++ evs ++ evs'), (S m).
      unfold tr1. rewrite <- !app_assoc. split; [reflexivity|].
      split; [|lia]. simpl. rewrite http_requests_app, Hevs, Hreq.
      reflexivity.
    + eexists _, ([EvHttp req (server E (count is_http tr) req)] ++ evs), 1%nat.
      unfold tr1, ret. rewrite <- !app_assoc. split; [reflexivity|].
      split; [|lia]. simpl. now rewrite Hevs.
    + eexists _, ([EvHttp req (server E (count is_http tr) req)] ++ evs), 1%nat.
      unfold tr1. rewrite <- !app_assoc. split; [reflexivity|].
      split; [|lia]. simpl. now rewrite Hevs.
    + eexists _, ([EvHttp req (server E (count is_http tr) req)] ++ evs), 1%nat.
      unfold tr1. rewrite <- !app_assoc. split; [reflexivity|].
      split; [|lia]. simpl. now rewrite Hevs.
Qed.

(** ** The response handler *)

(** [display_response] returns a value and leaves log records only. *)
Lemma display_response_returns (response : Value) (parse_json : bool)
    (tr : Trace) :
  exists v logs,
    display_response response parse_json tr = (Ok v, tr ++ logs) /\
    logs <> [] /\ forallb is_log logs = true.
Proof.
  destruct response as [d|r]; simpl.
  - eexists _, [_]. repeat split. discriminate.
  - unfold bind at 1, logger_debug at 1, emit. unfold try_except, bind.
    unfold assert_. destruct (in_range 200 300 (status_code r)).
    + unfold ret at 1. destruct parse_json.
      * unfold response_json. destruct (json_body r) as [d|].
        -- unfold ret, logger_debug, emit. eexists _, [_; _].
           rewrite <- app_assoc. repeat split. discriminate.
        -- unfold raise, ret, logger_debug, emit. eexists _, [_; _].
           rewrite <- app_assoc. repeat split. discriminate.
      * unfold ret. eexists _, [_]. repeat split. discriminate.
    + unfold raise, ret, logger_debug, emit. eexists _, [_; _].
      rewrite <- app_assoc. repeat split. discriminate.
Qed.

Lemma logs_no_requests (logs : Trace) :
  forallb is_log logs = true -> http_requests logs = [].
Proof.
  induction logs as [|e logs IH]; [reflexivity|]. simpl.
  destruct e; simpl; try discriminate. exact IH.
Qed.

(** A method of the shape "retry loop, then [display_response]" sends one
    and the same request, at least once. *)
Lemma retry_display_requests E self req (parse_json : bool) fuel tr :
  exists m,
    http_requests
      (snd ((response <- retry_loop fuel self (requests_send E req) ;;
             display_response (VResp response) parse_json) tr))
    = http_requests tr ++ repeat req m /\
    ((0 < fuel)%nat -> (1 <= m)%nat).
Proof.
  destruct (retry_loop_requests E self req fuel tr)
    as (res & evs & m & Hloop & Hreq & Hm).
  exists m. split; [|exact Hm]. unfold bind. rewrite Hloop.
  destruct res as [r| |]; cbv beta iota.
  - destruct (display_response_returns (VResp r) parse_json (tr ++ evs))
      as (v & logs & Hd & _ & Hlogs).
    rewrite Hd. cbn [snd].
    now rewrite !http_requests_app, Hreq, (logs_no_requests _ Hlogs), app_nil_r.
  - cbn [snd]. now rewrite http_requests_app, Hreq.
  - cbn [snd]. now rewrite http_requests_app, Hreq.
Qed.

(** C3: the response handler never raises.  Whatever object it is given,
    [display_response] returns a value and does nothing but log; given a
    response with a 2xx status and asked to parse JSON, it returns the
    parsed body; given a response with any other status, or one whose body
    is not JSON when parsing is asked for, it logs and returns the response
    object itself. *)
Theorem C3_display_response_never_raises :
  forall (response : Value) (parse_json : bool) (tr : Trace),
    (exists v logs,
        display_response response parse_json tr = (Ok v, tr ++ logs) /\
        logs <> [] /\ forallb is_log logs = true) /\
    (forall r d,
        response = VResp r -> success r = true -> parse_json = true ->
        json_body r = Some d ->
        fst (display_response response parse_json tr) = Ok (VData d)) /\
    (forall r,
        response = VResp r ->
        success r = false \/ (parse_json = true /\ json_body r = None) ->
        display_response response parse_json tr
        = (Ok (VResp r),
           tr ++ [EvLog DEBUG "Response code: {response.status_code}"
                        [VData (PInt (status_code r))];
                  EvLog DEBUG "ERROR: {response.text}"
                        [VData (PStr (text r))]])).
Proof.
  intros response parse_json tr. split; [|split].
  - apply display_response_returns.
  - intros r d -> Hs -> Hj. unfold success in Hs. simpl.
    unfold bind at 1, logger_debug at 1, emit, try_except, bind, assert_.
    rewrite Hs. unfold ret at 1. unfold response_json. now rewrite Hj.
  - intros r -> H. simpl.
    unfold bind at 1, logger_debug at 1, emit, try_except, bind, assert_.
    unfold success in H.
    destruct (in_range 200 300 (status_code r)).
    + destruct H as [H|[-> Hj]]; [discriminate|].
      unfold ret at 1. unfold response_json. rewrite Hj.
      unfold raise, logger_debug, emit, ret. now rewrite <- app_assoc.
    + unfold raise, logger_debug, emit, ret. now rewrite <- app_assoc.
Qed.

(** ** Job creation *)

Lemma all_from_spec (p : Z -> bool) :
  forall k n, all_from k n p = true ->
  forall m, n <= m < n + Z.of_nat k -> p m = true.
Proof.
  induction k as [|k IH]; intros n H m Hm; [lia|].
  simpl in H. apply andb_true_iff in H. destruct H as [Hn Hrest].
  destruct (Z.eq_dec m n) as [->|Hne]; [exact Hn|].
  apply (IH (n + 1) Hrest). lia.
Qed.

Lemma five_digits_range (n : Z) :
  10000 <= n < 99999 -> five_digits (str_int n) = true.
Proof.
  intros Hn.
  apply (all_from_spec (fun n => five_digits (str_int n))
           (Z.to_nat 89999) 10000).
  - vm_compute. reflexivity.
  - rewrite Z2Nat.id; lia.
Qed.

(** C7: a job created with an empty name is sent under a generated name.
    Every request that [job_create] sends for an empty [name] (there is at
    least one) carries the name [test-] followed by the decimal writing of
    one integer [n] with [10000 <= n < 99999], which has five digits. *)
Theorem C7_job_create_generated_name :
  forall (E : Env) (fuel : nat) (self : Client) (description : string)
         (config : PyData) (tr : Trace),
    (0 < fuel)%nat ->
    exists (n : Z) (m : nat),
      10000 <= n < 99999 /\
      five_digits (str_int n) = true /\
      (1 <= m)%nat /\
      http_requests (snd (job_create E fuel self "" description config tr))
      = http_requests tr ++
        repeat (json_request POST (api_url_base self +++ "/ce/job/")
                  (json_headers self)
                  (PDict [("name", PStr ("test-" +++ str_int n));
                          ("config", config);
                          ("description", PStr description)])) m.
Proof.
  intros E fuel self description config tr Hfuel.
  set (n := 10000 + entropy E (count is_randrange tr) mod (99999 - 10000)).
  assert (Hn : 10000 <= n < 99999).
  { unfold n.
    pose proof (Z.mod_pos_bound (entropy E (count is_randrange tr))
                  (99999 - 10000) ltac:(lia)). lia. }
  destruct (retry_display_requests E self
              (job_create_request self ("test-" +++ str_int n) description config)
              true fuel (tr ++ [EvRandrange 10000 99999 n]))
    as (m & Hreq & Hm).
  exists n, m. repeat split; try lia.
  - now apply five_digits_range.
  - unfold job_create. unfold bind at 1. simpl str_truthy. cbv iota.
    unfold bind at 1. unfold randrange. simpl (10000 <? 99999). cbv iota.
    fold n. unfold ret at 1.
    rewrite http_requests_app in Hreq. simpl in Hreq.
    rewrite app_nil_r in Hreq. exact Hreq.
Qed.

(** ** Updating an upload or a job *)

Lemma upload_update_data_checked (public description : PyData) (tr : Trace) :
  bad_flag public = false -> bad_text description = false ->
  upload_update_data public description tr
  = (Ok (present_fields [("public", public); ("description", description)]),
     tr).
Proof.
  destruct public, description; simpl; intros Hp Hd;
    try discriminate; reflexivity.
Qed.

Lemma upload_update_data_rejected (public description : PyData) (tr : Trace) :
  bad_flag public = true \/ bad_text description = true ->
  upload_update_data public description tr = (Raise AssertionError, tr).
Proof.
  destruct public, description; simpl; intros [H|H];
    try discriminate; reflexivity.
Qed.

Lemma update_job_data_checked (saved public : PyData) (tr : Trace) :
  bad_flag saved = false -> bad_flag public = false ->
  update_job_data saved public tr
  = (Ok (present_fields [("saved", saved); ("public", public)]), tr).
Proof.
  destruct saved, public; simpl; intros Hp Hd;
    try discriminate; reflexivity.
Qed.

Lemma update_job_data_rejected (saved public : PyData) (tr : Trace) :
  bad_flag saved = true \/ bad_flag public = true ->
  update_job_data saved public tr = (Raise AssertionError, tr).
Proof.
  destruct saved, public; simpl; intros [H|H];
    try discriminate; reflexivity.
Qed.

(** C9: the type checks of the two update operations.  A [public] or
    [saved] flag that is neither [None] nor a [bool], or a [description]
    that is neither [None] nor a [str], makes [upload_file_update] and
    [update_job] raise [AssertionError] with nothing sent (the trace is
    left as it was).  When the checks pass, every request sent (there is at
    least one) carries exactly the arguments that were not [None]: as form
    data for an upload, as JSON for a job. *)
Theorem C9_update_checks_and_payload :
  forall (E : Env) (fuel : nat) (self : Client) (uuid : string) (tr : Trace),
    (forall public description parse_json,
        bad_flag public = true \/ bad_text description = true ->
        upload_file_update E fuel self uuid public description parse_json tr
        = (Raise AssertionError, tr)) /\
    (forall saved public,
        bad_flag saved = true \/ bad_flag public = true ->
        update_job E fuel self uuid saved public tr
        = (Raise AssertionError, tr)) /\
    (forall public description parse_json,
        bad_flag public = false -> bad_text description = false ->
        (0 < fuel)%nat ->
        exists m, (1 <= m)%nat /\
          http_requests
            (snd (upload_file_update E fuel self uuid public description
                    parse_json tr))
          = http_requests tr ++
            repeat (mkRequest PATCH
                      (api_url_base self +++ "/ce/upload/" +++ uuid +++ "/")
                      (auth_only_headers self) None
                      (Some (present_fields [("public", public);
                                             ("description", description)]))
                      None None false) m) /\
    (forall saved public,
        bad_flag saved = false -> bad_flag public = false ->
        (0 < fuel)%nat ->
        exists m, (1 <= m)%nat /\
          http_requests (snd (update_job E fuel self uuid saved public tr))
          = http_requests tr ++
            repeat (json_request PATCH
                      (api_url_base self +++ "/ce/job/" +++ uuid +++ "/")
                      (json_headers self)
                      (PDict (present_fields [("saved", saved);
                                              ("public", public)]))) m).
Proof.
  intros E fuel self uuid tr. repeat split.
  - intros public description parse_json H.
    unfold upload_file_update. unfold bind at 1.
    now rewrite upload_update_data_rejected.
  - intros saved public H.
    unfold update_job. unfold bind at 1.
    now rewrite update_job_data_rejected.
  - intros public description parse_json Hp Hd Hfuel.
    unfold upload_file_update. unfold bind at 1.
    rewrite upload_update_data_checked by assumption.
    destruct (retry_display_requests E self
                (upload_update_request self uuid
                   (present_fields [("public", public);
                                    ("description", description)]))
                parse_json fuel tr) as (m & Hreq & Hm).
    exists m. split; [auto|exact Hreq].
  - intros saved public Hs Hp Hfuel.
    unfold update_job. unfold bind at 1.
    rewrite update_job_data_checked by assumption.
    destruct (retry_display_requests E self
                (update_job_request self uuid
                   (present_fields [("saved", saved); ("public", public)]))
                true fuel tr) as (m & Hreq & Hm).
    exists m. split; [auto|exact Hreq].
Qed.

(** ** Retrying on the rate-limit status *)

Lemma retry_display E self req (parse_json : bool) N fuel tr :
  can_sleep self N ->
  limited_for E req (count is_http tr) N ->
  (N < fuel)%nat ->
  (response <- retry_loop fuel self (requests_send E req) ;;
   display_response (VResp response) parse_json) tr
  = display_response (VResp (server E (count is_http tr + N) req)) parse_json
      (tr ++ attempts E self req (count is_http tr) N).
Proof.
  intros Hrate Hlim Hfuel. unfold bind.
  now rewrite (retry_loop_attempts E self req N fuel tr Hrate Hlim Hfuel).
Qed.

(** Against a server that answers nothing but the rate-limit status the
    loop never ends, whatever the fuel. *)
Lemma retry_loop_all_limited E self req :
  0 < api_rate_limit (conf self) ->
  (forall i, status_code (server E i req) = rate_limit_status_code) ->
  forall fuel tr,
    fst (retry_loop fuel self (requests_send E req) tr) = Diverge.
Proof.
  intros Hrate Hall. induction fuel as [|fuel IH]; intros tr; [reflexivity|].
  simpl. unfold bind at 1. rewrite requests_send_eq.
  unfold bind at 1. rewrite rate_limiter_limited by auto.
  cbv beta iota. apply IH.
Qed.

Lemma run_prepared E self N fuel (c : Call) tr req (parse_json : bool) tr0 :
  can_sleep self N ->
  prepare E self c tr = (Ok (req, parse_json), tr0) ->
  limited_for E req (count is_http tr0) N ->
  (N < fuel)%nat ->
  run E fuel self c tr
  = display_response (VResp (server E (count is_http tr0 + N) req)) parse_json
      (tr0 ++ attempts E self req (count is_http tr0) N).
Proof.
  intros Hrate Hprep Hlim Hfuel.
  destruct c; cbn [prepare] in Hprep; cbn [run];
    try (unfold ret in Hprep; injection Hprep as <- <- <-;
         now apply retry_display).
  - (* job_create *)
    unfold job_create. unfold bind at 1 in Hprep. unfold bind at 1.
    destruct ((if negb (str_truthy name)
               then n <- randrange E 10000 99999 ;; ret ("test-" +++ str_int n)
               else ret name) tr) as [[name'| |] tr1]; try discriminate.
    unfold ret in Hprep. injection Hprep as <- <- <-.
    now apply retry_display.
  - (* upload_file *)
    unfold upload_file.
    destruct (local_file E file_path) as [fp|]; [|discriminate].
    unfold ret in Hprep. injection Hprep as <- <- <-.
    now apply retry_display.
  - (* upload_file_update *)
    unfold upload_file_update. unfold bind at 1 in Hprep. unfold bind at 1.
    destruct (upload_update_data public description tr) as [[data| |] tr1];
      try discriminate.
    unfold ret in Hprep. injection Hprep as <- <- <-.
    now apply retry_display.
  - (* update_job *)
    unfold update_job. unfold bind at 1 in Hprep. unfold bind at 1.
    destruct (update_job_data saved public tr) as [[data| |] tr1];
      try discriminate.
    unfold ret in Hprep. injection Hprep as <- <- <-.
    now apply retry_display.
Qed.

(** C2 (as amended): retrying on the rate-limit status.  A request sent
    inside the rate-limiter loop whose first [N] answers carry status 429
    and whose next answer does not is attempted exactly [N + 1] times, with
    the log record and a sleep of [1 / api_rate_limit] seconds after each
    of the [N] rate-limited attempts (which asks for a positive rate when
    [N] is not zero), and the loop yields the last answer; each of the
    methods made of that loop and [display_response] then returns what
    [display_response] makes of that answer.  There is no bound on [N],
    and against a server that only ever answers 429 the loop never
    returns. *)
Theorem C2_retry_on_rate_limit :
  forall (E : Env) (self : Client) (N : nat),
    (can_sleep self N ->
     forall req tr fuel,
       limited_for E req (count is_http tr) N -> (N < fuel)%nat ->
       retry_loop fuel self (requests_send E req) tr
       = (Ok (server E (count is_http tr + N) req),
          tr ++ attempts E self req (count is_http tr) N)) /\
    (forall req n0,
        http_requests (attempts E self req n0 N) = repeat req (S N) /\
        sleeps (attempts E self req n0 N)
        = repeat (1 / inject_Z (api_rate_limit (conf self)))%Q N) /\
    (can_sleep self N ->
     forall c tr fuel req parse_json tr0,
       prepare E self c tr = (Ok (req, parse_json), tr0) ->
       limited_for E req (count is_http tr0) N -> (N < fuel)%nat ->
       run E fuel self c tr
       = display_response (VResp (server E (count is_http tr0 + N) req))
           parse_json (tr0 ++ attempts E self req (count is_http tr0) N)) /\
    (0 < api_rate_limit (conf self) ->
     forall req tr fuel,
       (forall i, status_code (server E i req) = rate_limit_status_code) ->
       fst (retry_loop fuel self (requests_send E req) tr) = Diverge).
Proof.
  intros E self N. repeat split.
  - intros Hrate req tr fuel Hlim Hfuel. now apply retry_loop_attempts.
  - apply http_requests_attempts.
  - apply sleeps_attempts.
  - intros Hrate c tr fuel req parse_json tr0 Hprep Hlim Hfuel.
    now apply run_prepared.
  - intros Hrate req tr fuel Hall. now apply retry_loop_all_limited.
Qed.

(** C2 as stated fails for [login]: against a server whose first answer
    is rate-limited and whose second is a success, [login] sends a single
    request, does not sleep, and returns the rate-limited response. *)
Lemma C2_counterexample_login :
  let E := demo_env [too_many_requests; ok_response (PDict [])] in
  limited_for E (login_request demo_client) 0 1 /\
  success (server E 1 (login_request demo_client)) = true /\
  fst (login E demo_client []) = Ok (VResp too_many_requests) /\
  http_requests (snd (login E demo_client [])) = [login_request demo_client] /\
  http_requests (snd (login E demo_client []))
  <> repeat (login_request demo_client) 2 /\
  sleeps (snd (login E demo_client [])) = [].
Proof.
  cbv zeta. split; [apply limited_forb_sound; reflexivity|].
  repeat split; try reflexivity. discriminate.
Qed.

(** ** Paginated listings *)

Lemma http_requests_pages_trace E self :
  forall pages n0,
    http_requests (pages_trace E self n0 pages) = page_requests self pages.
Proof.
  induction pages as [|p rest IH]; intros n0; [reflexivity|].
  cbn [pages_trace page_requests flat_map].
  rewrite http_requests_app, http_requests_attempts, IH. reflexivity.
Qed.

Lemma total_attempts_bounds (pages : list Page) (fuel : nat) :
  (total_attempts pages < fuel)%nat ->
  (List.length pages <= fuel)%nat /\
  Forall (fun p => (page_retries p < fuel)%nat) pages.
Proof.
  revert fuel. induction pages as [|p rest IH]; intros fuel H.
  - split; [simpl; lia|constructor].
  - cbn [total_attempts fold_right] in H. fold (total_attempts rest) in H.
    destruct (IH (fuel - 1)%nat ltac:(lia)) as [Hlen Hall]. split.
    + simpl. lia.
    + constructor; [lia|].
      eapply Forall_impl; [|exact Hall]. simpl. intros; lia.
Qed.

(** One turn of a page loop: the retry loop on the page's URL yields the
    page's response. *)
Lemma fetch_page E self (p : Page) fuel tr :
  can_sleep self (page_retries p) ->
  limited_for E (page_request self p) (count is_http tr) (page_retries p) ->
  (page_retries p < fuel)%nat ->
  retry_loop fuel self (get_page E self (PStr (page_url p))) tr
  = (Ok (server E (count is_http tr + page_retries p) (page_request self p)),
     tr ++ attempts E self (page_request self p) (count is_http tr)
             (page_retries p)).
Proof.
  intros Hrate Hlim Hfuel. cbn [get_page].
  now apply (retry_loop_attempts E self (page_request self p)).
Qed.

Lemma count_http_after_page E self (p : Page) tr :
  count is_http
    (tr ++ attempts E self (page_request self p) (count is_http tr)
             (page_retries p))
  = (count is_http tr + page_retries p + 1)%nat.
Proof. rewrite count_app, count_http_attempts. lia. Qed.

Lemma follow_next_pages E self fuel :
  forall pages url acc tr n,
    Forall (fun p => can_sleep self (page_retries p)) pages ->
    leads_to url pages ->
    serves_pages E self (count is_http tr) pages ->
    (List.length pages <= n)%nat ->
    Forall (fun p => (page_retries p < fuel)%nat) pages ->
    follow_next E fuel n self (PList acc) url tr
    = (Ok (VData (PList (acc ++ List.concat (map page_results pages)))),
       tr ++ pages_trace E self (count is_http tr) pages).
Proof.
  induction pages as [|p rest IH];
    intros url acc tr n Hrate Hurl Hserves Hn Hfuel.
  - cbn [leads_to] in Hurl. simpl. rewrite !app_nil_r.
    destruct n; simpl; now rewrite Hurl.
  - destruct Hurl as [-> Htrue].
    destruct n as [|n]; [simpl in Hn; lia|].
    cbn [serves_pages] in Hserves.
    destruct Hserves as (Hlim & _ & (d & Hjson & Hres & Hnext) & Hleads & Hrest).
    inversion Hfuel as [|? ? Hp Hfuel']; subst.
    inversion Hrate as [|? ? Hrp Hrate']; subst.
    cbn [follow_next]. rewrite Htrue.
    unfold bind at 1. rewrite fetch_page by assumption.
    unfold bind at 1. unfold response_json. rewrite Hjson. unfold ret at 1.
    unfold bind at 1. cbn [getitem]. rewrite Hres. unfold ret at 1.
    unfold bind at 1. cbn [iadd py_iter]. unfold bind at 1, ret at 1 2.
    unfold bind at 1. rewrite Hnext. unfold ret at 1.
    rewrite (IH (page_next p)); try assumption.
    + rewrite count_http_after_page. cbn [pages_trace map List.concat].
      now rewrite <- !app_assoc.
    + now rewrite count_http_after_page.
    + simpl in Hn. lia.
Qed.

Lemma metrics_loop_pages E self fuel :
  forall pages url acc tr n,
    Forall (fun p => can_sleep self (page_retries p)) pages ->
    leads_to url pages ->
    serves_pages E self (count is_http tr) pages ->
    (List.length pages <= n)%nat ->
    Forall (fun p => (page_retries p < fuel)%nat) pages ->
    metrics_loop E fuel n self acc url tr
    = (Ok (VData (PList (acc ++ List.concat (map page_results pages)))),
       tr ++ pages_trace E self (count is_http tr) pages).
Proof.
  induction pages as [|p rest IH];
    intros url acc tr n Hrate Hurl Hserves Hn Hfuel.
  - cbn [leads_to] in Hurl. simpl. rewrite !app_nil_r.
    destruct n; simpl; now rewrite Hurl.
  - destruct Hurl as [-> Htrue].
    destruct n as [|n]; [simpl in Hn; lia|].
    cbn [serves_pages] in Hserves.
    destruct Hserves as (Hlim & _ & (d & Hjson & Hres & Hnext) & Hleads & Hrest).
    inversion Hfuel as [|? ? Hp Hfuel']; subst.
    inversion Hrate as [|? ? Hrp Hrate']; subst.
    cbn [metrics_loop]. rewrite Htrue.
    unfold bind at 1. rewrite fetch_page by assumption.
    unfold bind at 1. unfold response_json. rewrite Hjson. unfold ret at 1.
    unfold bind at 1. cbn [getitem]. rewrite Hres. unfold ret at 1.
    unfold bind at 1. cbn [py_iter]. unfold ret at 1.
    unfold bind at 1. rewrite Hnext. unfold ret at 1.
    rewrite (IH (page_next p)); try assumption.
    + rewrite count_http_after_page. cbn [pages_trace map List.concat].
      now rewrite <- !app_assoc.
    + now rewrite count_http_after_page.
    + simpl in Hn. lia.
Qed.

Lemma append_truthy (a b : string) :
  str_truthy b = true -> str_truthy (a +++ b) = true.
Proof.
  destruct a; simpl; [auto|reflexivity].
Qed.

Lemma list_resource_pages_trace E self fuel (collection : string) :
  forall p rest tr,
    Forall (fun q => can_sleep self (page_retries q)) (p :: rest) ->
    page_url p = api_url_base self +++ collection ->
    serves_pages E self (count is_http tr) (p :: rest) ->
    (total_attempts (p :: rest) < fuel)%nat ->
    list_resource E fuel self collection "" tr
    = (Ok (VData (PList (List.concat (map page_results (p :: rest))))),
       (tr ++ attempts E self (page_request self p) (count is_http tr)
                (page_retries p)
           ++ [EvLog DEBUG "Next page of results: {url}"
                     [VData (page_next p)]])
       ++ pages_trace E self (count is_http tr + page_retries p + 1) rest).
Proof.
  intros p rest tr Hrate Hp Hserves Hfuel.
  inversion Hrate as [|? ? Hrp Hrate']; subst.
  destruct (total_attempts_bounds _ _ Hfuel) as [Hlen Hall].
  inversion Hall as [|? ? Hretries Hall']; subst.
  cbn [serves_pages] in Hserves.
  destruct Hserves as (Hlim & Hok & (d & Hjson & Hres & Hnext) & Hleads & Hrest).
  unfold list_resource. cbn [str_truthy String.eqb negb].
  unfold bind at 1.
  replace (plain_request GET (api_url_base self +++ collection)
             (json_headers self)) with (page_request self p)
    by (unfold page_request; now rewrite Hp).
  rewrite (retry_loop_attempts E self (page_request self p)
             (page_retries p) fuel tr Hrp Hlim Hretries).
  unfold success in Hok. rewrite Hok. cbn [negb].
  unfold bind at 1. unfold response_json. rewrite Hjson. unfold ret at 1.
  unfold bind at 1. cbn [getitem]. rewrite Hres. unfold ret at 1.
  unfold bind at 1. rewrite Hnext. unfold ret at 1.
  unfold bind at 1. unfold logger_debug, emit.
  set (tr1 := (tr ++ attempts E self (page_request self p) (count is_http tr)
                       (page_retries p)) ++ _).
  assert (Hc : count is_http tr1 = (count is_http tr + page_retries p + 1)%nat).
  { unfold tr1. rewrite count_app, count_http_after_page. count_events. }
  rewrite (follow_next_pages E self fuel rest (page_next p)
             (page_results p) tr1 fuel); try assumption.
  - rewrite Hc. unfold tr1. now rewrite <- !app_assoc.
  - now rewrite Hc.
  - simpl in Hlen. lia.
Qed.

Lemma list_resource_pages E self fuel (collection : string) :
  forall p rest tr,
    Forall (fun q => can_sleep self (page_retries q)) (p :: rest) ->
    page_url p = api_url_base self +++ collection ->
    serves_pages E self (count is_http tr) (p :: rest) ->
    (total_attempts (p :: rest) < fuel)%nat ->
    fst (list_resource E fuel self collection "" tr)
    = Ok (VData (PList (List.concat (map page_results (p :: rest))))) /\
    http_requests (snd (list_resource E fuel self collection "" tr))
    = http_requests tr ++ page_requests self (p :: rest).
Proof.
  intros p rest tr Hrate Hp Hserves Hfuel.
  rewrite (list_resource_pages_trace E self fuel collection p rest tr
             Hrate Hp Hserves Hfuel).
  split; [reflexivity|]. cbn [snd].
  rewrite !http_requests_app, http_requests_attempts,
    http_requests_pages_trace.
  cbn [http_requests page_requests flat_map]. rewrite app_nil_r.
  now rewrite <- app_assoc.
Qed.

(** C1: the paginated listings return the pages' results, concatenated.
    Let the server serve the pages [p :: rest] one after the other: each
    page request is answered, after finitely many rate-limited attempts,
    with a successful response whose body has a [results] array and a
    [next] field; [next] is the URL of the following page, and is empty on
    the last page and on no other (a page that is rate-limited at all
    takes a positive configured rate, for the sleep between attempts).
    Then, with enough fuel, [job_list] and [upload_list] without an id,
    and [get_metrics], return the concatenation of the pages' [results] in
    order, and the requests they send are exactly those of the pages, in
    order: nothing is fetched after the page whose [next] is empty. *)
Theorem C1_paginated_lists_concatenate :
  forall (E : Env) (self : Client) (p : Page) (rest : list Page)
         (tr : Trace) (fuel : nat),
    Forall (fun q => can_sleep self (page_retries q)) (p :: rest) ->
    serves_pages E self (count is_http tr) (p :: rest) ->
    (total_attempts (p :: rest) < fuel)%nat ->
    (page_url p = api_url_base self +++ "/ce/job/" ->
     fst (job_list E fuel self "" tr)
     = Ok (VData (PList (List.concat (map page_results (p :: rest))))) /\
     http_requests (snd (job_list E fuel self "" tr))
     = http_requests tr ++ page_requests self (p :: rest)) /\
    (page_url p = api_url_base self +++ "/ce/upload/" ->
     fst (upload_list E fuel self "" tr)
     = Ok (VData (PList (List.concat (map page_results (p :: rest))))) /\
     http_requests (snd (upload_list E fuel self "" tr))
     = http_requests tr ++ page_requests self (p :: rest)) /\
    (page_url p = api_url_base self +++ "/ce/metrics/" ->
     fst (get_metrics E fuel self tr)
     = Ok (VData (PList (List.concat (map page_results (p :: rest))))) /\
     http_requests (snd (get_metrics E fuel self tr))
     = http_requests tr ++ page_requests self (p :: rest)).
Proof.
  intros E self p rest tr fuel Hrate Hserves Hfuel. repeat split.
  - now apply list_resource_pages.
  - now apply list_resource_pages.
  - now apply list_resource_pages.
  - now apply list_resource_pages.
  - destruct (total_attempts_bounds _ _ Hfuel) as [Hlen Hall].
    unfold get_metrics.
    rewrite (metrics_loop_pages E self fuel (p :: rest)); auto.
    cbn [leads_to]. rewrite H. split; [reflexivity|].
    cbn [truthy]. apply (append_truthy (api_url_base self) "/ce/metrics/").
    reflexivity.
  - destruct (total_attempts_bounds _ _ Hfuel) as [Hlen Hall].
    unfold get_metrics.
    rewrite (metrics_loop_pages E self fuel (p :: rest)); auto.
    + cbn [snd]. now rewrite http_requests_app, http_requests_pages_trace.
    + cbn [leads_to]. rewrite H. split; [reflexivity|].
      cbn [truthy]. apply (append_truthy (api_url_base self) "/ce/metrics/").
      reflexivity.
Qed.

(** ** Non-success answers *)

(** C4 fails on [get_metrics]: it reads the body of whatever response the
    loop yields, with no look at the status.  Against a server that answers
    500 with a body that is not JSON it raises [JSONDecodeError], and
    against one that answers 404 with a JSON error body it raises
    [KeyError], where [job_list] and [upload_list], which do look at the
    status of the first response, return the response object. *)
Theorem C4_get_metrics_raises_on_error_status :
  success server_error = false /\
  status_code server_error <> rate_limit_status_code /\
  get_metrics (demo_env [server_error]) 5 demo_client []
  = (Raise JSONDecodeError,
     [EvHttp (plain_request GET "http://localhost:4000/api/v0/ce/metrics/"
                (json_headers demo_client)) server_error]) /\
  fst (get_metrics (demo_env [not_found]) 5 demo_client [])
  = Raise (KeyError "results") /\
  fst (job_list (demo_env [server_error]) 5 demo_client "" [])
  = Ok (VResp server_error) /\
  fst (upload_list (demo_env [server_error]) 5 demo_client "" [])
  = Ok (VResp server_error).
Proof.
  repeat split; try reflexivity. discriminate.
Qed.

(** ** Downloading an upload *)

Lemma list_resource_by_id E self fuel (collection uuid : string) N tr :
  can_sleep self N ->
  str_truthy uuid = true ->
  let req := plain_request GET (api_url_base self +++ collection +++ uuid +++ "/")
               (json_headers self) in
  let r := server E (count is_http tr + N) req in
  limited_for E req (count is_http tr) N ->
  (N < fuel)%nat ->
  list_resource E fuel self collection uuid tr
  = (if success r
     then match json_body r with
          | Some d => Ok (VData d)
          | None => Raise JSONDecodeError
          end
     else Ok (VResp r),
     tr ++ attempts E self req (count is_http tr) N).
Proof.
  intros Hrate Huuid req r Hlim Hfuel.
  unfold list_resource. rewrite Huuid.
  unfold bind at 1.
  replace (plain_request GET ((api_url_base self +++ collection) +++ uuid +++ "/")
             (json_headers self)) with req.
  2:{ unfold req. f_equal. clear.
      induction (api_url_base self) as [|c a IH]; simpl; [reflexivity|].
      now rewrite IH. }
  rewrite (retry_loop_attempts E self req N fuel tr Hrate Hlim Hfuel).
  fold r. unfold success.
  destruct (in_range 200 300 (status_code r)); cbn [negb]; [|reflexivity].
  unfold bind, response_json.
  destruct (json_body r) as [d|]; reflexivity.
Qed.

(** C5: downloading an upload whose record has no path.  When the
    record fetched for [uuid] is a JSON object without a ['path'] key (or
    when the fetch yields a non-success response, which holds no ['path']
    either), [download_uploaded_file] logs "Upload not found." and returns
    [None]: no exception, no directory made, no file written. *)
Theorem C5_download_without_path_writes_nothing :
  forall (E : Env) (self : Client) (fuel : nat) (uuid root_dir : string)
         (tr : Trace) (N : nat),
    let req := plain_request GET
                 (api_url_base self +++ "/ce/upload/" +++ uuid +++ "/")
                 (json_headers self) in
    let r := server E (count is_http tr + N) req in
    can_sleep self N ->
    str_truthy uuid = true ->
    limited_for E req (count is_http tr) N ->
    (N < fuel)%nat ->
    (success r = false \/
     exists d, success r = true /\ json_body r = Some (PDict d) /\
               lookup "path" d = None) ->
    download_uploaded_file E fuel self uuid root_dir tr
    = (Ok VNone,
       tr ++ attempts E self req (count is_http tr) N
          ++ [EvLog ERROR "Upload not found." []]) /\
    filter is_fs (snd (download_uploaded_file E fuel self uuid root_dir tr))
    = filter is_fs tr.
Proof.
  intros E self fuel uuid root_dir tr N req r Hrate Huuid Hlim Hfuel Hrec.
  assert (Heq : download_uploaded_file E fuel self uuid root_dir tr
                = (Ok VNone,
                   tr ++ attempts E self req (count is_http tr) N
                      ++ [EvLog ERROR "Upload not found." []])).
  { destruct fuel as [|fuel']; [lia|].
    cbn [download_uploaded_file]. unfold bind at 1. unfold upload_list.
    rewrite (list_resource_by_id E self (S fuel') "/ce/upload/" uuid N tr
               Hrate Huuid Hlim Hfuel).
    fold req. fold r.
    destruct Hrec as [Hfail|(d & Hok & Hjson & Hpath)].
    - rewrite Hfail. unfold bind, contains, ret, logger_error, emit.
      cbn [negb]. now rewrite <- app_assoc.
    - rewrite Hok, Hjson. unfold bind, contains, ret. rewrite Hpath.
      cbn [negb]. unfold logger_error, emit. now rewrite <- app_assoc. }
  split; [exact Heq|].
  rewrite Heq. cbn [snd]. rewrite !filter_app, fs_attempts.
  cbn [filter is_fs]. now rewrite !app_nil_r.
Qed.

(** ** Computations that only add to the trace *)

Lemma extends_ret {A} (a : A) : extends (ret a).
Proof. intros tr. exists []. now rewrite app_nil_r. Qed.

Lemma extends_raise {A} (e : Exn) : extends (@raise A e).
Proof. intros tr. exists []. now rewrite app_nil_r. Qed.

Lemma extends_diverge {A} : extends (@diverge A).
Proof. intros tr. exists []. now rewrite app_nil_r. Qed.

Lemma extends_emit (e : Event) : extends (emit e).
Proof. intros tr. now exists [e]. Qed.

Lemma extends_bind {A B} (m : M A) (k : A -> M B) :
  extends m -> (forall a, extends (k a)) -> extends (bind m k).
Proof.
  intros Hm Hk tr. unfold bind. destruct (Hm tr) as [evs Hevs].
  destruct (m tr) as [[a| |] tr1]; simpl in Hevs; subst tr1.
  - destruct (Hk a (tr ++ evs)) as [evs' Hevs'].
    exists (evs ++ evs'). now rewrite Hevs', app_assoc.
  - now exists evs.
  - now exists evs.
Qed.

Lemma extends_try_except {A} (m : M A) (handler : Exn -> M A) :
  extends m -> (forall e, extends (handler e)) -> extends (try_except m handler).
Proof.
  intros Hm Hh tr. unfold try_except. destruct (Hm tr) as [evs Hevs].
  destruct (m tr) as [[a| |] tr1]; simpl in Hevs; subst tr1.
  - now exists evs.
  - destruct (Hh e (tr ++ evs)) as [evs' Hevs'].
    exists (evs ++ evs'). now rewrite Hevs', app_assoc.
  - now exists evs.
Qed.

Lemma extends_sleep (secs : Q) : extends (sleep secs).
Proof.
  unfold sleep. destruct (Qle_bool 0 secs);
    [apply extends_emit|apply extends_raise].
Qed.

Lemma extends_time_time E : extends (time_time E).
Proof. intros tr. now exists [EvTime (clock E (count is_time tr))]. Qed.

Lemma extends_call_job_list api uuid : extends (call_job_list api uuid).
Proof. intros tr. eexists [_]. reflexivity. Qed.

Lemma extends_getitem x k : extends (getitem x k).
Proof.
  destruct x as [[| | | | |d]|]; simpl; try apply extends_raise.
  destruct (lookup k d); [apply extends_ret|apply extends_raise].
Qed.

Lemma extends_monitor_loop E api job_id time_limit sleep_interval start_time :
  forall fuel,
    extends (monitor_loop E api fuel job_id time_limit sleep_interval
               start_time).
Proof.
  induction fuel as [|fuel IH]; [apply extends_diverge|].
  cbn [monitor_loop].
  apply extends_bind; [apply extends_call_job_list|intros job_status].
  apply extends_bind; [apply extends_time_time|intros now].
  apply extends_bind; [apply extends_getitem|intros st].
  destruct (is_terminal st).
  - apply extends_bind; [apply extends_emit|intros _; apply extends_ret].
  - destruct (Qgt_bool (now - start_time) time_limit).
    + apply extends_bind; [apply extends_emit|intros _; apply extends_ret].
    + apply extends_bind; [apply extends_sleep|intros _; apply IH].
Qed.

(** ** Monitoring a job *)

Section Monitor.

Variable E : Env.
Variable api : Api.
Variable job_id : string.
Variables time_limit sleep_interval : Q.

Let loop := fun fuel => monitor_loop E api fuel job_id time_limit sleep_interval.

(** The status fetched in the turn that starts with trace [tr]. *)
Let fetched (tr : Trace) : Res Value :=
  api_job_list api (count is_job_list tr) job_id.

(** The clock reading taken in the turn that starts with trace [tr]. *)
Let reading (tr : Trace) : Q := clock E (count is_time tr).

Lemma monitor_turn (fuel : nat) (start_time : Q) (tr : Trace) d st :
  fetched tr = Ok (VData (PDict d)) ->
  lookup "status" d = Some st ->
  loop (S fuel) start_time tr
  = (if is_terminal st then
       (Ok (VData (PDict d)),
        tr ++ [EvJobList job_id (fetched tr); EvTime (reading tr);
               EvLog INFO "Job completed. Status: {job_status['status']}"
                     [VData st]])
     else if Qgt_bool (reading tr - start_time) time_limit then
       (Ok (VData (PDict d)),
        tr ++ [EvJobList job_id (fetched tr); EvTime (reading tr);
               EvLog ERROR
                 "Job {job_id} exceeded the time limit of {time_limit} seconds."
                 [VData (PStr job_id)]])
     else if Qle_bool 0 sleep_interval then
       loop fuel start_time
         (tr ++ [EvJobList job_id (fetched tr); EvTime (reading tr);
                 EvSleep sleep_interval])
     else
       (Raise ValueError,
        tr ++ [EvJobList job_id (fetched tr); EvTime (reading tr)])).
Proof.
  intros Hfetch Hst. unfold loop. cbn [monitor_loop].
  unfold bind at 1. unfold call_job_list. fold (fetched tr). rewrite Hfetch.
  unfold bind at 1. unfold time_time.
  replace (count is_time (tr ++ [EvJobList job_id (Ok (VData (PDict d)))]))
    with (count is_time tr) by count_events.
  fold (reading tr).
  unfold bind at 1. cbn [getitem]. rewrite Hst. unfold ret at 1.
  destruct (is_terminal st).
  - unfold bind, logger_info, emit, ret. now rewrite <- !app_assoc.
  - destruct (Qgt_bool (reading tr - start_time) time_limit).
    + unfold bind, logger_error, emit, ret. now rewrite <- !app_assoc.
    + unfold bind, sleep. destruct (Qle_bool 0 sleep_interval).
      * unfold emit. now rewrite <- !app_assoc.
      * unfold raise. now rewrite <- !app_assoc.
Qed.

(** [k] turns that neither end the job nor exhaust the time, then one
    that exhausts the time. *)
Lemma monitor_until_timeout (start_time : Q) :
  Qle_bool 0 sleep_interval = true ->
  forall k tr fuel,
    (forall i, (i <= k)%nat -> exists d st,
        api_job_list api (count is_job_list tr + i) job_id
        = Ok (VData (PDict d)) /\
        lookup "status" d = Some st /\ is_terminal st = false) ->
    (forall i, (i < k)%nat ->
        Qgt_bool (clock E (count is_time tr + i) - start_time) time_limit
        = false) ->
    Qgt_bool (clock E (count is_time tr + k) - start_time) time_limit = true ->
    (k < fuel)%nat ->
    fst (loop fuel start_time tr)
    = api_job_list api (count is_job_list tr + k) job_id /\
    count is_job_list (snd (loop fuel start_time tr))
    = (count is_job_list tr + k + 1)%nat.
Proof.
  intros Hsleep. induction k as [|k IH]; intros tr fuel Hst Hearly Hlate Hfuel;
    (destruct fuel as [|fuel]; [lia|]).
  - destruct (Hst 0%nat (Nat.le_refl 0)) as (d & st & Hfetch & Hlook & Hterm).
    rewrite Nat.add_0_r in *.
    rewrite (monitor_turn fuel start_time tr d st Hfetch Hlook).
    rewrite Hterm. unfold reading. rewrite Hlate. cbn [fst snd].
    split; [now rewrite Hfetch|count_events].
  - destruct (Hst 0%nat (Nat.le_0_l _)) as (d & st & Hfetch & Hlook & Hterm).
    rewrite Nat.add_0_r in Hfetch.
    rewrite (monitor_turn fuel start_time tr d st Hfetch Hlook).
    assert (Hearly0 := Hearly 0%nat (Nat.lt_0_succ k)).
    rewrite Nat.add_0_r in Hearly0.
    rewrite Hterm. unfold reading. rewrite Hearly0, Hsleep.
    set (tr1 := tr ++ _).
    assert (Hj : count is_job_list tr1 = S (count is_job_list tr))
      by (unfold tr1; count_events).
    assert (Ht : count is_time tr1 = S (count is_time tr))
      by (unfold tr1; count_events).
    destruct (IH tr1 fuel) as [Hres Hcount].
    + intros i Hi. rewrite Hj.
      replace (S (count is_job_list tr) + i)%nat
        with (count is_job_list tr + S i)%nat by lia.
      apply Hst. lia.
    + intros i Hi. rewrite Ht.
      replace (S (count is_time tr) + i)%nat
        with (count is_time tr + S i)%nat by lia.
      apply Hearly. lia.
    + rewrite Ht.
      now replace (S (count is_time tr) + k)%nat
        with (count is_time tr + S k)%nat by lia.
    + lia.
    + rewrite Hres, Hcount, Hj. split; [f_equal|]; lia.
Qed.

(** The loop hands back nothing but a status it could read. *)
Lemma monitor_loop_not_none (start_time : Q) :
  forall fuel tr v tr',
    loop fuel start_time tr = (Ok v, tr') -> v <> VNone.
Proof.
  induction fuel as [|fuel IH]; intros tr v tr' H; [discriminate|].
  destruct (fetched tr) as [[[| | | | |d]|r]| |] eqn:Hfetch;
    unfold loop in H; cbn [monitor_loop] in H;
    unfold bind at 1 in H; unfold call_job_list in H;
    fold (fetched tr) in H; rewrite Hfetch in H; try discriminate.
  destruct (lookup "status" d) as [st|] eqn:Hlook.
  - fold (loop (S fuel)) in *.
    assert (Hturn := monitor_turn fuel start_time tr d st Hfetch Hlook).
    unfold loop in Hturn. cbn [monitor_loop] in Hturn.
    unfold bind at 1 in Hturn. unfold call_job_list in Hturn.
    fold (fetched tr) in Hturn. rewrite Hfetch in Hturn.
    rewrite Hturn in H. clear Hturn.
    destruct (is_terminal st); [injection H as <- _; discriminate|].
    destruct (Qgt_bool (reading tr - start_time) time_limit);
      [injection H as <- _; discriminate|].
    destruct (Qle_bool 0 sleep_interval); [|discriminate].
    eapply IH. exact H.
  - unfold bind at 1 in H. unfold time_time in H.
    unfold bind at 1 in H. cbn [getitem] in H. rewrite Hlook in H.
    discriminate.
Qed.

End Monitor.

Lemma snd_bind_extends {A B} (m : M A) (k : A -> M B) (tr : Trace) :
  (forall a, extends (k a)) ->
  exists evs, snd (bind m k tr) = snd (m tr) ++ evs.
Proof.
  intros Hk. unfold bind. destruct (m tr) as [[a| |] tr1]; cbn [snd].
  - apply Hk.
  - exists []. now rewrite app_nil_r.
  - exists []. now rewrite app_nil_r.
Qed.

Lemma snd_try_except_extends {A} (m : M A) (handler : Exn -> M A)
    (tr : Trace) :
  (forall e, extends (handler e)) ->
  exists evs, snd (try_except m handler tr) = snd (m tr) ++ evs.
Proof.
  intros Hh. unfold try_except. destruct (m tr) as [[a| |] tr1]; cbn [snd].
  - exists []. now rewrite app_nil_r.
  - apply Hh.
  - exists []. now rewrite app_nil_r.
Qed.

Lemma monitor_body_eq E api fuel job_id time_limit sleep_interval tr :
  monitor_body E api fuel job_id time_limit sleep_interval tr
  = monitor_loop E api fuel job_id time_limit sleep_interval
      (clock E (count is_time tr)) (tr ++ [EvTime (clock E (count is_time tr))]).
Proof. reflexivity. Qed.

(** C6: a job that does not finish within the time budget.  If the
    first [k + 1] fetches return status objects that are not terminal, the
    first [k] checks of the elapsed time stay within [time_limit] and the
    next one exceeds it, then [monitor_job] returns the status object
    fetched last, after exactly [k + 1] fetches, and does not raise.
    Moreover [monitor_job] returns [None] only when its [try] block raised
    an exception. *)
Theorem C6_monitor_returns_last_status :
  forall (E : Env) (api : Api) (job_id : string)
         (time_limit sleep_interval : Q),
    (forall tr fuel k,
        Qle_bool 0 sleep_interval = true ->
        (forall i, (i <= k)%nat -> exists d st,
            api_job_list api (count is_job_list tr + i) job_id
            = Ok (VData (PDict d)) /\
            lookup "status" d = Some st /\ is_terminal st = false) ->
        (forall i, (i < k)%nat ->
            Qgt_bool (clock E (count is_time tr + 1 + i)
                      - clock E (count is_time tr)) time_limit = false) ->
        Qgt_bool (clock E (count is_time tr + 1 + k)
                  - clock E (count is_time tr)) time_limit = true ->
        (k < fuel)%nat ->
        fst (monitor_job E api fuel job_id time_limit sleep_interval tr)
        = api_job_list api (count is_job_list tr + k) job_id /\
        count is_job_list
          (snd (monitor_job E api fuel job_id time_limit sleep_interval tr))
        = (count is_job_list tr + k + 1)%nat) /\
    (forall tr fuel,
        fst (monitor_job E api fuel job_id time_limit sleep_interval tr)
        = Ok VNone ->
        exists e,
          fst (monitor_body E api fuel job_id time_limit sleep_interval tr)
          = Raise e).
Proof.
  intros E api job_id time_limit sleep_interval. split.
  - intros tr fuel k Hsleep Hst Hearly Hlate Hfuel.
    set (tr1 := tr ++ [EvTime (clock E (count is_time tr))]).
    assert (Hj : count is_job_list tr1 = count is_job_list tr)
      by (unfold tr1; count_events).
    assert (Ht : count is_time tr1 = (count is_time tr + 1)%nat)
      by (unfold tr1; count_events).
    destruct (monitor_until_timeout E api job_id time_limit sleep_interval
                (clock E (count is_time tr)) Hsleep k tr1 fuel)
      as [Hres Hcount]; try assumption.
    + intros i Hi. rewrite Hj. now apply Hst.
    + intros i Hi. rewrite Ht. now apply Hearly.
    + now rewrite Ht.
    + rewrite Hj in Hres, Hcount.
      destruct (Hst k (Nat.le_refl k)) as (d & st & Hk & _).
      unfold monitor_job, try_except. rewrite monitor_body_eq. fold tr1.
      destruct (monitor_loop E api fuel job_id time_limit sleep_interval
                  (clock E (count is_time tr)) tr1) as [res tr'].
      cbn [fst snd] in Hres, Hcount. rewrite Hk in Hres. subst res.
      cbn [fst snd]. now rewrite Hk.
  - intros tr fuel Hnone. unfold monitor_job, try_except in Hnone.
    destruct (monitor_body E api fuel job_id time_limit sleep_interval tr)
      as [[v| |] tr'] eqn:Hbody; cbn [fst] in *.
    + injection Hnone as ->. rewrite monitor_body_eq in Hbody.
      now apply monitor_loop_not_none in Hbody.
    + now exists e.
    + discriminate.
Qed.

(** C10: the monitor fetches before it looks at the time.  With fuel
    for one turn at least and whatever the time budget, [monitor_job]
    first reads the clock and then fetches the status; a turn whose fetch
    returns a terminal status returns that status at once, whatever the
    clock reads and whatever the budget is, so that a job already finished
    at the first fetch costs one fetch and no sleep; and a turn gives up
    on the time budget only after a fetch that was not terminal. *)
Theorem C10_monitor_fetches_first :
  forall (E : Env) (api : Api) (job_id : string)
         (time_limit sleep_interval : Q) (tr : Trace) (fuel : nat),
    (0 < fuel)%nat ->
    (exists rest,
        snd (monitor_job E api fuel job_id time_limit sleep_interval tr)
        = tr ++ EvTime (clock E (count is_time tr))
             :: EvJobList job_id
                  (api_job_list api (count is_job_list tr) job_id)
             :: rest) /\
    (forall d st,
        api_job_list api (count is_job_list tr) job_id
        = Ok (VData (PDict d)) ->
        lookup "status" d = Some st ->
        is_terminal st = true ->
        (forall start_time,
            monitor_loop E api fuel job_id time_limit sleep_interval
              start_time tr
            = (Ok (VData (PDict d)),
               tr ++ [EvJobList job_id (Ok (VData (PDict d)));
                      EvTime (clock E (count is_time tr));
                      EvLog INFO
                        "Job completed. Status: {job_status['status']}"
                        [VData st]])) /\
        monitor_job E api fuel job_id time_limit sleep_interval tr
        = (Ok (VData (PDict d)),
           tr ++ [EvTime (clock E (count is_time tr));
                  EvJobList job_id (Ok (VData (PDict d)));
                  EvTime (clock E (count is_time tr + 1));
                  EvLog INFO "Job completed. Status: {job_status['status']}"
                        [VData st]])) /\
    (forall d st start_time,
        api_job_list api (count is_job_list tr) job_id
        = Ok (VData (PDict d)) ->
        lookup "status" d = Some st ->
        is_terminal st = false ->
        Qgt_bool (clock E (count is_time tr) - start_time) time_limit = true ->
        monitor_loop E api fuel job_id time_limit sleep_interval start_time tr
        = (Ok (VData (PDict d)),
           tr ++ [EvJobList job_id (Ok (VData (PDict d)));
                  EvTime (clock E (count is_time tr));
                  EvLog ERROR
                    "Job {job_id} exceeded the time limit of {time_limit} seconds."
                    [VData (PStr job_id)]])).
Proof.
  intros E api job_id time_limit sleep_interval tr fuel Hfuel.
  destruct fuel as [|fuel]; [lia|]. split; [|split].
  - unfold monitor_job.
    destruct (snd_try_except_extends
                (monitor_body E api (S fuel) job_id time_limit sleep_interval)
                (fun _ : Exn =>
                   logger_error
                     "An error occurred during job monitoring for job {job_id}: {e}"
                     [VData (PStr job_id)] ;; ret VNone) tr) as [evs Hevs].
    { intros e. apply extends_bind; [apply extends_emit|].
      intros _. apply extends_ret. }
    rewrite Hevs, monitor_body_eq. cbn [monitor_loop].
    set (tr1 := tr ++ [EvTime (clock E (count is_time tr))]).
    match goal with
    | |- context [snd (bind ?m ?k tr1)] =>
        destruct (snd_bind_extends m k tr1) as [evs' Hevs']
    end.
    { intros job_status.
      apply extends_bind; [apply extends_time_time|intros now].
      apply extends_bind; [apply extends_getitem|intros st].
      destruct (is_terminal st).
      - apply extends_bind; [apply extends_emit|intros _; apply extends_ret].
      - destruct (Qgt_bool (now - clock E (count is_time tr)) time_limit).
        + apply extends_bind; [apply extends_emit|intros _; apply extends_ret].
        + apply extends_bind; [apply extends_sleep|].
          intros _. apply extends_monitor_loop. }
    rewrite Hevs'. exists (evs' ++ evs).
    unfold tr1, call_job_list. cbn [snd].
    replace (count is_job_list (tr ++ [EvTime (clock E (count is_time tr))]))
      with (count is_job_list tr) by count_events.
    now rewrite <- !app_assoc.
  - intros d st Hfetch Hlook Hterm. split.
    + intros start_time.
      rewrite (monitor_turn E api job_id time_limit sleep_interval fuel
                 start_time tr d st Hfetch Hlook).
      now rewrite Hterm, Hfetch.
    + unfold monitor_job, try_except. rewrite monitor_body_eq.
      set (tr1 := tr ++ [EvTime (clock E (count is_time tr))]).
      assert (Hj : count is_job_list tr1 = count is_job_list tr)
        by (unfold tr1; count_events).
      assert (Ht : count is_time tr1 = (count is_time tr + 1)%nat)
        by (unfold tr1; count_events).
      rewrite <- Hj in Hfetch.
      rewrite (monitor_turn E api job_id time_limit sleep_interval fuel
                 _ tr1 d st Hfetch Hlook).
      rewrite Hterm, Hfetch, Ht. unfold tr1. now rewrite <- !app_assoc.
  - intros d st start_time Hfetch Hlook Hterm Hlate.
    rewrite (monitor_turn E api job_id time_limit sleep_interval fuel
               start_time tr d st Hfetch Hlook).
    now rewrite Hterm, Hlate, Hfetch.
Qed.

(** ** Downloading the files of a successful job *)

Section Downloader.

Variable E : Env.
Variable api : Api.
Variables job_id output_dir : string.

(** No call of [api.download_job_file] raises. *)
Hypothesis downloads_return :
  forall i path, exists v,
    api_download_job_file api i job_id path output_dir = Ok v.

Lemma download_one_entry (file_info : PyData) (entry : PyData * Z)
    (tr : Trace) :
  manifest_entry file_info entry ->
  exists tr',
    download_one api job_id output_dir file_info tr = (Ok tt, tr') /\
    downloads tr'
    = downloads tr ++
      (if 0 <? snd entry then [(job_id, fst entry, output_dir)] else []).
Proof.
  intros (fields & -> & Hpath & Hsize). unfold download_one.
  unfold bind at 1. cbn [getitem]. rewrite Hpath. unfold ret at 1.
  unfold bind at 1. unfold print, emit.
  unfold bind at 1. rewrite Hsize. unfold ret at 1.
  unfold bind at 1. cbn [gt_zero as_int]. unfold ret at 1.
  destruct (0 <? snd entry).
  - unfold bind, call_download_job_file.
    destruct (downloads_return
                (count is_download
                   (tr ++ [EvPrint "  {file_info['path']}..."
                                   [VData (fst entry)]]))
                (fst entry)) as [v Hv].
    rewrite Hv. unfold ret. eexists. split; [reflexivity|].
    rewrite !downloads_app. simpl. now rewrite app_nil_r.
  - unfold ret. eexists. split; [reflexivity|].
    rewrite downloads_app. simpl. now rewrite !app_nil_r.
Qed.

Lemma for_each_entries :
  forall (file_infos : list PyData) (entries : list (PyData * Z)) (tr : Trace),
    Forall2 manifest_entry file_infos entries ->
    exists tr',
      for_each file_infos (download_one api job_id output_dir) tr
      = (Ok tt, tr') /\
      downloads tr'
      = downloads tr ++
        map (fun entry => (job_id, fst entry, output_dir))
            (filter (fun entry => 0 <? snd entry) entries).
Proof.
  intros file_infos entries tr H. revert tr.
  induction H as [|file_info entry file_infos entries Hentry _ IH]; intros tr.
  - exists tr. split; [reflexivity|]. simpl. now rewrite app_nil_r.
  - destruct (download_one_entry file_info entry tr Hentry)
      as (tr1 & Hone & Hd1).
    destruct (IH tr1) as (tr2 & Hrest & Hd2).
    exists tr2. cbn [for_each]. unfold bind. rewrite Hone, Hrest.
    split; [reflexivity|]. rewrite Hd2, Hd1. cbn [filter].
    destruct (0 <? snd entry); cbn [map]; now rewrite <- app_assoc.
Qed.

Lemma download_successful_job_entries (d : list (string * PyData))
    (file_infos : list PyData) (entries : list (PyData * Z)) (tr : Trace) :
  lookup "status" d = Some (PStr "SUCCESS") ->
  lookup "files" d = Some (PList file_infos) ->
  Forall2 manifest_entry file_infos entries ->
  path_exists E output_dir = true \/ str_truthy output_dir = true ->
  exists tr',
    download_successful_job E api job_id (VData (PDict d)) output_dir tr
    = (Ok VNone, tr') /\
    downloads tr'
    = downloads tr ++
      map (fun entry => (job_id, fst entry, output_dir))
          (filter (fun entry => 0 <? snd entry) entries).
Proof.
  intros Hstatus Hfiles Hentries Hdir.
  unfold download_successful_job.
  unfold bind at 1. cbn [getitem]. rewrite Hstatus. unfold ret at 1.
  cbn [eq_str String.eqb Ascii.eqb Bool.eqb andb].
  set (prepare_dir := if negb (path_exists E output_dir)
                      then makedirs output_dir else ret tt).
  assert (Hprep : exists tr0,
             prepare_dir tr = (Ok tt, tr0) /\ downloads tr0 = downloads tr).
  { unfold prepare_dir. destruct (path_exists E output_dir); cbn [negb].
    - now exists tr.
    - destruct Hdir as [Hdir|Hdir]; [discriminate|].
      unfold makedirs. rewrite Hdir. eexists. split; [reflexivity|].
      rewrite downloads_app. simpl. now rewrite app_nil_r. }
  destruct Hprep as (tr0 & Hprep & Hd0).
  unfold bind at 1. rewrite Hprep.
  unfold bind at 1. unfold print at 1, emit.
  unfold bind at 1. rewrite Hfiles. unfold ret at 1.
  unfold bind at 1. cbn [py_iter]. unfold ret at 1.
  destruct (for_each_entries file_infos entries
              (tr0 ++ [EvPrint
                         "Downloading files into {os.path.join(output_dir, job_id)}"
                         [VData (PStr (path_join output_dir job_id))]])
              Hentries) as (tr' & Hloop & Hd).
  unfold bind. rewrite Hloop. unfold ret. exists tr'.
  split; [reflexivity|]. rewrite Hd, downloads_app, Hd0. simpl.
  now rewrite app_nil_r.
Qed.

End Downloader.

(** C8 (as amended): what a successful job downloads.  For a job status
    whose status is SUCCESS and whose file manifest is a list of entries
    with a path and an integer size, if the output directory exists or can
    be made and no download raises, [download_successful_job] returns
    [None] and calls [api.download_job_file], in manifest order, for
    exactly the entries whose size is greater than zero. *)
Theorem C8_downloads_positive_sizes :
  forall (E : Env) (api : Api) (job_id output_dir : string)
         (d : list (string * PyData)) (file_infos : list PyData)
         (entries : list (PyData * Z)) (tr : Trace),
    (forall i path, exists v,
        api_download_job_file api i job_id path output_dir = Ok v) ->
    lookup "status" d = Some (PStr "SUCCESS") ->
    lookup "files" d = Some (PList file_infos) ->
    Forall2 manifest_entry file_infos entries ->
    path_exists E output_dir = true \/ str_truthy output_dir = true ->
    fst (download_successful_job E api job_id (VData (PDict d)) output_dir tr)
    = Ok VNone /\
    downloads
      (snd (download_successful_job E api job_id (VData (PDict d))
              output_dir tr))
    = downloads tr ++
      map (fun entry => (job_id, fst entry, output_dir))
          (filter (fun entry => 0 <? snd entry) entries).
Proof.
  intros E api job_id output_dir d file_infos entries tr
         Hret Hstatus Hfiles Hentries Hdir.
  destruct (download_successful_job_entries E api job_id output_dir Hret
              d file_infos entries tr Hstatus Hfiles Hentries Hdir)
    as (tr' & Heq & Hd).
  rewrite Heq. now split.
Qed.

(** C8 as stated fails in two ways.  A manifest entry of negative size is
    skipped although its size is not zero; and a download that raises ends
    the loop, so that the files after it are not asked for although their
    size is not zero. *)
Lemma C8_counterexample_skipped_files :
  let negative :=
    VData (PDict [("status", PStr "SUCCESS");
                  ("files", PList [PDict [("path", PStr "out/eos.csv");
                                          ("size", PInt (-1))]])]) in
  let two_files :=
    VData (PDict [("status", PStr "SUCCESS");
                  ("files", PList [PDict [("path", PStr "out/eos.csv");
                                          ("size", PInt 10)];
                                   PDict [("path", PStr "out/bsq.csv");
                                          ("size", PInt 20)]])]) in
  let skipped := download_successful_job (demo_env []) (demo_api []) "job-1"
                   negative "./downloads/" [] in
  let aborted := download_successful_job (demo_env []) failing_api "job-1"
                   two_files "./downloads/" [] in
  (-1 <> 0 /\
   fst skipped = Ok VNone /\
   downloads (snd skipped) = [] /\
   downloads (snd skipped)
   <> [("job-1", PStr "out/eos.csv", "./downloads/")]) /\
  (fst aborted = Raise (HTTPError 404) /\
   downloads (snd aborted) = [("job-1", PStr "out/eos.csv", "./downloads/")] /\
   downloads (snd aborted)
   <> [("job-1", PStr "out/eos.csv", "./downloads/");
       ("job-1", PStr "out/bsq.csv", "./downloads/")]).
Proof.
  cbv zeta. repeat split; try reflexivity; discriminate.
Qed.

(** ** The statements at work on the concrete world *)

(** Two pages of jobs, the first of which is rate-limited once. *)
Lemma C1_paginated_lists_concatenate_witness :
  fst (job_list paged_env 5 demo_client "" [])
  = Ok (VData (PList [PInt 1; PInt 2; PInt 3])) /\
  http_requests (snd (job_list paged_env 5 demo_client "" []))
  = [page_request demo_client first_page; page_request demo_client first_page;
     page_request demo_client last_page].
Proof.
  assert (Hrate : Forall (fun q => can_sleep demo_client (page_retries q))
                    [first_page; last_page])
    by (repeat constructor; right; reflexivity).
  assert (Hserves : serves_pages paged_env demo_client (count is_http [])
                      [first_page; last_page]).
  { cbn [serves_pages].
    split; [apply limited_forb_sound; reflexivity|].
    split; [reflexivity|].
    split; [eexists; repeat split; reflexivity|].
    split; [split; reflexivity|].
    split; [apply limited_forb_sound; reflexivity|].
    split; [reflexivity|].
    split; [eexists; repeat split; reflexivity|].
    split; [reflexivity|exact I]. }
  assert (Hfuel : (total_attempts [first_page; last_page] < 5)%nat)
    by (cbn; lia).
  exact (proj1 (C1_paginated_lists_concatenate paged_env demo_client
                  first_page [last_page] [] 5 Hrate Hserves Hfuel)
           eq_refl).
Defined.

(** A job creation that is rate-limited twice. *)
Lemma C2_retry_on_rate_limit_witness :
  let E := demo_env [too_many_requests; too_many_requests;
                     ok_response (PDict [("uuid", PStr "job-1")])] in
  let req := job_create_request demo_client "demo" "" (PDict []) in
  run E 5 demo_client (job_create_call "demo" "" (PDict [])) []
  = display_response (VResp (server E 2 req)) true
      ([] ++ attempts E demo_client req 0 2) /\
  http_requests (attempts E demo_client req 0 2) = [req; req; req] /\
  sleeps (attempts E demo_client req 0 2) = [(1 / inject_Z 2)%Q; (1 / inject_Z 2)%Q].
Proof.
  cbv zeta.
  set (E := demo_env [too_many_requests; too_many_requests;
                      ok_response (PDict [("uuid", PStr "job-1")])]).
  set (req := job_create_request demo_client "demo" "" (PDict [])).
  assert (Hrate : can_sleep demo_client 2) by (right; reflexivity).
  destruct (C2_retry_on_rate_limit E demo_client 2)
    as (_ & Hattempts & Hrun & _).
  split; [|exact (Hattempts req 0%nat)].
  apply (Hrun Hrate (job_create_call "demo" "" (PDict [])) [] 5%nat req true
           []).
  - reflexivity.
  - apply limited_forb_sound. reflexivity.
  - lia.
Defined.

(** A parsed success and an unparsed server error. *)
Lemma C3_display_response_never_raises_witness :
  fst (display_response (VResp (ok_response (PDict []))) true [])
  = Ok (VData (PDict [])) /\
  fst (display_response (VResp server_error) true [])
  = Ok (VResp server_error).
Proof.
  split.
  - exact (proj1 (proj2 (C3_display_response_never_raises
                           (VResp (ok_response (PDict []))) true []))
             (ok_response (PDict [])) (PDict [])
             eq_refl eq_refl eq_refl eq_refl).
  - rewrite (proj2 (proj2 (C3_display_response_never_raises
                             (VResp server_error) true []))
               server_error eq_refl (or_introl eq_refl)).
    reflexivity.
Defined.

(** An upload record that holds an id and nothing else. *)
Lemma C5_download_without_path_writes_nothing_witness :
  let E := demo_env [too_many_requests;
                     ok_response (PDict [("uuid", PStr "u1")])] in
  fst (download_uploaded_file E 3 demo_client "u1" "/tmp/ce/uploads" [])
  = Ok VNone /\
  filter is_fs
    (snd (download_uploaded_file E 3 demo_client "u1" "/tmp/ce/uploads" []))
  = [].
Proof.
  cbv zeta.
  set (E := demo_env [too_many_requests;
                      ok_response (PDict [("uuid", PStr "u1")])]).
  assert (Hrate : can_sleep demo_client 1) by (right; reflexivity).
  destruct (C5_download_without_path_writes_nothing E demo_client 3 "u1"
              "/tmp/ce/uploads" [] 1 Hrate eq_refl) as [Heq Hfs].
  - apply limited_forb_sound. reflexivity.
  - lia.
  - right. eexists. repeat split; reflexivity.
  - split; [now rewrite Heq|exact Hfs].
Defined.

(** A job still running after 100 seconds, and a fetch that raises. *)
Lemma C6_monitor_returns_last_status_witness :
  fst (monitor_job (demo_env []) running_api 5 "job-1" (inject_Z 100)
         (inject_Z 30) [])
  = Ok (VData (job_status_of "RUNNING")) /\
  count is_job_list
    (snd (monitor_job (demo_env []) running_api 5 "job-1" (inject_Z 100)
            (inject_Z 30) []))
  = 3%nat /\
  exists e,
    fst (monitor_body (demo_env []) (demo_api []) 5 "job-1" (inject_Z 100)
           (inject_Z 30) [])
    = Raise e.
Proof.
  destruct (C6_monitor_returns_last_status (demo_env []) running_api "job-1"
              (inject_Z 100) (inject_Z 30)) as [Htimeout _].
  destruct (C6_monitor_returns_last_status (demo_env []) (demo_api []) "job-1"
              (inject_Z 100) (inject_Z 30)) as [_ Hnone].
  destruct (Htimeout [] 5%nat 2%nat) as [Hres Hcount].
  - reflexivity.
  - intros i Hi. destruct i as [|[|[|i]]];
      [eexists _, _; repeat split; reflexivity ..|exfalso; lia].
  - intros i Hi. destruct i as [|[|i]];
      [reflexivity|reflexivity|exfalso; lia].
  - reflexivity.
  - lia.
  - split; [exact Hres|]. split; [exact Hcount|].
    apply (Hnone [] 5%nat). reflexivity.
Defined.

(** A job created without a name. *)
Lemma C7_job_create_generated_name_witness :
  exists (n : Z) (m : nat),
    10000 <= n < 99999 /\
    five_digits (str_int n) = true /\
    (1 <= m)%nat /\
    http_requests
      (snd (job_create (demo_env [ok_response (PDict [])]) 3 demo_client ""
              "a test job" (PDict []) []))
    = [] ++
      repeat (json_request POST (api_url_base demo_client +++ "/ce/job/")
                (json_headers demo_client)
                (PDict [("name", PStr ("test-" +++ str_int n));
                        ("config", PDict []);
                        ("description", PStr "a test job")])) m.
Proof.
  apply (C7_job_create_generated_name (demo_env [ok_response (PDict [])]) 3
           demo_client "a test job" (PDict []) []).
  lia.
Defined.

(** A manifest of one file with content and one empty file. *)
Lemma C8_downloads_positive_sizes_witness :
  fst (download_successful_job (demo_env []) (demo_api []) "job-1"
         (VData (PDict manifest_status)) "./downloads/" [])
  = Ok VNone /\
  downloads
    (snd (download_successful_job (demo_env []) (demo_api []) "job-1"
            (VData (PDict manifest_status)) "./downloads/" []))
  = [("job-1", PStr "out/eos.csv", "./downloads/")].
Proof.
  apply (C8_downloads_positive_sizes (demo_env []) (demo_api []) "job-1"
           "./downloads/" manifest_status
           [PDict [("path", PStr "out/eos.csv"); ("size", PInt 10)];
            PDict [("path", PStr "out/empty.log"); ("size", PInt 0)]]
           [(PStr "out/eos.csv", 10); (PStr "out/empty.log", 0)] []).
  - intros i path. eexists. reflexivity.
  - reflexivity.
  - reflexivity.
  - repeat constructor; eexists; repeat split; reflexivity.
  - right. reflexivity.
Defined.

(** An integer given for the flag, and the flag given alone. *)
Lemma C9_update_checks_and_payload_witness :
  upload_file_update (demo_env [ok_response (PDict [])]) 3 demo_client "u1"
    (PInt 1) PNone true []
  = (Raise AssertionError, []) /\
  exists m, (1 <= m)%nat /\
    http_requests
      (snd (upload_file_update (demo_env [ok_response (PDict [])]) 3
              demo_client "u1" (PBool true) PNone true []))
    = [] ++
      repeat (mkRequest PATCH
                (api_url_base demo_client +++ "/ce/upload/" +++ "u1" +++ "/")
                (auth_only_headers demo_client) None
                (Some [("public", PBool true)]) None None false) m.
Proof.
  destruct (C9_update_checks_and_payload (demo_env [ok_response (PDict [])]) 3
              demo_client "u1" []) as (Hbad & _ & Hgood & _).
  split.
  - apply Hbad. left. reflexivity.
  - apply (Hgood (PBool true) PNone true); [reflexivity|reflexivity|lia].
Defined.

(** A finished job monitored with a negative time budget. *)
Lemma C10_monitor_fetches_first_witness :
  monitor_job (demo_env []) (demo_api [job_status_of "SUCCESS"]) 1 "job-1"
    (inject_Z (-5)) (inject_Z 60) []
  = (Ok (VData (job_status_of "SUCCESS")),
     [EvTime (inject_Z 0);
      EvJobList "job-1" (Ok (VData (job_status_of "SUCCESS")));
      EvTime (inject_Z 40);
      EvLog INFO "Job completed. Status: {job_status['status']}"
            [VData (PStr "SUCCESS")]]).
Proof.
  destruct (C10_monitor_fetches_first (demo_env [])
              (demo_api [job_status_of "SUCCESS"]) "job-1"
              (inject_Z (-5)) (inject_Z 60) [] 1%nat) as (_ & Hdone & _);
    [lia|].
  exact (proj2 (Hdone [("uuid", PStr "job-1"); ("status", PStr "SUCCESS")]
                  (PStr "SUCCESS") eq_refl eq_refl eq_refl)).
Defined.

(** ** More about the client: single requests *)

Lemma logs_no_sleeps (logs : Trace) :
  forallb is_log logs = true -> sleeps logs = [].
Proof.
  induction logs as [|e logs IH]; [reflexivity|]. simpl.
  destruct e; simpl; try discriminate. exact IH.
Qed.

Lemma logs_no_fs (logs : Trace) :
  forallb is_log logs = true -> filter is_fs logs = [].
Proof.
  induction logs as [|e logs IH]; [reflexivity|]. simpl.
  destruct e; simpl; try discriminate. exact IH.
Qed.

Lemma display_response_displayed (r : Response) (parse_json : bool)
    (tr : Trace) :
  exists logs,
    display_response (VResp r) parse_json tr
    = (Ok (displayed r parse_json), tr ++ logs) /\
    forallb is_log logs = true.
Proof.
  unfold displayed, success. cbn [display_response].
  unfold bind at 1, logger_debug at 1, emit, try_except, bind, assert_.
  destruct (in_range 200 300 (status_code r)).
  - unfold ret at 1. destruct parse_json.
    + unfold response_json. destruct (json_body r) as [d|].
      * unfold ret, logger_debug, emit. eexists [_; _].
        rewrite <- app_assoc. now split.
      * unfold raise, ret, logger_debug, emit. eexists [_; _].
        rewrite <- app_assoc. now split.
    + unfold ret. eexists [_]. now split.
  - unfold raise, ret, logger_debug, emit. eexists [_; _].
    rewrite <- app_assoc. now split.
Qed.

Lemma getitem_trace (x : Value) (k : string) (tr : Trace) :
  snd (getitem x k tr) = tr.
Proof.
  destruct x as [[| | | | |d]|r]; cbn [getitem]; try reflexivity.
  destruct (lookup k d); reflexivity.
Qed.

Lemma get_api_token_eq E self tr :
  get_api_token E self tr
  = (data <- display_response
               (VResp (server E (count is_http tr) (token_request self))) true ;;
     getitem data "token")
      (tr ++ [EvHttp (token_request self)
                (server E (count is_http tr) (token_request self))]).
Proof. reflexivity. Qed.

(** X1: The token exchange sends one request and never retries: a parsed
    answer yields its ['token'] entry, and any answer that is not a 2xx
    JSON object, a rate-limited one included, ends in an exception. *)
Theorem get_api_token_single_request :
  forall (E : Env) (self : Client) (tr : Trace),
    let r := server E (count is_http tr) (token_request self) in
    http_requests (snd (get_api_token E self tr))
    = http_requests tr ++ [token_request self] /\
    sleeps (snd (get_api_token E self tr)) = sleeps tr /\
    (forall d t,
        success r = true -> json_body r = Some (PDict d) ->
        lookup "token" d = Some t ->
        fst (get_api_token E self tr) = Ok t) /\
    (forall d,
        success r = true -> json_body r = Some (PDict d) ->
        lookup "token" d = None ->
        fst (get_api_token E self tr) = Raise (KeyError "token")) /\
    (success r = false \/ json_body r = None ->
     fst (get_api_token E self tr) = Raise TypeError).
Proof.
  intros E self tr r. rewrite get_api_token_eq. fold r.
  destruct (display_response_displayed r true
              (tr ++ [EvHttp (token_request self) r])) as (logs & Hd & Hlogs).
  unfold bind. rewrite Hd. rewrite !getitem_trace.
  repeat split.
  - rewrite !http_requests_app, (logs_no_requests _ Hlogs). simpl.
    now rewrite app_nil_r.
  - rewrite !sleeps_app, (logs_no_sleeps _ Hlogs). simpl.
    now rewrite !app_nil_r.
  - intros d t Hs Hj Ht. unfold displayed. rewrite Hs, Hj.
    cbn [getitem]. now rewrite Ht.
  - intros d Hs Hj Ht. unfold displayed. rewrite Hs, Hj.
    cbn [getitem]. now rewrite Ht.
  - intros [Hs|Hj]; unfold displayed.
    + now rewrite Hs.
    + rewrite Hj. now destruct (success r).
Qed.

(** X2: [login] sends one request, with the credentials as basic
    authentication, never retries and never raises: it returns what
    [display_response] makes of the one answer, whatever its status. *)
Theorem login_single_request :
  forall (E : Env) (self : Client) (tr : Trace),
    let r := server E (count is_http tr) (login_request self) in
    req_auth (login_request self)
    = Some (username (conf self), password (conf self)) /\
    exists logs,
      login E self tr
      = (Ok (displayed r true), tr ++ EvHttp (login_request self) r :: logs) /\
      forallb is_log logs = true.
Proof.
  intros E self tr r. split; [reflexivity|].
  unfold login. unfold bind at 1. rewrite requests_send_eq. fold r.
  destruct (display_response_displayed r true
              (tr ++ [EvHttp (login_request self) r])) as (logs & Hd & Hlogs).
  exists logs. split; [|exact Hlogs].
  unfold bind. rewrite Hd. unfold ret. now rewrite <- app_assoc.
Qed.

Lemma run_unfold E fuel self (c : Call) tr req (parse_json : bool) tr0 :
  prepare E self c tr = (Ok (req, parse_json), tr0) ->
  run E fuel self c tr
  = (response <- retry_loop fuel self (requests_send E req) ;;
     display_response (VResp response) parse_json) tr0.
Proof.
  intros Hprep.
  destruct c; cbn [prepare] in Hprep; cbn [run];
    try (unfold ret in Hprep; injection Hprep as <- <- <-; reflexivity).
  - unfold job_create. unfold bind at 1 in Hprep. unfold bind at 1.
    destruct ((if negb (str_truthy name)
               then n <- randrange E 10000 99999 ;; ret ("test-" +++ str_int n)
               else ret name) tr) as [[name'| |] tr1]; try discriminate.
    unfold ret in Hprep. injection Hprep as <- <- <-. reflexivity.
  - unfold upload_file.
    destruct (local_file E file_path) as [fp|]; [|discriminate].
    unfold ret in Hprep. injection Hprep as <- <- <-. reflexivity.
  - unfold upload_file_update. unfold bind at 1 in Hprep. unfold bind at 1.
    destruct (upload_update_data public description tr) as [[data| |] tr1];
      try discriminate.
    unfold ret in Hprep. injection Hprep as <- <- <-. reflexivity.
  - unfold update_job. unfold bind at 1 in Hprep. unfold bind at 1.
    destruct (update_job_data saved public tr) as [[data| |] tr1];
      try discriminate.
    unfold ret in Hprep. injection Hprep as <- <- <-. reflexivity.
Qed.

(** X3: The eleven methods made of one retry loop and [display_response]
    never raise on a status code.  Once the answer that is not
    rate-limited is in, the method returns the parsed body if the status
    is 2xx and parsing was asked for and possible, and the response
    object itself otherwise; in particular an answer that is not a
    success is handed back as it is. *)
Theorem loop_methods_return_the_answer :
  forall (E : Env) (self : Client) (N fuel : nat) (c : Call) (tr : Trace)
         (req : Request) (parse_json : bool) (tr0 : Trace),
    let r := server E (count is_http tr0 + N) req in
    can_sleep self N ->
    prepare E self c tr = (Ok (req, parse_json), tr0) ->
    limited_for E req (count is_http tr0) N ->
    (N < fuel)%nat ->
    (exists logs,
        run E fuel self c tr
        = (Ok (displayed r parse_json),
           tr0 ++ attempts E self req (count is_http tr0) N ++ logs) /\
        forallb is_log logs = true) /\
    (success r = false -> fst (run E fuel self c tr) = Ok (VResp r)).
Proof.
  intros E self N fuel c tr req parse_json tr0 r Hrate Hprep Hlim Hfuel.
  rewrite (run_unfold E fuel self c tr req parse_json tr0 Hprep).
  rewrite (retry_display E self req parse_json N fuel tr0 Hrate Hlim Hfuel).
  fold r.
  destruct (display_response_displayed r parse_json
              (tr0 ++ attempts E self req (count is_http tr0) N))
    as (logs & Hd & Hlogs).
  rewrite Hd. split.
  - exists logs. split; [now rewrite <- app_assoc|exact Hlogs].
  - intros Hfail. cbn [fst]. unfold displayed. now rewrite Hfail.
Qed.

Lemma rate_limiter_nonpositive self (r : Response) (tr : Trace) :
  status_code r = rate_limit_status_code ->
  api_rate_limit (conf self) <= 0 ->
  rate_limiter self r tr
  = (Raise (if api_rate_limit (conf self) =? 0
            then ZeroDivisionError else ValueError),
     tr ++ [EvLog DEBUG rate_limiter_message []]).
Proof.
  intros Hs Hrate. unfold rate_limiter. rewrite Hs, Z.eqb_refl.
  unfold bind at 1. unfold logger_debug, emit.
  unfold bind at 1. unfold truediv_one.
  destruct (api_rate_limit (conf self)) as [|p|p]; [reflexivity|lia|].
  cbn [Z.eqb]. unfold ret at 1. unfold bind, sleep.
  reflexivity.
Qed.

(** X4: A rate of zero or less breaks the retry: at the first rate-limited
    answer the loop raises, [ZeroDivisionError] for a rate of zero and
    [ValueError] (from [sleep]) for a negative one, after one request and
    without having slept; so does every method made of the loop. *)
Theorem nonpositive_rate_breaks_retry :
  forall (E : Env) (self : Client) (fuel : nat) (req : Request) (tr : Trace),
    let r := server E (count is_http tr) req in
    let e := if api_rate_limit (conf self) =? 0
             then ZeroDivisionError else ValueError in
    (0 < fuel)%nat ->
    status_code r = rate_limit_status_code ->
    api_rate_limit (conf self) <= 0 ->
    retry_loop fuel self (requests_send E req) tr
    = (Raise e, tr ++ [EvHttp req r; EvLog DEBUG rate_limiter_message []]) /\
    (forall c tr' parse_json,
        prepare E self c tr' = (Ok (req, parse_json), tr) ->
        run E fuel self c tr'
        = (Raise e,
           tr ++ [EvHttp req r; EvLog DEBUG rate_limiter_message []])).
Proof.
  intros E self fuel req tr r e Hfuel Hs Hrate.
  assert (Hloop : retry_loop fuel self (requests_send E req) tr
                  = (Raise e, tr ++ [EvHttp req r;
                                     EvLog DEBUG rate_limiter_message []])).
  { destruct fuel as [|fuel]; [lia|]. cbn [retry_loop].
    unfold bind at 1. rewrite requests_send_eq. fold r.
    unfold bind. rewrite (rate_limiter_nonpositive self r _ Hs Hrate).
    fold e. now rewrite <- app_assoc. }
  split; [exact Hloop|].
  intros c tr' parse_json Hprep.
  rewrite (run_unfold E fuel self c tr' req parse_json tr Hprep).
  unfold bind. now rewrite Hloop.
Qed.

(** X5: Uploading a local file that cannot be opened raises
    [FileNotFoundError] with nothing sent; when the file can be opened,
    every request sent (there is at least one) carries its content as the
    ['file'] part, with the path, the description and the flag as form
    data. *)
Theorem upload_file_reads_the_local_file :
  forall (E : Env) (fuel : nat) (self : Client)
         (file_path upload_path description : string) (public : bool)
         (tr : Trace),
    (0 < fuel)%nat ->
    (local_file E file_path = None ->
     upload_file E fuel self file_path upload_path description public tr
     = (Raise (FileNotFoundError file_path), tr)) /\
    (forall fp,
        local_file E file_path = Some fp ->
        exists m, (1 <= m)%nat /\
          http_requests
            (snd (upload_file E fuel self file_path upload_path description
                    public tr))
          = http_requests tr ++
            repeat (mkRequest PUT (api_url_base self +++ "/ce/upload/")
                      (auth_only_headers self) None
                      (Some [("path", PStr upload_path);
                             ("description", PStr description);
                             ("public", PBool public)])
                      (Some [("file", fp)]) None false) m).
Proof.
  intros E fuel self file_path upload_path description public tr Hfuel.
  split.
  - intros Hnone. unfold upload_file. rewrite Hnone.
    destruct fuel as [|fuel]; [lia|]. reflexivity.
  - intros fp Hsome. unfold upload_file. rewrite Hsome.
    destruct (retry_display_requests E self
                (upload_request self fp upload_path description public)
                true fuel tr) as (m & Hreq & Hm).
    exists m. split; [auto|exact Hreq].
Qed.

(** X6: Reading a job file into a data frame sends one request and never
    retries or raises: the result is [None] when the status is an error
    status (4xx or 5xx, the rate-limit status among them) and what
    [read_csv] makes of the body otherwise, [None] again when it fails. *)
Theorem read_job_file_never_raises :
  forall (E : Env) (self : Client) (uuid path : string) (tr : Trace),
    let req := plain_request GET
                 (url_base self +++ "/ce/download/" +++ uuid +++ "/"
                  +++ strip_slashes path) (json_headers self) in
    let r := server E (count is_http tr) req in
    exists logs,
      read_job_file_to_dataframe E self uuid path tr
      = (Ok (if in_range 400 600 (status_code r) then None
             else read_csv E (text r)),
         tr ++ EvHttp req r :: logs) /\
      forallb is_log logs = true.
Proof.
  intros E self uuid path tr req r.
  unfold read_job_file_to_dataframe, try_except.
  unfold bind at 1. rewrite requests_send_eq. fold req. fold r.
  unfold bind at 1. unfold raise_for_status.
  destruct (in_range 400 600 (status_code r)).
  - unfold raise, bind, logger_error, emit, ret. exists [EvLog ERROR "Error reading file: {e}" []].
    split; [now rewrite <- app_assoc|reflexivity].
  - unfold ret at 1. destruct (read_csv E (text r)) as [df|].
    + unfold ret. exists []. now split.
    + unfold raise, bind, logger_error, emit, ret.
      exists [EvLog ERROR "Error reading file: {e}" []].
      split; [now rewrite <- app_assoc|reflexivity].
Qed.

(** ** More about the client: lookups by id and failed listings *)

Lemma list_resource_first E self fuel (collection uuid : string) N tr :
  let req := plain_request GET (resource_url self collection uuid)
               (json_headers self) in
  let r := server E (count is_http tr + N) req in
  let tr1 := tr ++ attempts E self req (count is_http tr) N in
  can_sleep self N ->
  limited_for E req (count is_http tr) N ->
  (N < fuel)%nat ->
  (success r = false ->
   list_resource E fuel self collection uuid tr = (Ok (VResp r), tr1)) /\
  (success r = true -> json_body r = None ->
   list_resource E fuel self collection uuid tr
   = (Raise JSONDecodeError, tr1)) /\
  (str_truthy uuid = true -> forall d,
   success r = true -> json_body r = Some d ->
   list_resource E fuel self collection uuid tr = (Ok (VData d), tr1)).
Proof.
  intros req r tr1 Hrate Hlim Hfuel.
  assert (Heq : list_resource E fuel self collection uuid tr
                = (if negb (success r) then ret (VResp r)
                   else
                     response_data <- response_json r ;;
                     if str_truthy uuid then ret (VData response_data)
                     else
                       items <- getitem (VData response_data) "results" ;;
                       url <- getitem (VData response_data) "next" ;;
                       logger_debug "Next page of results: {url}" [VData url] ;;
                       follow_next E fuel fuel self items url) tr1).
  { unfold list_resource. fold (resource_url self collection uuid).
    fold req. unfold bind at 1.
    now rewrite (retry_loop_attempts E self req N fuel tr Hrate Hlim Hfuel). }
  rewrite Heq. repeat split.
  - intros Hfail. now rewrite Hfail.
  - intros Hok Hjson. rewrite Hok. cbn [negb].
    unfold bind, response_json. now rewrite Hjson.
  - intros Huuid d Hok Hjson. rewrite Hok. cbn [negb].
    unfold bind, response_json. now rewrite Hjson, Huuid.
Qed.

(** X7: Looking one job or one upload up by its id takes one request, plus
    the rate-limited attempts before it, and follows no page: a 2xx answer
    yields its parsed body whatever that body holds, and raises
    [JSONDecodeError] when the body is not JSON.  With or without an id, a
    first answer that is not a success is returned as it is, and nothing
    more is requested. *)
Theorem lookup_returns_first_answer :
  forall (E : Env) (self : Client) (fuel : nat) (uuid : string) (N : nat)
         (tr : Trace),
    let job_req := plain_request GET (resource_url self "/ce/job/" uuid)
                     (json_headers self) in
    let upload_req := plain_request GET (resource_url self "/ce/upload/" uuid)
                        (json_headers self) in
    can_sleep self N ->
    (N < fuel)%nat ->
    (limited_for E job_req (count is_http tr) N ->
     let r := server E (count is_http tr + N) job_req in
     let tr1 := tr ++ attempts E self job_req (count is_http tr) N in
     (success r = false ->
      job_list E fuel self uuid tr = (Ok (VResp r), tr1)) /\
     (success r = true -> json_body r = None ->
      job_list E fuel self uuid tr = (Raise JSONDecodeError, tr1)) /\
     (str_truthy uuid = true -> forall d,
      success r = true -> json_body r = Some d ->
      job_list E fuel self uuid tr = (Ok (VData d), tr1))) /\
    (limited_for E upload_req (count is_http tr) N ->
     let r := server E (count is_http tr + N) upload_req in
     let tr1 := tr ++ attempts E self upload_req (count is_http tr) N in
     (success r = false ->
      upload_list E fuel self uuid tr = (Ok (VResp r), tr1)) /\
     (success r = true -> json_body r = None ->
      upload_list E fuel self uuid tr = (Raise JSONDecodeError, tr1)) /\
     (str_truthy uuid = true -> forall d,
      success r = true -> json_body r = Some d ->
      upload_list E fuel self uuid tr = (Ok (VData d), tr1))).
Proof.
  intros E self fuel uuid N tr job_req upload_req Hrate Hfuel. split.
  - intros Hlim. now apply list_resource_first.
  - intros Hlim. now apply list_resource_first.
Qed.

(** ** More about the client: streamed downloads *)

Lemma lstrip_slashes_fixed (l : list ascii) :
  match l with c :: _ => is_slash c = false | [] => True end ->
  lstrip_slashes l = l.
Proof. destruct l as [|c l]; [reflexivity|]. simpl. now intros ->. Qed.

Lemma lstrip_slashes_head (l : list ascii) :
  match lstrip_slashes l with c :: _ => is_slash c = false | [] => True end.
Proof.
  induction l as [|c l IH]; [exact I|]. simpl.
  destruct (is_slash c) eqn:Hc; [exact IH|exact Hc].
Qed.

Lemma lstrip_slashes_split (l : list ascii) :
  exists slashes,
    l = slashes ++ lstrip_slashes l /\ forallb is_slash slashes = true.
Proof.
  induction l as [|c l (slashes & Heq & Hall)].
  - now exists [].
  - simpl. destruct (is_slash c) eqn:Hc.
    + exists (c :: slashes). simpl. rewrite Hc. split; [now f_equal|exact Hall].
    + now exists [].
Qed.

Lemma stripped_head (l : list ascii) :
  match stripped l with c :: _ => is_slash c = false | [] => True end.
Proof.
  unfold stripped.
  destruct (lstrip_slashes_split (rev (lstrip_slashes l)))
    as (slashes & Heq & _).
  apply (f_equal (@rev ascii)) in Heq.
  rewrite rev_involutive, rev_app_distr in Heq.
  pose proof (lstrip_slashes_head l) as Hhead. rewrite Heq in Hhead.
  destruct (rev (lstrip_slashes (rev (lstrip_slashes l)))) as [|c t];
    [exact I|exact Hhead].
Qed.

Lemma stripped_idempotent (l : list ascii) : stripped (stripped l) = stripped l.
Proof.
  unfold stripped at 1.
  rewrite (lstrip_slashes_fixed (stripped l) (stripped_head l)).
  unfold stripped at 1. rewrite rev_involutive.
  rewrite (lstrip_slashes_fixed _ (lstrip_slashes_head _)).
  reflexivity.
Qed.

Lemma strip_slashes_idempotent (s : string) :
  strip_slashes (strip_slashes s) = strip_slashes s.
Proof.
  unfold strip_slashes. fold (stripped (list_ascii_of_string s)).
  rewrite list_ascii_of_string_of_list_ascii.
  fold (stripped (stripped (list_ascii_of_string s))).
  now rewrite stripped_idempotent.
Qed.




Lemma count_http_limited_downloads E self req dir n0 N :
  count is_http (limited_downloads E self req dir n0 N) = N.
Proof.
  revert n0; induction N as [|N IH]; intros n0; [reflexivity|].
  cbn [limited_downloads]. count_events. now rewrite IH.
Qed.


Lemma fs_limited_downloads E self req dir n0 N :
  filter is_fs (limited_downloads E self req dir n0 N)
  = repeat (EvMakedirs dir) N.
Proof.
  revert n0; induction N as [|N IH]; intros n0; [reflexivity|].
  simpl. now rewrite IH.
Qed.

Lemma sleeps_limited_downloads E self req dir n0 N :
  sleeps (limited_downloads E self req dir n0 N)
  = repeat (1 / inject_Z (api_rate_limit (conf self)))%Q N.
Proof.
  revert n0; induction N as [|N IH]; intros n0; [reflexivity|].
  simpl. now rewrite IH.
Qed.

Lemma download_job_file_outcome E self (uuid path root_dir : string) :
  let url := url_base self +++ "/ce/download/" +++ uuid +++ "/"
             +++ strip_slashes path in
  let file_path := path_join (path_join root_dir uuid) (strip_slashes path) in
  let dir := path_dirname file_path in
  let req := download_request self url in
  str_truthy dir = true ->
  forall N fuel tr,
    can_sleep self N ->
    limited_for E req (count is_http tr) N ->
    (N < fuel)%nat ->
    let r := server E (count is_http tr + N) req in
    download_job_file E fuel self uuid path root_dir tr
    = (if in_range 400 600 (status_code r)
       then Raise (HTTPError (status_code r)) else Ok VNone,
       tr ++ limited_downloads E self req dir (count is_http tr) N
          ++ [EvMakedirs dir; EvHttp req r]
          ++ (if in_range 400 600 (status_code r) then []
              else [EvWrite file_path (filter str_truthy (content r))])).
Proof.
  intros url file_path dir req Hdir.
  induction N as [|N IH]; intros fuel tr Hrate Hlim Hfuel r;
    (destruct fuel as [|fuel]; [lia|]); cbn [download_job_file];
    fold url; fold file_path; fold dir; fold req;
    unfold bind at 1; unfold makedirs; rewrite Hdir; unfold emit;
    unfold bind at 1; rewrite requests_send_eq;
    replace (count is_http (tr ++ [EvMakedirs dir])) with (count is_http tr)
      by count_events.
  - destruct Hlim as [_ Hlast]. rewrite Nat.add_0_r in Hlast.
    unfold r. rewrite Nat.add_0_r.
    unfold bind at 1. rewrite rate_limiter_pass by assumption.
    unfold bind at 1. unfold raise_for_status.
    destruct (in_range 400 600
                (status_code (server E (count is_http tr) req))).
    + unfold raise. cbn [limited_downloads]. now rewrite <- !app_assoc.
    + unfold ret at 1. unfold bind, write_chunks, emit, ret.
      cbn [limited_downloads]. now rewrite <- !app_assoc.
  - destruct Hrate as [Hrate|Hrate]; [discriminate|].
    pose proof Hlim as [Hall _].
    specialize (Hall 0%nat (Nat.lt_0_succ N)). rewrite Nat.add_0_r in Hall.
    unfold bind at 1. rewrite rate_limiter_limited by assumption.
    set (tr1 := ((tr ++ [EvMakedirs dir])
                   ++ [EvHttp req (server E (count is_http tr) req)]) ++ _).
    assert (Hc : count is_http tr1 = S (count is_http tr))
      by (unfold tr1; count_events).
    cbv beta iota. rewrite (IH fuel tr1).
    + rewrite Hc. unfold r.
      replace (S (count is_http tr) + N)%nat
        with (count is_http tr + S N)%nat by lia.
      f_equal. unfold tr1. cbn [limited_downloads].
      now rewrite <- !app_assoc.
    + now right.
    + rewrite Hc. now apply limited_for_shift.
    + lia.
Qed.

(** X9: A download of a job file that ends on an error status (4xx or 5xx)
    raises [HTTPError] and writes no file: all it leaves on disk is the
    directory, made once per attempt. *)
Theorem download_job_file_error_status :
  forall (E : Env) (self : Client) (fuel : nat) (uuid path root_dir : string)
         (tr : Trace) (N : nat),
    let file_path := path_join (path_join root_dir uuid) (strip_slashes path) in
    let req := download_request self
                 (url_base self +++ "/ce/download/" +++ uuid +++ "/"
                  +++ strip_slashes path) in
    let r := server E (count is_http tr + N) req in
    str_truthy (path_dirname file_path) = true ->
    can_sleep self N ->
    limited_for E req (count is_http tr) N ->
    (N < fuel)%nat ->
    in_range 400 600 (status_code r) = true ->
    fst (download_job_file E fuel self uuid path root_dir tr)
    = Raise (HTTPError (status_code r)) /\
    filter is_fs (snd (download_job_file E fuel self uuid path root_dir tr))
    = filter is_fs tr ++ repeat (EvMakedirs (path_dirname file_path)) (S N).
Proof.
  intros E self fuel uuid path root_dir tr N file_path req r
         Hdir Hrate Hlim Hfuel Herr.
  rewrite (download_job_file_outcome E self uuid path root_dir Hdir N fuel tr
             Hrate Hlim Hfuel).
  fold file_path. fold req. fold r. rewrite Herr. split; [reflexivity|].
  cbn [snd]. rewrite !filter_app, fs_limited_downloads. cbn [filter is_fs].
  rewrite app_nil_r.
  replace (S N) with (N + 1)%nat by lia. now rewrite repeat_app.
Qed.


(** X11: The slashes around [path] do not matter to a download: the call with
    [path] and the call with [path.strip('/')] do the same. *)
Theorem download_job_file_ignores_outer_slashes :
  forall (E : Env) (fuel : nat) (self : Client) (uuid path root_dir : string)
         (tr : Trace),
    download_job_file E fuel self uuid (strip_slashes path) root_dir tr
    = download_job_file E fuel self uuid path root_dir tr.
Proof.
  intros E fuel self uuid path root_dir.
  induction fuel as [|fuel IH]; intros tr; [reflexivity|].
  cbn [download_job_file]. rewrite strip_slashes_idempotent.
  unfold bind.
  destruct (makedirs _ tr) as [[[]| |] tr1]; try reflexivity.
  destruct (requests_send E _ tr1) as [[response| |] tr2]; try reflexivity.
  destruct (rate_limiter self response tr2) as [[[|]| |] tr3];
    try reflexivity.
  apply IH.
Qed.




(** ** More about the helpers *)

Section MonitorMore.

Variable E : Env.
Variable api : Api.
Variable job_id : string.
Variables time_limit sleep_interval : Q.

(** [k] turns that neither end the job nor exhaust the time, then one
    whose fetch is terminal. *)
Lemma monitor_until_done (start_time : Q) :
  Qle_bool 0 sleep_interval = true ->
  forall k tr fuel d st,
    (forall i, (i < k)%nat -> exists d' st',
        api_job_list api (count is_job_list tr + i) job_id
        = Ok (VData (PDict d')) /\
        lookup "status" d' = Some st' /\ is_terminal st' = false) ->
    (forall i, (i < k)%nat ->
        Qgt_bool (clock E (count is_time tr + i) - start_time) time_limit
        = false) ->
    api_job_list api (count is_job_list tr + k) job_id
    = Ok (VData (PDict d)) ->
    lookup "status" d = Some st ->
    is_terminal st = true ->
    (k < fuel)%nat ->
    exists tr',
      monitor_loop E api fuel job_id time_limit sleep_interval start_time tr
      = (Ok (VData (PDict d)), tr') /\
      count is_job_list tr' = (count is_job_list tr + k + 1)%nat /\
      sleeps tr' = sleeps tr ++ repeat sleep_interval k.
Proof.
  intros Hsleep.
  induction k as [|k IH]; intros tr fuel d st Hrun Hearly Hdone Hlook Hterm Hfuel;
    (destruct fuel as [|fuel]; [lia|]).
  - rewrite Nat.add_0_r in Hdone.
    rewrite (monitor_turn E api job_id time_limit sleep_interval fuel
               start_time tr d st Hdone Hlook).
    rewrite Hterm. eexists. split; [reflexivity|]. split.
    + count_events.
    + rewrite sleeps_app. simpl. now rewrite app_nil_r.
  - destruct (Hrun 0%nat (Nat.lt_0_succ k)) as (d0 & st0 & Hfetch & Hlook0 & Hterm0).
    rewrite Nat.add_0_r in Hfetch.
    assert (Hearly0 := Hearly 0%nat (Nat.lt_0_succ k)).
    rewrite Nat.add_0_r in Hearly0.
    rewrite (monitor_turn E api job_id time_limit sleep_interval fuel
               start_time tr d0 st0 Hfetch Hlook0).
    rewrite Hterm0, Hearly0, Hsleep.
    set (tr1 := tr ++ _).
    assert (Hj : count is_job_list tr1 = S (count is_job_list tr))
      by (unfold tr1; count_events).
    assert (Ht : count is_time tr1 = S (count is_time tr))
      by (unfold tr1; count_events).
    destruct (IH tr1 fuel d st) as (tr' & Heq & Hcount & Hsl);
      try assumption.
    + intros i Hi. rewrite Hj.
      replace (S (count is_job_list tr) + i)%nat
        with (count is_job_list tr + S i)%nat by lia.
      apply Hrun. lia.
    + intros i Hi. rewrite Ht.
      replace (S (count is_time tr) + i)%nat
        with (count is_time tr + S i)%nat by lia.
      apply Hearly. lia.
    + rewrite Hj.
      now replace (S (count is_job_list tr) + k)%nat
        with (count is_job_list tr + S k)%nat by lia.
    + lia.
    + exists tr'. split; [exact Heq|]. split.
      * rewrite Hcount, Hj. lia.
      * rewrite Hsl. unfold tr1. rewrite sleeps_app. simpl.
        now rewrite <- app_assoc.
Qed.

End MonitorMore.

(** X15: A job that finishes at the [(k + 1)]-th fetch, the time budget not
    being exceeded before: [monitor_job] returns the terminal status
    object after exactly [k + 1] fetches and [k] sleeps of
    [sleep_interval] seconds. *)
Theorem monitor_returns_terminal_status :
  forall (E : Env) (api : Api) (job_id : string)
         (time_limit sleep_interval : Q) (tr : Trace) (fuel k : nat)
         (d : list (string * PyData)) (st : PyData),
    Qle_bool 0 sleep_interval = true ->
    (forall i, (i < k)%nat -> exists d' st',
        api_job_list api (count is_job_list tr + i) job_id
        = Ok (VData (PDict d')) /\
        lookup "status" d' = Some st' /\ is_terminal st' = false) ->
    (forall i, (i < k)%nat ->
        Qgt_bool (clock E (count is_time tr + 1 + i)
                  - clock E (count is_time tr)) time_limit = false) ->
    api_job_list api (count is_job_list tr + k) job_id
    = Ok (VData (PDict d)) ->
    lookup "status" d = Some st ->
    is_terminal st = true ->
    (k < fuel)%nat ->
    fst (monitor_job E api fuel job_id time_limit sleep_interval tr)
    = Ok (VData (PDict d)) /\
    count is_job_list
      (snd (monitor_job E api fuel job_id time_limit sleep_interval tr))
    = (count is_job_list tr + k + 1)%nat /\
    sleeps (snd (monitor_job E api fuel job_id time_limit sleep_interval tr))
    = sleeps tr ++ repeat sleep_interval k.
Proof.
  intros E api job_id time_limit sleep_interval tr fuel k d st
         Hsleep Hrun Hearly Hdone Hlook Hterm Hfuel.
  set (tr1 := tr ++ [EvTime (clock E (count is_time tr))]).
  assert (Hj : count is_job_list tr1 = count is_job_list tr)
    by (unfold tr1; count_events).
  assert (Ht : count is_time tr1 = (count is_time tr + 1)%nat)
    by (unfold tr1; count_events).
  destruct (monitor_until_done E api job_id time_limit sleep_interval
              (clock E (count is_time tr)) Hsleep k tr1 fuel d st)
    as (tr' & Heq & Hcount & Hsl); try assumption.
  - intros i Hi. rewrite Hj. now apply Hrun.
  - intros i Hi. rewrite Ht. now apply Hearly.
  - now rewrite Hj.
  - unfold monitor_job, try_except. rewrite monitor_body_eq. fold tr1.
    rewrite Heq. cbn [fst snd]. split; [reflexivity|]. split.
    + now rewrite Hcount, Hj.
    + rewrite Hsl. unfold tr1. rewrite sleeps_app. simpl.
      now rewrite app_nil_r.
Qed.

(** X16: [monitor_job] never raises; and when the first fetch raises, or
    returns a response object (what [job_list] hands back for an answer
    that is not a success), it logs the error and returns [None] after
    that one fetch, without sleeping. *)
Theorem monitor_never_raises :
  forall (E : Env) (api : Api) (fuel : nat) (job_id : string)
         (time_limit sleep_interval : Q) (tr : Trace),
    (forall e,
        fst (monitor_job E api fuel job_id time_limit sleep_interval tr)
        <> Raise e) /\
    ((0 < fuel)%nat ->
     (exists e, api_job_list api (count is_job_list tr) job_id = Raise e) \/
     (exists r, api_job_list api (count is_job_list tr) job_id
                = Ok (VResp r)) ->
     fst (monitor_job E api fuel job_id time_limit sleep_interval tr)
     = Ok VNone /\
     count is_job_list
       (snd (monitor_job E api fuel job_id time_limit sleep_interval tr))
     = (count is_job_list tr + 1)%nat /\
     sleeps (snd (monitor_job E api fuel job_id time_limit sleep_interval tr))
     = sleeps tr).
Proof.
  intros E api fuel job_id time_limit sleep_interval tr. split.
  - intros e. unfold monitor_job, try_except.
    destruct (monitor_body E api fuel job_id time_limit sleep_interval tr)
      as [[v| |] tr']; discriminate.
  - intros Hfuel Hfetch. destruct fuel as [|fuel]; [lia|].
    assert (Heq : exists tr',
               monitor_job E api (S fuel) job_id time_limit sleep_interval tr
               = (Ok VNone, tr') /\
               count is_job_list tr' = (count is_job_list tr + 1)%nat /\
               sleeps tr' = sleeps tr).
    { unfold monitor_job, try_except. rewrite monitor_body_eq.
      cbn [monitor_loop]. unfold bind at 1. unfold call_job_list.
      replace (count is_job_list
                 (tr ++ [EvTime (clock E (count is_time tr))]))
        with (count is_job_list tr) by count_events.
      destruct Hfetch as [[e He]|[r Hr]].
      - rewrite He. unfold bind, logger_error, emit, ret.
        eexists. split; [reflexivity|]. split; [count_events|].
        rewrite !sleeps_app. simpl. now rewrite !app_nil_r.
      - rewrite Hr. unfold bind at 1. unfold time_time.
        unfold bind at 1. cbn [getitem]. unfold raise.
        unfold bind, logger_error, emit, ret.
        eexists. split; [reflexivity|]. split; [count_events|].
        rewrite !sleeps_app. simpl. now rewrite !app_nil_r. }
    destruct Heq as (tr' & Heq & Hcount & Hsl). rewrite Heq.
    cbn [fst snd]. now repeat split.
Qed.

(** X17: A job status that is not SUCCESS triggers no download and touches
    no directory.  A status object without a ['status'] entry raises
    [KeyError] at once; a FAILURE without an ['error_info'] entry raises
    [KeyError] as well; every other status object is reported by printing
    and the call returns [None]. *)
Theorem download_skipped_unless_success :
  forall (E : Env) (api : Api) (job_id output_dir : string)
         (d : list (string * PyData)) (tr : Trace),
    let run := download_successful_job E api job_id (VData (PDict d))
                 output_dir tr in
    (lookup "status" d = None -> run = (Raise (KeyError "status"), tr)) /\
    (forall st,
        lookup "status" d = Some st ->
        eq_str st "SUCCESS" = false ->
        downloads (snd run) = downloads tr /\
        filter is_fs (snd run) = filter is_fs tr /\
        (eq_str st "FAILURE" = true -> lookup "error_info" d = None ->
         run = (Raise (KeyError "error_info"), tr)) /\
        (eq_str st "FAILURE" = false \/ lookup "error_info" d <> None ->
         fst run = Ok VNone)).
Proof.
  intros E api job_id output_dir d tr run. split.
  - intros Hnone. unfold run, download_successful_job.
    unfold bind. cbn [getitem]. now rewrite Hnone.
  - intros st Hst Hnot.
    assert (Heq : run
                  = if eq_str st "FAILURE" then
                      match lookup "error_info" d with
                      | Some info =>
                          (Ok VNone,
                           tr ++ [EvPrint
                                    "Job failed. Error: {job_status['error_info']}"
                                    [VData info]])
                      | None => (Raise (KeyError "error_info"), tr)
                      end
                    else
                      (Ok VNone,
                       tr ++ [EvPrint
                                "Job ended with unexpected status: {job_status['status']}"
                                [VData st];
                              EvPrint
                                "Error info: {job_status.get('error_info', ...)}"
                                [VData match lookup "error_info" d with
                                       | Some info => info
                                       | None => PStr "No error info available"
                                       end]])).
    { unfold run, download_successful_job.
      unfold bind at 1. cbn [getitem]. rewrite Hst. unfold ret at 1.
      rewrite Hnot. destruct (eq_str st "FAILURE").
      - unfold bind at 1. destruct (lookup "error_info" d); [|reflexivity].
        unfold ret at 1. reflexivity.
      - unfold bind, print, emit, ret. now rewrite <- app_assoc. }
    rewrite Heq.
    destruct (eq_str st "FAILURE"); [destruct (lookup "error_info" d)|];
      cbn [fst snd]; rewrite ?downloads_app, ?filter_app; simpl;
      rewrite ?app_nil_r; repeat split; try reflexivity; try discriminate.
    + intros [H|H]; [discriminate|now contradiction H].
Qed.

(** ** More about the client: deleting all jobs *)

Section DeleteAll.

Variable py_str : PyData -> string.
Variable E : Env.
Variable self : Client.
Variable fuel : nat.

Lemma delete_listed_job_requests (job uuid : PyData) (retries : nat)
    (tr : Trace) :
  job_with_uuid job uuid ->
  can_sleep self retries ->
  limited_for E (job_delete_request py_str self uuid) (count is_http tr)
    retries ->
  (retries < fuel)%nat ->
  exists tr',
    delete_listed_job py_str E fuel self job tr = (Ok tt, tr') /\
    http_requests tr'
    = http_requests tr
      ++ repeat (job_delete_request py_str self uuid) (S retries) /\
    count is_http tr' = (count is_http tr + retries + 1)%nat.
Proof.
  intros (fields & -> & Huuid) Hrate Hlim Hfuel.
  unfold delete_listed_job. unfold bind at 1. unfold logger_debug, emit.
  cbn [getitem]. rewrite Huuid.
  change (uuid0 <- ret uuid ;;
          requests_send E (job_delete_request py_str self uuid0))
    with (requests_send E (job_delete_request py_str self uuid)).
  set (tr1 := tr ++ [EvLog DEBUG "{job}" [VData (PDict fields)]]).
  assert (Hc : count is_http tr1 = count is_http tr)
    by (unfold tr1; count_events).
  rewrite <- Hc in Hlim.
  unfold bind at 1.
  rewrite (retry_loop_attempts E self _ retries fuel tr1 Hrate Hlim Hfuel).
  destruct (display_response_displayed
              (server E (count is_http tr1 + retries)
                 (job_delete_request py_str self uuid)) false
              (tr1 ++ attempts E self (job_delete_request py_str self uuid)
                        (count is_http tr1) retries))
    as (logs & Hd & Hlogs).
  unfold bind. rewrite Hd. unfold ret. eexists. split; [reflexivity|].
  split.
  - unfold tr1. rewrite !http_requests_app, http_requests_attempts,
      (logs_no_requests _ Hlogs). simpl. now rewrite !app_nil_r.
  - rewrite !count_app, count_http_attempts, Hc.
    assert (Hl : count is_http logs = 0%nat).
    { clear - Hlogs. induction logs as [|e logs IH]; [reflexivity|].
      simpl in Hlogs. destruct e; try discriminate. exact (IH Hlogs). }
    rewrite Hl. lia.
Qed.

Lemma for_each_deletes :
  forall (jobs : list PyData) (deletions : list (PyData * nat)) (tr : Trace),
    Forall2 (fun job del => job_with_uuid job (fst del)) jobs deletions ->
    serves_deletes py_str E self (count is_http tr) deletions ->
    Forall (fun del => (snd del < fuel)%nat) deletions ->
    exists tr',
      for_each jobs (delete_listed_job py_str E fuel self) tr = (Ok tt, tr') /\
      http_requests tr'
      = http_requests tr ++ delete_requests py_str self deletions.
Proof.
  intros jobs deletions tr H. revert tr.
  induction H as [|job [uuid retries] jobs deletions Hjob _ IH];
    intros tr Hserves Hfuel.
  - exists tr. split; [reflexivity|]. cbn. now rewrite app_nil_r.
  - cbn [serves_deletes] in Hserves. destruct Hserves as (Hrate & Hlim & Hrest).
    inversion Hfuel as [|? ? Hk Hfuel']; subst. cbn [fst snd] in *.
    destruct (delete_listed_job_requests job uuid retries tr Hjob Hrate Hlim Hk)
      as (tr1 & Hone & Hreq1 & Hc1).
    rewrite <- Hc1 in Hrest.
    destruct (IH tr1 Hrest Hfuel') as (tr2 & Hall & Hreq2).
    exists tr2. cbn [for_each]. unfold bind. rewrite Hone, Hall.
    split; [reflexivity|]. rewrite Hreq2, Hreq1.
    unfold delete_requests. cbn [flat_map fst snd].
    now rewrite <- app_assoc.
Qed.

End DeleteAll.

(** X13: Deleting all jobs sends one DELETE request per job that the listing
    returned, in the order listed, each repeated as long as it is
    rate-limited, and returns [None]. *)
Theorem job_delete_all_deletes_each_listed_job :
  forall (py_str : PyData -> string) (E : Env) (self : Client) (fuel : nat)
         (tr tr1 : Trace) (jobs : list PyData)
         (deletions : list (PyData * nat)),
    job_list E fuel self "" tr = (Ok (VData (PList jobs)), tr1) ->
    Forall2 (fun job del => job_with_uuid job (fst del)) jobs deletions ->
    serves_deletes py_str E self (count is_http tr1) deletions ->
    Forall (fun del => (snd del < fuel)%nat) deletions ->
    fst (job_delete_all py_str E fuel self tr) = Ok VNone /\
    http_requests (snd (job_delete_all py_str E fuel self tr))
    = http_requests tr1 ++ delete_requests py_str self deletions.
Proof.
  intros py_str E self fuel tr tr1 jobs deletions Hlist Hjobs Hserves Hfuel.
  destruct (for_each_deletes py_str E self fuel jobs deletions tr1
              Hjobs Hserves Hfuel) as (tr2 & Hall & Hreq).
  assert (Heq : job_delete_all py_str E fuel self tr = (Ok VNone, tr2)).
  { unfold job_delete_all. unfold bind at 1. rewrite Hlist.
    unfold bind at 1. cbn [py_iter]. unfold ret at 1.
    unfold bind. now rewrite Hall. }
  rewrite Heq. now split.
Qed.

(** X14: When the listing fails, deleting all jobs deletes nothing: if the
    first answer to the listing is not a success, no DELETE request is
    sent; the call returns [None] when that answer has an empty body and
    raises [TypeError] when it has not. *)
Theorem job_delete_all_after_failed_listing :
  forall (py_str : PyData -> string) (E : Env) (self : Client) (fuel : nat)
         (tr : Trace) (N : nat),
    let req := plain_request GET (resource_url self "/ce/job/" "")
                 (json_headers self) in
    let r := server E (count is_http tr + N) req in
    can_sleep self N ->
    limited_for E req (count is_http tr) N ->
    (N < fuel)%nat ->
    success r = false ->
    fst (job_delete_all py_str E fuel self tr)
    = (if existsb str_truthy (content r) then Raise TypeError else Ok VNone) /\
    http_requests (snd (job_delete_all py_str E fuel self tr))
    = http_requests tr ++ repeat req (S N).
Proof.
  intros py_str E self fuel tr N req r Hrate Hlim Hfuel Hfail.
  destruct (list_resource_first E self fuel "/ce/job/" "" N tr Hrate Hlim Hfuel)
    as (Hfirst & _).
  fold req in Hfirst. fold r in Hfirst. specialize (Hfirst Hfail).
  assert (Heq : job_delete_all py_str E fuel self tr
                = if existsb str_truthy (content r)
                  then (Raise TypeError,
                        (tr ++ attempts E self req (count is_http tr) N)
                          ++ [EvLog DEBUG "{job}" []])
                  else (Ok VNone,
                        tr ++ attempts E self req (count is_http tr) N)).
  { unfold job_delete_all, job_list. unfold bind at 1. rewrite Hfirst.
    now destruct (existsb str_truthy (content r)). }
  rewrite Heq.
  destruct (existsb str_truthy (content r)); cbn [fst snd];
    (split; [reflexivity|]);
    rewrite ?http_requests_app, http_requests_attempts; simpl;
    now rewrite ?app_nil_r.
Qed.

(** ** The plotting helpers *)



Lemma first_missing_of_both_none (cmf_df lepton_df : Frame)
    (cols : list string) :
  first_missing_of_both cmf_df lepton_df cols = None <->
  forallb (fun col => has_column cmf_df col && has_column lepton_df col) cols
  = true.
Proof.
  induction cols as [|col cols IH]; simpl; [tauto|].
  destruct (has_column cmf_df col); simpl; [|split; discriminate].
  destruct (has_column lepton_df col); simpl; [exact IH|split; discriminate].
Qed.

(** X20: The comparison plot always puts the energy density on the x axis and
    the pressure on the z axis: it shows its figure, of two traces,
    exactly when both frames have the columns E, P and [y_col], and
    raises [ValueError] and shows nothing otherwise. *)
Theorem lepton_plot_needs_both_frames :
  forall (cmf_df lepton_df : Frame) (y_col : string),
    let run := plot_2D_CMF_EoS_with_Lepton cmf_df lepton_df y_col in
    (snd run = None <->
     forallb (fun col => has_column cmf_df col && has_column lepton_df col)
       ["E"; y_col; "P"] = true) /\
    (snd run = None ->
     exists fig,
       shown (fst run) = [fig] /\
       fig_xaxis_title fig = "Energy Density [MeV / fm^3]" /\
       fig_zaxis_title fig = Some "Pressure [MeV / fm^3]" /\
       fig_yaxis_title fig = get_label label_map y_col /\
       map (fun t => series_frame (trace_x t)) (fig_traces fig)
       = [cmf_df; lepton_df] /\
       map (fun t => series_column (trace_x t)) (fig_traces fig)
       = ["E"; "E"]) /\
    (forall err, snd run = Some err ->
       shown (fst run) = [] /\ exists msg, err = PlotValueError msg).
Proof.
  intros cmf_df lepton_df y_col run.
  unfold run, plot_2D_CMF_EoS_with_Lepton.
  rewrite <- first_missing_of_both_none.
  destruct (first_missing_of_both cmf_df lepton_df ["E"; y_col; "P"])
    as [err|] eqn:Hmiss; cbn [fst snd shown app].
  - repeat split; try discriminate.
    injection H as <-. clear - Hmiss.
    cbn [first_missing_of_both] in Hmiss.
    repeat match type of Hmiss with
           | (if ?b then _ else _) = _ => destruct b
           end;
      try discriminate; injection Hmiss as <-; eexists; reflexivity.
  - repeat split; try discriminate. intros _. eexists. repeat split.
Qed.

(** ** The script at the end of [utils.py] *)

Lemma orbit_loop_stuck : forall fuel, orbit_loop fuel orbit_step = Diverge.
Proof.
  induction fuel as [|fuel IH]; [reflexivity|].
  cbn [orbit_loop].
  replace (Qgt_bool orbit_limit orbit_step) with true by reflexivity.
  exact IH.
Qed.

(** X21: The loop of the script never ends when it starts below the limit, as
    it does with [r = 0]: [r =+ 0.1 * 10**(11)] sets [r] to the same value
    below the limit at every turn instead of adding to it.  Started at
    the limit or above, the loop ends at once. *)
Theorem orbit_loop_never_ends :
  forall (fuel : nat) (r : Q),
    (Qgt_bool orbit_limit r = true -> orbit_loop fuel r = Diverge) /\
    (Qgt_bool orbit_limit r = false -> orbit_loop fuel r = Ok r).
Proof.
  intros fuel r. split; intros Hr.
  - destruct fuel as [|fuel]; cbn [orbit_loop]; rewrite Hr; [reflexivity|].
    apply orbit_loop_stuck.
  - destruct fuel as [|fuel]; cbn [orbit_loop]; now rewrite Hr.
Qed.

(** ** More about the client: a later page that fails *)

Lemma list_resource_second_page E self fuel (collection : string)
    (N1 N2 : nat) (tr : Trace) d1 rs (url2 : string) :
  let req1 := plain_request GET (resource_url self collection "")
                (json_headers self) in
  let req2 := plain_request GET url2 (json_headers self) in
  let r1 := server E (count is_http tr + N1) req1 in
  let r2 := server E (count is_http tr + N1 + 1 + N2) req2 in
  can_sleep self N1 -> can_sleep self N2 ->
  limited_for E req1 (count is_http tr) N1 ->
  limited_for E req2 (count is_http tr + N1 + 1) N2 ->
  (N1 < fuel)%nat -> (N2 < fuel)%nat ->
  success r1 = true ->
  json_body r1 = Some (PDict d1) ->
  lookup "results" d1 = Some (PList rs) ->
  lookup "next" d1 = Some (PStr url2) ->
  str_truthy url2 = true ->
  (json_body r2 = None ->
   fst (list_resource E fuel self collection "" tr) = Raise JSONDecodeError) /\
  (forall d2, json_body r2 = Some (PDict d2) -> lookup "results" d2 = None ->
   fst (list_resource E fuel self collection "" tr)
   = Raise (KeyError "results")).
Proof.
  intros req1 req2 r1 r2 Hrate1 Hrate2 Hlim1 Hlim2 Hfuel1 Hfuel2
         Hok Hjson Hres Hnext Hurl.
  set (tr1 := (tr ++ attempts E self req1 (count is_http tr) N1)
                ++ [EvLog DEBUG "Next page of results: {url}"
                          [VData (PStr url2)]]).
  assert (Hc : count is_http tr1 = (count is_http tr + N1 + 1)%nat).
  { unfold tr1. rewrite !count_app, count_http_attempts. count_events. }
  assert (Heq : list_resource E fuel self collection "" tr
                = (response_data <- response_json r2 ;;
                   results <- getitem (VData response_data) "results" ;;
                   acc <- iadd (PList rs) results ;;
                   url <- getitem (VData response_data) "next" ;;
                   follow_next E fuel (fuel - 1) self acc url)
                    (tr1 ++ attempts E self req2 (count is_http tr1) N2)).
  { unfold list_resource. fold (resource_url self collection "").
    fold req1. unfold bind at 1.
    rewrite (retry_loop_attempts E self req1 N1 fuel tr Hrate1 Hlim1 Hfuel1).
    fold r1. unfold success in Hok. rewrite Hok. cbn [negb].
    unfold bind at 1. unfold response_json at 1. rewrite Hjson.
    unfold ret at 1. cbn [str_truthy String.eqb negb].
    unfold bind at 1. cbn [getitem]. rewrite Hres. unfold ret at 1.
    unfold bind at 1. rewrite Hnext. unfold ret at 1.
    unfold bind at 1. unfold logger_debug, emit. fold tr1.
    destruct fuel as [|fuel']; [lia|].
    cbn [follow_next truthy]. unfold str_truthy in Hurl. rewrite Hurl.
    cbn [get_page]. fold req2. unfold bind at 1.
    rewrite <- Hc in Hlim2.
    rewrite (retry_loop_attempts E self req2 N2 (S fuel') tr1
               Hrate2 Hlim2 Hfuel2).
    rewrite Hc. fold r2.
    replace (S fuel' - 1)%nat with fuel' by lia. reflexivity. }
  rewrite Heq. split.
  - intros Hnone. unfold bind, response_json. now rewrite Hnone.
  - intros d2 Hsome Hmiss. unfold bind at 1. unfold response_json.
    rewrite Hsome. unfold ret at 1. unfold bind. cbn [getitem].
    now rewrite Hmiss.
Qed.

(** X8: The status of a later page is never looked at.  When the first page
    of jobs or uploads is served and points to a second one, a second
    answer whose body is not JSON makes the listing raise
    [JSONDecodeError], and one whose JSON body has no ['results'] entry
    makes it raise [KeyError]: what the first page held is lost. *)
Theorem listing_raises_on_bad_later_page :
  forall (E : Env) (self : Client) (fuel N1 N2 : nat) (tr : Trace)
         (d1 : list (string * PyData)) (rs : list PyData) (url2 : string),
    let job_req := plain_request GET (resource_url self "/ce/job/" "")
                     (json_headers self) in
    let upload_req := plain_request GET (resource_url self "/ce/upload/" "")
                        (json_headers self) in
    let req2 := plain_request GET url2 (json_headers self) in
    let r2 := server E (count is_http tr + N1 + 1 + N2) req2 in
    can_sleep self N1 -> can_sleep self N2 ->
    limited_for E req2 (count is_http tr + N1 + 1) N2 ->
    (N1 < fuel)%nat -> (N2 < fuel)%nat ->
    lookup "results" d1 = Some (PList rs) ->
    lookup "next" d1 = Some (PStr url2) ->
    str_truthy url2 = true ->
    json_body r2 = None \/
    (exists d2, json_body r2 = Some (PDict d2) /\ lookup "results" d2 = None) ->
    let e := match json_body r2 with
             | None => JSONDecodeError
             | Some _ => KeyError "results"
             end in
    (limited_for E job_req (count is_http tr) N1 ->
     success (server E (count is_http tr + N1) job_req) = true ->
     json_body (server E (count is_http tr + N1) job_req) = Some (PDict d1) ->
     fst (job_list E fuel self "" tr) = Raise e) /\
    (limited_for E upload_req (count is_http tr) N1 ->
     success (server E (count is_http tr + N1) upload_req) = true ->
     json_body (server E (count is_http tr + N1) upload_req)
     = Some (PDict d1) ->
     fst (upload_list E fuel self "" tr) = Raise e).
Proof.
  intros E self fuel N1 N2 tr d1 rs url2 job_req upload_req req2 r2
         Hrate1 Hrate2 Hlim2 Hfuel1 Hfuel2 Hres Hnext Hurl Hbad e.
  split; intros Hlim1 Hok Hjson.
  - destruct (list_resource_second_page E self fuel "/ce/job/" N1 N2 tr d1 rs
                url2 Hrate1 Hrate2 Hlim1 Hlim2 Hfuel1 Hfuel2 Hok Hjson
                Hres Hnext Hurl) as [Hnone Hmiss].
    fold r2 in Hnone, Hmiss. unfold e, job_list.
    destruct Hbad as [Hb|(d2 & Hb & Hm)]; rewrite Hb;
      [now apply Hnone|now apply (Hmiss d2)].
  - destruct (list_resource_second_page E self fuel "/ce/upload/" N1 N2 tr d1
                rs url2 Hrate1 Hrate2 Hlim1 Hlim2 Hfuel1 Hfuel2 Hok Hjson
                Hres Hnext Hurl) as [Hnone Hmiss].
    fold r2 in Hnone, Hmiss. unfold e, upload_list.
    destruct Hbad as [Hb|(d2 & Hb & Hm)]; rewrite Hb;
      [now apply Hnone|now apply (Hmiss d2)].
Qed.

(** ** More statements at work on the concrete world *)

(** A token handed out, and a token exchange that is rate-limited. *)
Lemma get_api_token_single_request_witness :
  fst (get_api_token (demo_env [ok_response (PDict [("token", PStr "abc")])])
         demo_client [])
  = Ok (PStr "abc") /\
  fst (get_api_token (demo_env [too_many_requests]) demo_client [])
  = Raise TypeError.
Proof.
  split.
  - exact (proj1 (proj2 (proj2 (get_api_token_single_request
             (demo_env [ok_response (PDict [("token", PStr "abc")])])
             demo_client [])))
             [("token", PStr "abc")] (PStr "abc") eq_refl eq_refl eq_refl).
  - exact (proj2 (proj2 (proj2 (proj2 (get_api_token_single_request
             (demo_env [too_many_requests]) demo_client []))))
             (or_introl eq_refl)).
Defined.

(** A job deletion answered with 404. *)
Lemma loop_methods_return_the_answer_witness :
  fst (run (demo_env [not_found]) 1 demo_client (job_delete_call "j1") [])
  = Ok (VResp not_found).
Proof.
  assert (Hlim : limited_for (demo_env [not_found])
                   (plain_request DELETE
                      (api_url_base demo_client +++ "/ce/job/" +++ "j1" +++ "/")
                      (json_headers demo_client)) (count is_http []) 0)
    by (apply limited_forb_sound; reflexivity).
  exact (proj2 (loop_methods_return_the_answer (demo_env [not_found])
                  demo_client 0 1 (job_delete_call "j1") [] _ false []
                  (or_introl eq_refl) eq_refl Hlim (Nat.lt_0_succ 0))
           eq_refl).
Defined.

(** A rate-limited listing of modules with a rate of zero. *)
Lemma nonpositive_rate_breaks_retry_witness :
  fst (list_modules (demo_env [too_many_requests]) 3 zero_rate_client [])
  = Raise ZeroDivisionError.
Proof.
  pose proof (proj2 (nonpositive_rate_breaks_retry
                       (demo_env [too_many_requests]) zero_rate_client 3
                       (plain_request GET
                          (api_url_base zero_rate_client +++ "/ce/module/")
                          (json_headers zero_rate_client)) []
                       (Nat.lt_0_succ 2) eq_refl (Z.le_refl 0))
                list_modules_call [] true eq_refl) as H.
  cbn [run] in H. now rewrite H.
Defined.

(** A local file that does not exist, and one that does. *)
Lemma upload_file_reads_the_local_file_witness :
  upload_file (file_env [ok_response (PDict [])]) 2 demo_client "missing.csv"
    "eos/missing.csv" "" false []
  = (Raise (FileNotFoundError "missing.csv"), []) /\
  exists m, (1 <= m)%nat /\
    http_requests
      (snd (upload_file (file_env [ok_response (PDict [])]) 2 demo_client
              "eos.csv" "eos/eos.csv" "" false []))
    = [] ++
      repeat (mkRequest PUT (api_url_base demo_client +++ "/ce/upload/")
                (auth_only_headers demo_client) None
                (Some [("path", PStr "eos/eos.csv"); ("description", PStr "");
                       ("public", PBool false)])
                (Some [("file", "T,P")]) None false) m.
Proof.
  destruct (upload_file_reads_the_local_file
              (file_env [ok_response (PDict [])]) 2 demo_client "missing.csv"
              "eos/missing.csv" "" false [] (Nat.lt_0_succ 1)) as [Hmissing _].
  destruct (upload_file_reads_the_local_file
              (file_env [ok_response (PDict [])]) 2 demo_client "eos.csv"
              "eos/eos.csv" "" false [] (Nat.lt_0_succ 1)) as [_ Hfile].
  split; [exact (Hmissing eq_refl)|exact (Hfile "T,P" eq_refl)].
Defined.

(** A job looked up by id whose record has a ['next'] entry. *)
Lemma lookup_returns_first_answer_witness :
  job_list (demo_env [ok_response (page_body first_page)]) 2 demo_client
    "job-1" []
  = (Ok (VData (page_body first_page)),
     [] ++ attempts (demo_env [ok_response (page_body first_page)]) demo_client
             (plain_request GET
                (resource_url demo_client "/ce/job/" "job-1")
                (json_headers demo_client)) (count is_http []) 0).
Proof.
  assert (Hlim : limited_for (demo_env [ok_response (page_body first_page)])
                   (plain_request GET
                      (resource_url demo_client "/ce/job/" "job-1")
                      (json_headers demo_client)) (count is_http []) 0)
    by (apply limited_forb_sound; reflexivity).
  destruct (lookup_returns_first_answer
              (demo_env [ok_response (page_body first_page)]) demo_client 2
              "job-1" 0 [] (or_introl eq_refl) (Nat.lt_0_succ 1))
    as [Hjob _].
  destruct (Hjob Hlim) as (_ & _ & Hbody).
  exact (Hbody eq_refl (page_body first_page) eq_refl eq_refl).
Defined.

(** A job file that is not found. *)
Lemma download_job_file_error_status_witness :
  fst (download_job_file (demo_env [not_found]) 2 demo_client "u1"
         "/out/x.csv" "/tmp/ce/jobs" [])
  = Raise (HTTPError 404) /\
  filter is_fs
    (snd (download_job_file (demo_env [not_found]) 2 demo_client "u1"
            "/out/x.csv" "/tmp/ce/jobs" []))
  = [] ++ repeat (EvMakedirs "/tmp/ce/jobs/u1/out") 1.
Proof.
  apply (download_job_file_error_status (demo_env [not_found]) demo_client 2
           "u1" "/out/x.csv" "/tmp/ce/jobs" [] 0).
  - reflexivity.
  - now left.
  - apply limited_forb_sound. reflexivity.
  - lia.
  - reflexivity.
Defined.



(** A job that is running at the first fetch and done at the second. *)
Lemma monitor_returns_terminal_status_witness :
  let api := demo_api [job_status_of "RUNNING"; job_status_of "SUCCESS"] in
  fst (monitor_job (demo_env []) api 5 "job-1" (inject_Z 100) (inject_Z 30) [])
  = Ok (VData (job_status_of "SUCCESS")) /\
  sleeps (snd (monitor_job (demo_env []) api 5 "job-1" (inject_Z 100)
                 (inject_Z 30) []))
  = [] ++ repeat (inject_Z 30) 1.
Proof.
  cbv zeta.
  destruct (monitor_returns_terminal_status (demo_env [])
              (demo_api [job_status_of "RUNNING"; job_status_of "SUCCESS"])
              "job-1" (inject_Z 100) (inject_Z 30) [] 5 1
              [("uuid", PStr "job-1"); ("status", PStr "SUCCESS")]
              (PStr "SUCCESS")) as (Hres & _ & Hsl); try reflexivity.
  - intros i Hi. destruct i as [|i]; [|exfalso; lia].
    eexists _, _. repeat split; reflexivity.
  - intros i Hi. destruct i as [|i]; [reflexivity|exfalso; lia].
  - lia.
  - split; [exact Hres|exact Hsl].
Defined.

(** A fetch that raises. *)
Lemma monitor_never_raises_witness :
  fst (monitor_job (demo_env []) failing_api 5 "job-1" (inject_Z 100)
         (inject_Z 30) [])
  = Ok VNone /\
  sleeps (snd (monitor_job (demo_env []) failing_api 5 "job-1" (inject_Z 100)
                 (inject_Z 30) []))
  = [].
Proof.
  destruct (proj2 (monitor_never_raises (demo_env []) failing_api 5 "job-1"
                     (inject_Z 100) (inject_Z 30) [])
              (Nat.lt_0_succ 4)
              (or_introl (ex_intro _ (HTTPError 404) eq_refl)))
    as (Hres & _ & Hsl).
  split; [exact Hres|exact Hsl].
Defined.

(** A failed job whose status object holds no error information. *)
Lemma download_skipped_unless_success_witness :
  download_successful_job (demo_env []) (demo_api []) "job-1"
    (VData (job_status_of "FAILURE")) "./downloads/" []
  = (Raise (KeyError "error_info"), []).
Proof.
  destruct (proj2 (download_skipped_unless_success (demo_env []) (demo_api [])
                     "job-1" "./downloads/"
                     [("uuid", PStr "job-1"); ("status", PStr "FAILURE")] [])
              (PStr "FAILURE") eq_refl eq_refl) as (_ & _ & Hraise & _).
  exact (Hraise eq_refl eq_refl).
Defined.

(** Two jobs listed and deleted, the first deletion rate-limited once. *)
Lemma job_delete_all_deletes_each_listed_job_witness :
  fst (job_delete_all scalar_str delete_env 5 demo_client []) = Ok VNone /\
  http_requests (snd (job_delete_all scalar_str delete_env 5 demo_client []))
  = http_requests (snd (job_list delete_env 5 demo_client "" []))
    ++ [job_delete_request scalar_str demo_client (PStr "a");
        job_delete_request scalar_str demo_client (PStr "a");
        job_delete_request scalar_str demo_client (PStr "b")].
Proof.
  apply (job_delete_all_deletes_each_listed_job scalar_str delete_env
           demo_client 5 [] (snd (job_list delete_env 5 demo_client "" []))
           two_jobs [(PStr "a", 1%nat); (PStr "b", 0%nat)]).
  - reflexivity.
  - repeat constructor; eexists; split; reflexivity.
  - cbn [serves_deletes].
    split; [right; reflexivity|].
    split; [apply limited_forb_sound; reflexivity|].
    split; [left; reflexivity|].
    split; [apply limited_forb_sound; reflexivity|exact I].
  - repeat constructor; cbn; lia.
Defined.

(** A listing answered with a server error. *)
Lemma job_delete_all_after_failed_listing_witness :
  fst (job_delete_all scalar_str (demo_env [server_error]) 5 demo_client [])
  = Raise TypeError /\
  http_requests
    (snd (job_delete_all scalar_str (demo_env [server_error]) 5 demo_client []))
  = [] ++ repeat (plain_request GET (resource_url demo_client "/ce/job/" "")
                    (json_headers demo_client)) 1.
Proof.
  apply (job_delete_all_after_failed_listing scalar_str
           (demo_env [server_error]) demo_client 5 [] 0).
  - now left.
  - apply limited_forb_sound. reflexivity.
  - lia.
  - reflexivity.
Defined.



(** A lepton frame without the temperature column. *)
Lemma lepton_plot_needs_both_frames_witness :
  snd (plot_2D_CMF_EoS_with_Lepton eos_frame lepton_frame "nB") = None /\
  shown (fst (plot_2D_CMF_EoS_with_Lepton eos_frame lepton_frame "T")) = [].
Proof.
  destruct (lepton_plot_needs_both_frames eos_frame lepton_frame "nB")
    as (Hshown & _).
  destruct (lepton_plot_needs_both_frames eos_frame lepton_frame "T")
    as (_ & _ & Hraised).
  split.
  - apply Hshown. reflexivity.
  - exact (proj1 (Hraised (column_not_found "T" "Lepton ") eq_refl)).
Defined.

(** The script as it is written, starting from [r = 0]. *)
Lemma orbit_loop_never_ends_witness : orbit_loop 1000 0 = Diverge.
Proof.
  exact (proj1 (orbit_loop_never_ends 1000 0) eq_refl).
Defined.

(** A second page answered with a server error. *)
Lemma listing_raises_on_bad_later_page_witness :
  fst (job_list (demo_env [ok_response (page_body first_page); server_error])
         3 demo_client "" [])
  = Raise JSONDecodeError.
Proof.
  refine (proj1 (listing_raises_on_bad_later_page
                   (demo_env [ok_response (page_body first_page); server_error])
                   demo_client 3 0 0 []
                   [("count", PInt 3); ("next", page_next first_page);
                    ("results", PList (page_results first_page))]
                   (page_results first_page)
                   "http://localhost:4000/api/v0/ce/job/?page=2"
                   (or_introl eq_refl) (or_introl eq_refl) _ _ _
                   eq_refl eq_refl eq_refl (or_introl eq_refl)) _ eq_refl
            eq_refl).
  - apply limited_forb_sound. reflexivity.
  - lia.
  - lia.
  - apply limited_forb_sound. reflexivity.
Defined.
